(* ===== verification/_CoqProject ===== *)
-Q . S2P
Prelude.v
Sdk.v
Pagination.v
Enumerators.v
Metrics.v
Driver.v
Requests.v
Sections.v
Format.v
Termination.v
Records.v
