(* ===== verification/Prelude.v ===== *)
(** * A verification development of oci_go_connector

    The program (src/main.go, src/functions/functions.go) is a command
    line tool that lists the resources of a cloud tenancy through the
    provider's SDK and prints them.  It has three parts:

    - the enumerators of src/functions/functions.go ([ListAllInstances],
      [ListAllBootVolumes], [ListAllLoadBalancers], [ListAllBuckets],
      [ListAvailabilityDomains], [ListAllFileSystems],
      [ListFileStorageSnapshots], [ListAllDatabases], [GetBillingReport]):
      each creates an SDK client, builds a request and runs a
      cursor-driven pagination loop, appending every page's items;
    - the metrics aggregator [GetInstanceMetrics]: four monitoring queries
      for one instance, each series reduced to its last data point when
      that point is non-zero;
    - the driver [main] of src/main.go, which calls the enumerators and the
      aggregator in a fixed order and prints one line per record, and exits
      through [log.Fatalf] on the first error.

    ** How the development models the program

    The code is a sequence of remote calls, console output and early
    exits.  It is modelled in a reader/state/exit monad [M R E A] (this
    file): a computation reads an environment [R] (the remote provider,
    the map-iteration order), appends events [E] to a trace (every remote
    request and every printed line, in program order) and ends in an
    [exec A]: [Ret a] (a normal return), [Fatal l] ([log.Fatalf], which
    prints [l] and calls [os.Exit(1)]), [Panic s] (a Go run-time panic:
    nil dereference, index out of range), [Exit c] ([os.Exit(c)]) or
    [OutOfFuel] (the model's loop bound was exhausted).  A Go function
    returning [(T, error)] returns a [result T] ([Ok] / [Err]); the idiom
    [if err != nil { return nil, err }] is the notation [x ←? m ; k].

    - [Prelude.v] (this file): Go values and printed lines, [exec],
      [result], the monad with stdpp's [≫=] notation, [deref] (Go's [*p]),
      [index] (slice indexing), [fatalf], [exit], [for_] (Go's
      [for range]) and [foldM] (a [for range] threading a value); the
      trace discipline [emits_only] and the outcome discipline [ends]
      ([ends P Q m]: from every environment satisfying [P], [m] stops with
      an outcome satisfying [Q]; [halts] is [ends] with "not out of
      fuel"), with their closure lemmas in the hint database [go] and the
      tactics [solve_emits] and [solve_ends].
    - [Sdk.v]: the SDK types the code reads and builds (requests,
      responses with [Items] and [OpcNextPage], resource records), the
      remote provider as a record of pure functions [Provider], the
      environment [Env], the events (requests, printed lines and
      [os.Setenv] assignments), the [PageRequest] class that every
      pageable request implements, [remote] (the logged SDK call), the
      process environment as the start-up variables updated by the
      [os.Setenv] events of the trace ([setenv_view], [os_Getenv],
      [os_Setenv]), and [time.Date] with its calendar.
    - [Pagination.v]: the loop shared by eight enumerators ([paginate],
      lines 33-48 of functions.go and their copies) and the loop of
      [ListAvailabilityDomains] that never sets the cursor
      ([paginate_norethread]); the abstract contract of a listing
      ([pages_from], [fails_from]: the chain of pages the provider serves
      from a request), the refinement theorems relating both, and a
      reference recursion without accumulator ([paginate_ref]).
    - [Enumerators.v]: the nine enumerators, client creation included.
    - [Metrics.v]: [GetInstanceMetrics] over a [gmap string float], with
      the order of Go's map iteration taken from the environment.
    - [Driver.v]: [main] of src/main.go, section by section, from the
      private-key path and the validity check to the billing lines and
      the [else] branch of an invalid configuration ([config_invalid]).
    - [Requests.v]: the fields every request of a run carries.
    - [Sections.v]: the requests of the nested loops of the file-system
      section, in order, and the map [instanceMetrics] that the instance
      loop threads through its iterations ([foldM] of [print_instance]).
    - [Format.v]: the format strings read as the fmt package reads them
      (verbs, flags, [%%]) and the kinds of value each verb formats.
    - [Termination.v]: every run of [main] ends on finite listings.
    - [Records.v]: the record sections (load balancers, databases,
      buckets, availability domains, billing) as one shape, a title, a
      listing and a loop whose body obeys a [Printer]: the lines of a
      record with every dereferenced field set, and the raw print before
      a nil field panics; [print_records] runs a printer over a list.
      The bucket section is also composed with its enumerator and the
      pagination loop, from the pages the provider serves to the lines
      printed.

    ** What is proved (the claims C1-C34 of PROJECT.json)

    - pagination ([Pagination.v]): completeness of the loop against the
      chain of pages the provider serves (one request per page, in chain
      order, and the concatenated items; C1), soundness (C5), error
      propagation without a partial result (C6), equivalence with the
      reference recursion [paginate_ref] (C24); the
      loop without the cursor assignment returns only after a single
      request answered with a null cursor (C33);
    - enumerators ([Enumerators.v]): [ListAllInstances] returns every
      instance of every page (C4); the availability-domain listing
      re-issues the identical request as long as fuel lasts once the
      provider returns a cursor (C10); a failed namespace lookup panics on
      a nil dereference (C11); the namespace is otherwise passed unchanged
      into the bucket requests (C28); a failed identity client exits with
      the Object Storage message (C34);
    - metrics ([Metrics.v]): whatever the iteration order of the query
      map, one request per metric and the map "last point of the last
      series, unless zero" (C2, refinement against [metrics_spec]); the
      reduction of one series (C13); the four keys exactly (C27); a failed
      query returns the error and no map (C26); an empty series panics
      (C12); the error returned is the one
      of the first failing query in Go's iteration order, so with two
      failing queries it depends on that order (C32);
    - driver ([Driver.v]): the requests of any run of [main] go through
      the sections in code order and boot volumes are never listed (C3,
      by a phase invariant [keeps_order] composed section by section);
      the lines printed for a running instance carry the values of its
      metric series (C14); the validity check sees the variables with the
      private-key path set from the working directory, and an invalid
      configuration exits through [log.Fatalf] before any print
      (C25); a failed
      step ends the run with its message and nothing after it runs (C29,
      C30, with the wrong "Buckets" message for availability domains);
    - the whole run: [main] always ends, by returning, [log.Fatalf] or a
      panic, when the listings are finite and the availability domains
      come in one page (C7, [Termination.v], from the [ends] lemmas of
      every component); every request is scoped to the tenancy of
      [OCI_CONFIG_tenancy_ocid] (C8) and the billing window is 30 days,
      missing May 31 (C31, [Requests.v]); every line printed or logged has
      one argument per verb, and the only verbs given a value of the
      wrong kind are the [%d] of the file-system line (C9, [Format.v]);
    - loops of the driver ([Sections.v]): the nested loops of the
      file-system section send, domain by domain, the file-system listing
      and then one snapshot listing per file system (C16); the map
      [instanceMetrics] of the instance loop ends with exactly the OCIDs
      of the running instances as keys (C15, by induction on the loop);
    - record sections ([Records.v]): the load-balancer, database and
      billing sections print, on every branch of their listing, the
      lines a pure printer gives for each record in order, and exit with
      their message when the listing fails (C20,
      C23, C21); the
      availability-domain section does the same and returns the domains
      unchanged to the file-system section
      (C22); a record with a
      nil field ends the run with a Go panic after its raw print, not with
      a logged message (C17); composed with the
      bucket enumerator and the pagination loop, the bucket section sends
      the namespace lookup and one request per served page and then
      prints the buckets of all pages in order (C18),
      and a listing failing after [n] pages exits before printing any
      bucket (C19).

    The models of library functions ([time.Date], [os.Setenv] and
    [os.Getenv], [filepath.Join]) carry no theorem of their own: they
    enter the claims above only through the code that calls them.

    Every claim with hypotheses has a witness applying it to a concrete
    provider built in the file that states it.

    ** Time and map order

    [time.Now()] reads the clock [Now] of the environment at the current
    trace length, so two calls at different points may differ.  Go's
    randomised map iteration is [MapOrder], an arbitrary permutation of
    [map_to_list] chosen by the environment; theorems that hold for every
    order quantify over it.

    ** Fuel

    Every pagination loop takes a [fuel : nat] bounding the number of
    requests.  The completeness theorems state that fuel at least the
    number of pages served gives the result.  [OutOfFuel] is never a
    behaviour of the program: it marks a run the bound cut short, and C7
    shows that fuel equal to the page bound of the listings is enough.

    ** What the modelling showed

    The availability-domain loop never assigns [request.Page]
    (functions.go line 174) and does not terminate on a multi-page
    answer; the error of [GetNamespace] is dropped (line 125) and turns
    into a nil dereference; an empty series indexes at -1 (line 341);
    the identity, file-storage and database client failures print the
    Object Storage message; main.go reports availability-domain and
    billing failures as "Error fetching Buckets" (lines 119, 156), prints
    the [*int64] MeteredBytes with [%d] (line 137, a pointer; C9), never
    reaches the diagnostics and [os.Exit(1)] after [log.Fatalf] (lines
    166-176), panics instead of logging when a listed record has a nil field
    (lines 85, 98, 112, 162), and asks for a "monthly" billing window of 30 days that
    leaves out May 31 (line 154).

    ** Not modelled

    The rendering of values by the fmt package (the digits of [%.2f], the
    layout of a time, the address a pointer prints as): a printed line is
    kept as its format string and argument values, and [Format.v] checks
    only verbs against arguments.  The SDK's transport, signing and the
    provider's server side are abstracted as the pure functions of
    [Provider]; the library calls [godotenv.Load], [filepath.Join] and
    [IsConfigurationProviderValid] over
    [ConfigurationProviderEnvironmentVariables] are functions of the
    environment ([DotenvLoad], [Join], [ConfigValid]): the model fixes
    where the code calls them and what it passes, not what they compute.
    [ListAllBootVolumes] is modelled but never called by [main]. *)

From stdpp Require Export base list strings gmap.
From Stdlib Require Export PrimFloat ZArith.

(** ** Go values, as the fmt and log packages receive them *)

(** An [error] is kept as the text of its [Error()] method. *)
Definition GoError := string.

(** An argument of a [Printf]/[Println] call. *)
#[warnings="-register-all"]
Inductive Value : Type :=
| VStr (s : string)
| VFloat (f : float)
| VInt (z : Z)
| VErr (e : GoError)
| VTime (t : Z)                      (* a [time.Time], in ns since the epoch *)
| VPtr (target : option Value)       (* a pointer passed without [*] *)
| VStruct (fields : list Value).     (* a struct passed whole *)

(** One call of [fmt.Printf], [fmt.Println] or [log.Fatalf]. *)
Inductive Line : Type :=
| Printf (format : string) (args : list Value)
| Println (args : list Value).

(** ** Outcomes *)

Inductive exec (A : Type) : Type :=
| Ret (a : A)
| Fatal (msg : Line)
| Panic (msg : string)
| Exit (code : Z)
| OutOfFuel.
Arguments Ret {A} a.
Arguments Fatal {A} msg.
Arguments Panic {A} msg.
Arguments Exit {A} code.
Arguments OutOfFuel {A}.

(** The [(T, error)] pair of a Go function that returns either. *)
Inductive result (A : Type) : Type :=
| Ok (a : A)
| Err (e : GoError).
Arguments Ok {A} a.
Arguments Err {A} e.

(** The outcome of a computation that stopped early, at any type. *)
Definition halted {A B} (x : exec A) : option (exec B) :=
  match x with
  | Ret _ => None
  | Fatal l => Some (Fatal l)
  | Panic s => Some (Panic s)
  | Exit c => Some (Exit c)
  | OutOfFuel => Some OutOfFuel
  end.

(** ** The monad *)

Definition M (R E A : Type) : Type := R -> list E -> list E * exec A.

Section Monad.
Context {R E : Type}.

Definition M_ret {A} (a : A) : M R E A := fun _ tr => (tr, Ret a).

Definition M_bind {A B} (k : A -> M R E B) (m : M R E A) : M R E B :=
  fun r tr =>
    match m r tr with
    | (tr', Ret a) => k a r tr'
    | (tr', Fatal l) => (tr', Fatal l)
    | (tr', Panic s) => (tr', Panic s)
    | (tr', Exit c) => (tr', Exit c)
    | (tr', OutOfFuel) => (tr', OutOfFuel)
    end.

#[export] Instance M_MRet : MRet (M R E) := @M_ret.
#[export] Instance M_MBind : MBind (M R E) := @M_bind.

(** Read the environment. *)
Definition ask : M R E R := fun r tr => (tr, Ret r).

(** Append one event to the trace. *)
Definition emit (e : E) : M R E unit := fun _ tr => (tr ++ [e], Ret tt).

(** [log.Fatalf(format, args...)]: print and [os.Exit(1)]. *)
Definition fatalf {A} (format : string) (args : list Value) : M R E A :=
  fun _ tr => (tr, Fatal (Printf format args)).

Definition panic {A} (msg : string) : M R E A := fun _ tr => (tr, Panic msg).

Definition out_of_fuel {A} : M R E A := fun _ tr => (tr, OutOfFuel).

(** [os.Exit(code)]. *)
Definition exit {A} (code : Z) : M R E A := fun _ tr => (tr, Exit code).

(** Go's [*p]: a nil pointer panics. *)
Definition deref {A} (p : option A) : M R E A :=
  match p with
  | Some a => mret a
  | None => panic "invalid memory address or nil pointer dereference"
  end.

(** [xs[i]] on a slice: out of range panics. *)
Definition index {A} (xs : list A) (i : Z) : M R E A :=
  if (0 <=? i)%Z then
    match xs !! Z.to_nat i with
    | Some x => mret x
    | None => panic "index out of range"
    end
  else panic "index out of range".

(** A [for range] loop that updates a local variable [b]. *)
Fixpoint foldM {A B} (f : B -> A -> M R E B) (b : B) (xs : list A) : M R E B :=
  match xs with
  | [] => mret b
  | x :: xs' => b' ← f b x; foldM f b' xs'
  end.

(** [for _, x := range xs { body }]. *)
Fixpoint for_ {A} (xs : list A) (body : A -> M R E unit) : M R E unit :=
  match xs with
  | [] => mret tt
  | x :: xs' => body x ;; for_ xs' body
  end.
End Monad.

Declare Scope go_scope.
Delimit Scope go_scope with go.
Open Scope go_scope.

(** [x, err := m; if err != nil { return nil, err }; k] *)
Notation "x ←? m ; k" :=
  (mbind (λ r, match r with Ok x => k | Err e => mret (Err e) end) m)
  (at level 20, m at level 100, k at level 200, only parsing) : go_scope.

(** ** Trace discipline

    [emits_only P m]: whatever the environment and the trace so far, [m]
    only appends events satisfying [P]; in particular it never rewrites
    what was already emitted. *)

Definition emits_only {R E A} (P : E -> Prop) (m : M R E A) : Prop :=
  ∀ r tr, ∃ tr', fst (m r tr) = tr ++ tr' ∧ Forall P tr'.

(** How a run stopped, with the value it returned forgotten. *)
Definition stop_of {A} (x : exec A) : exec unit :=
  match x with
  | Ret _ => Ret tt
  | Fatal l => Fatal l
  | Panic s => Panic s
  | Exit c => Exit c
  | OutOfFuel => OutOfFuel
  end.

(** [ends P Q m]: in every environment satisfying [P], the way [m] stops
    satisfies [Q]. *)
Definition ends {R E A} (P : R -> Prop) (Q : exec unit -> Prop) (m : M R E A) : Prop :=
  ∀ r tr, P r -> Q (stop_of (snd (m r tr))).

Definition not_out_of_fuel (x : exec unit) : Prop := x ≠ OutOfFuel.

(** [halts P m]: in every environment satisfying [P], [m] ends by
    returning, by [log.Fatalf], [os.Exit] or a panic; it is never cut
    short by the fuel of a loop. *)
Abbreviation halts P := (ends P not_out_of_fuel).

Create HintDb go discriminated.

(** ** Running a computation *)

Section Run.
Context {R E : Type}.

Lemma run_ret {A} (a : A) (r : R) (tr : list E) :
  (mret a : M R E A) r tr = (tr, Ret a).
Proof. reflexivity. Qed.

Lemma run_bind_ret {A B} (m : M R E A) (k : A -> M R E B) r tr tr' a :
  m r tr = (tr', Ret a) -> (m ≫= k) r tr = k a r tr'.
Proof. intros H. unfold mbind, M_MBind, M_bind. by rewrite H. Qed.

Lemma run_bind_halt {A B} (m : M R E A) (k : A -> M R E B) r tr tr' x y :
  m r tr = (tr', x) -> halted x = Some y -> (m ≫= k) r tr = (tr', y).
Proof.
  intros H Hy. unfold mbind, M_MBind, M_bind. rewrite H.
  destruct x; simplify_eq/=; done.
Qed.

Lemma run_bind_inv {A B} (m : M R E A) (k : A -> M R E B) r tr tr' b :
  (m ≫= k) r tr = (tr', Ret b) ->
  ∃ tr1 a, m r tr = (tr1, Ret a) ∧ k a r tr1 = (tr', Ret b).
Proof.
  unfold mbind, M_MBind, M_bind.
  destruct (m r tr) as [tr1 [a| | | |]]; intros H; simplify_eq; eauto.
Qed.

Lemma bind_assoc_run {A B C} (m : M R E A) (f : A -> M R E B)
      (g : B -> M R E C) r tr :
  ((m ≫= f) ≫= g) r tr = (m ≫= (λ x, f x ≫= g)) r tr.
Proof. unfold mbind, M_MBind, M_bind. by destruct (m r tr) as [? []]. Qed.

Lemma run_emit (e : E) (r : R) tr : (emit e : M R E unit) r tr = (tr ++ [e], Ret tt).
Proof. reflexivity. Qed.

Lemma run_for_nil {A} (body : A -> M R E unit) r tr :
  for_ [] body r tr = (tr, Ret tt).
Proof. reflexivity. Qed.

Lemma run_for_cons {A} (x : A) xs (body : A -> M R E unit) r tr :
  for_ (x :: xs) body r tr = (body x ;; for_ xs body) r tr.
Proof. reflexivity. Qed.
End Run.

Section EmitsOnly.
Context {R E : Type} (P : E -> Prop).

Lemma emits_only_ret {A} (a : A) : emits_only (R:=R) P (mret a).
Proof. intros r tr. exists []. by rewrite app_nil_r. Qed.

Lemma emits_only_emit (e : E) : P e -> emits_only (R:=R) P (emit e).
Proof. intros He r tr. exists [e]. auto. Qed.

Lemma emits_only_halt {A} (m : M R E A) :
  (∀ r tr, fst (m r tr) = tr) -> emits_only P m.
Proof. intros H r tr. exists []. rewrite H. by rewrite app_nil_r. Qed.

Lemma emits_only_fatalf {A} f args : emits_only (R:=R) (A:=A) P (fatalf f args).
Proof. apply emits_only_halt. done. Qed.

Lemma emits_only_panic {A} s : emits_only (R:=R) (A:=A) P (panic s).
Proof. apply emits_only_halt. done. Qed.

Lemma emits_only_out_of_fuel {A} : emits_only (R:=R) (A:=A) P out_of_fuel.
Proof. apply emits_only_halt. done. Qed.

Lemma emits_only_exit {A} c : emits_only (R:=R) (A:=A) P (exit c).
Proof. apply emits_only_halt. done. Qed.

Lemma emits_only_ask : emits_only (E:=E) P (ask (R:=R)).
Proof. apply emits_only_halt. done. Qed.

Lemma emits_only_deref {A} (p : option A) : emits_only (R:=R) P (deref p).
Proof. destruct p; [apply emits_only_ret | apply emits_only_panic]. Qed.

Lemma emits_only_bind {A B} (m : M R E A) (k : A -> M R E B) :
  emits_only P m -> (∀ a, emits_only P (k a)) -> emits_only P (m ≫= k).
Proof.
  intros Hm Hk r tr. destruct (Hm r tr) as [t1 [E1 F1]].
  unfold mbind, M_MBind, M_bind.
  destruct (m r tr) as [tr1 x] eqn:Hrun; simpl in E1; subst tr1.
  destruct x as [a| | | |]; simpl; try (exists t1; done).
  destruct (Hk a r (tr ++ t1)) as [t2 [E2 F2]].
  exists (t1 ++ t2). rewrite E2, app_assoc. split; [done|]. by apply Forall_app.
Qed.

Lemma emits_only_for {A} (xs : list A) (body : A -> M R E unit) :
  (∀ x, x ∈ xs -> emits_only P (body x)) -> emits_only P (for_ xs body).
Proof.
  induction xs as [|x xs IH]; intros Hb; simpl.
  - apply emits_only_ret.
  - apply emits_only_bind; [apply Hb; set_solver|].
    intros _. apply IH. intros y Hy. apply Hb. set_solver.
Qed.

Lemma emits_only_weaken (Q : E -> Prop) {A} (m : M R E A) :
  (∀ e, P e -> Q e) -> emits_only P m -> emits_only Q m.
Proof.
  intros HPQ Hm r tr. destruct (Hm r tr) as [t [Ht Ft]].
  exists t. split; [done|]. eapply Forall_impl; eauto.
Qed.
End EmitsOnly.

Lemma emits_only_index {R E A} (P : E -> Prop) (xs : list A) i :
  emits_only (R:=R) P (index xs i).
Proof.
  unfold index. destruct (0 <=? i)%Z; [destruct (xs !! Z.to_nat i)|];
    apply emits_only_halt; done.
Qed.

Lemma emits_only_foldM {R E A B} (P : E -> Prop) (f : B -> A -> M R E B) b xs :
  (∀ b x, emits_only P (f b x)) -> emits_only P (foldM f b xs).
Proof.
  intros Hf. revert b. induction xs as [|x xs IH]; intros b; simpl.
  - apply emits_only_ret.
  - apply emits_only_bind; [apply Hf|done].
Qed.

#[export] Hint Resolve emits_only_index emits_only_foldM : go.

#[export] Hint Resolve emits_only_ret emits_only_emit emits_only_fatalf
  emits_only_panic emits_only_out_of_fuel emits_only_exit emits_only_ask emits_only_deref
  emits_only_bind emits_only_for : go.

(** ** How a run stops *)

Section Ends.
Context {R E : Type} (P : R -> Prop) (Q : exec unit -> Prop).

(** A step that always stops the same way. *)
Lemma ends_step {A} (m : M R E A) : (∀ r tr, Q (stop_of (snd (m r tr)))) -> ends P Q m.
Proof. intros H r tr _. apply H. Qed.

Lemma ends_ret {A} (a : A) : Q (Ret tt) -> ends (E:=E) P Q (mret a).
Proof. intros HQ. by apply ends_step. Qed.

Lemma ends_emit (e : E) : Q (Ret tt) -> ends (R:=R) P Q (emit e).
Proof. intros HQ. by apply ends_step. Qed.

Lemma ends_fatalf {A} f args :
  Q (Fatal (Printf f args)) -> ends (R:=R) (E:=E) (A:=A) P Q (fatalf f args).
Proof. intros HQ. by apply ends_step. Qed.

Lemma ends_panic {A} s : Q (Panic s) -> ends (R:=R) (E:=E) (A:=A) P Q (panic s).
Proof. intros HQ. by apply ends_step. Qed.

Lemma ends_exit {A} c : Q (Exit c) -> ends (R:=R) (E:=E) (A:=A) P Q (exit c).
Proof. intros HQ. by apply ends_step. Qed.

Lemma ends_ask : Q (Ret tt) -> ends (E:=E) P Q (ask (R:=R)).
Proof. intros HQ. by apply ends_step. Qed.

Lemma ends_deref {A} (p : option A) :
  Q (Ret tt) -> Q (Panic "invalid memory address or nil pointer dereference") ->
  ends (E:=E) P Q (deref p).
Proof. intros H1 H2. destruct p; by apply ends_step. Qed.

Lemma ends_index {A} (xs : list A) i :
  Q (Ret tt) -> Q (Panic "index out of range") -> ends (E:=E) P Q (index xs i).
Proof.
  intros H1 H2. apply ends_step. intros r tr. unfold index.
  destruct (0 <=? i)%Z; [destruct (xs !! Z.to_nat i)|]; done.
Qed.

Lemma ends_bind {A B} (m : M R E A) (k : A -> M R E B) :
  ends P Q m -> (∀ a, ends P Q (k a)) -> ends P Q (m ≫= k).
Proof.
  intros Hm Hk r tr Hr. specialize (Hm r tr Hr).
  unfold mbind, M_MBind, M_bind.
  destruct (m r tr) as [tr1 [a| | | |]]; simpl in *; [by apply Hk|done..].
Qed.

Lemma ends_for {A} (xs : list A) (body : A -> M R E unit) :
  Q (Ret tt) -> (∀ x, x ∈ xs -> ends P Q (body x)) -> ends P Q (for_ xs body).
Proof.
  intros HQ. induction xs as [|x xs IH]; intros Hb; simpl; [by apply ends_ret|].
  apply ends_bind; [apply Hb; set_solver|].
  intros _. apply IH. intros y Hy. apply Hb. set_solver.
Qed.

Lemma ends_foldM {A B} (f : B -> A -> M R E B) b xs :
  Q (Ret tt) -> (∀ b x, ends P Q (f b x)) -> ends P Q (foldM f b xs).
Proof.
  intros HQ Hf. revert b. induction xs as [|x xs IH]; intros b; simpl; [by apply ends_ret|].
  apply ends_bind; [apply Hf|done].
Qed.

Lemma ends_weaken (P' : R -> Prop) {A} (m : M R E A) :
  (∀ r, P' r -> P r) -> ends P Q m -> ends P' Q m.
Proof. intros HP Hm r tr Hr. by apply Hm, HP. Qed.
End Ends.

(** A run that halts is not cut short. *)
Lemma halts_run {R E A} (P : R -> Prop) (m : M R E A) r tr :
  halts P m -> P r -> snd (m r tr) ≠ OutOfFuel.
Proof. intros Hm Hr. specialize (Hm r tr Hr). by destruct (snd (m r tr)). Qed.

#[export] Hint Resolve ends_ret ends_emit ends_fatalf ends_panic ends_exit ends_ask
  ends_deref ends_index : go.
#[export] Hint Extern 1 (not_out_of_fuel _) => (unfold not_out_of_fuel; discriminate) : go.

(** Prove [emits_only P m] by following the structure of [m]. *)
Ltac solve_emits :=
  repeat first
    [ progress intros
    | solve [eauto with go]
    | apply emits_only_bind
    | apply emits_only_for
    | apply emits_only_foldM
    | match goal with |- emits_only _ (match ?x with _ => _ end) => destruct x end ].

(** Prove [ends P Q m] by following the structure of [m]; the side
    conditions on [Q] go to the hint database. *)
Ltac solve_ends :=
  repeat first
    [ progress intros
    | solve [eauto with go]
    | apply ends_bind
    | (apply ends_for; [solve [eauto with go]|])
    | (apply ends_foldM; [solve [eauto with go]|])
    | match goal with |- ends _ _ (match ?x with _ => _ end) => destruct x end
    | match goal with |- ends _ _ (if ?x then _ else _) => destruct x end ].

Ltac solve_halts := solve_ends.

(** Unfold a computation step by step where its first action is known. *)
Ltac go_run :=
  repeat first
    [ rewrite run_ret
    | rewrite run_emit
    | erewrite run_bind_ret by (cbn; reflexivity)
    | erewrite run_bind_halt by (cbn; reflexivity) ].

(** Indexing the last element of a slice: [xs[len(xs)-1]]. *)
Lemma index_last {R E A} (xs : list A) (x : A) :
  last xs = Some x ->
  index (R:=R) (E:=E) xs (Z.of_nat (length xs) - 1) = mret x.
Proof.
  intros Hl. unfold index.
  destruct xs as [|y ys] using rev_ind; [discriminate|].
  rewrite last_snoc in Hl. simplify_eq. rewrite length_app. simpl.
  replace (Z.of_nat (length ys + 1) - 1)%Z with (Z.of_nat (length ys)) by lia.
  rewrite Nat2Z.id. destruct (Z.leb_spec 0 (Z.of_nat (length ys))); [|lia].
  by rewrite lookup_app_r, Nat.sub_diag by lia.
Qed.

Lemma index_empty {R E A} :
  index (R:=R) (E:=E) (A:=A) [] (Z.of_nat 0 - 1) = panic "index out of range".
Proof. reflexivity. Qed.

(** ** Generic lemmas on lists shared by the components *)

Lemma concat_map_nil {A B} (l : list A) : concat (map (λ _, @nil B) l) = [].
Proof. by induction l. Qed.

Lemma concat_map_singleton {A B} (f : A -> B) (l : list A) :
  concat (map (λ x, [f x]) l) = map f l.
Proof. by induction l as [|x l IH]; [|simpl; rewrite IH]. Qed.

Lemma fold_left_app_acc {A} (l : list (list A)) (acc : list A) :
  fold_left (λ a x, a ++ x) l acc = acc ++ concat l.
Proof.
  revert acc. induction l as [|x l IH]; intros acc; simpl.
  - by rewrite app_nil_r.
  - rewrite IH. by rewrite app_assoc.
Qed.

Lemma lookup_list_to_map_fun `{Countable K} {V} (ks : list K) (f : K -> V) k :
  (list_to_map ((λ k, (k, f k)) <$> ks) : gmap K V) !! k =
    if decide (k ∈ ks) then Some (f k) else None.
Proof.
  induction ks as [|k' ks IH]; [done|].
  rewrite fmap_cons, list_to_map_cons, lookup_insert, IH.
  repeat case_decide; set_solver.
Qed.

Lemma Forall_app_singleton {A} (P : A -> Prop) (l : list A) (x : A) :
  Forall P (l ++ [x]) <-> Forall P l ∧ P x.
Proof. rewrite Forall_app, Forall_singleton. done. Qed.
