(* ===== verification/Sdk.v ===== *)
(** * The SDK boundary

    The SDK types that src/functions/functions.go builds and reads, kept
    to the fields the code touches.  A pointer field of the SDK ([*string],
    [*float64], [*SDKTime], ...) is an [option]; an enum field
    ([LifecycleState], [DatabaseEdition]) is its string.  Each type lives
    in a Module named after it, so that a field reads as in Go
    ([LoadBalancer.DisplayName lb] for [lb.DisplayName]).

    The remote provider is a record of pure functions [Provider], one per
    endpoint the code calls: the listing endpoints are read-only, so a
    request determines its answer.  [Env] adds what the process reads
    besides: client creation, the clock, the iteration order of Go maps,
    the [.env] and working-directory lookups and the configuration check.
    [remote] is one logged SDK call.  [PageRequest] is the interface every
    pageable request offers to the pagination loop: its [Page] field.
    Environment variables are the start-up values updated by the
    [os.Setenv] events of the trace, so a later [os.Getenv] reads the
    last value set.  [time.Date] is the closed-form day count of the
    proleptic Gregorian calendar (days from 1970-01-01). *)

From S2P Require Import Prelude.

(** ** Time *)

(** A [time.Time] as nanoseconds since the Unix epoch (UTC). *)
Definition GoTime := Z.

Section Time.
Local Open Scope Z_scope.

Definition Second : Z := 1000000000.
Definition Minute : Z := 60 * Second.

(** Days since 1970-01-01 of a proleptic Gregorian date. *)
Definition days_from_civil (y m d : Z) : Z :=
let y' := if m <=? 2 then y - 1 else y in
let era := y' / 400 in
let yoe := y' - era * 400 in
let mp := (m + 9) mod 12 in
let doy := (153 * mp + 2) / 5 + d - 1 in
let doe := yoe * 365 + yoe / 4 - yoe / 100 + doy in
era * 146097 + doe - 719468.

(** [time.Date(y, m, d, hh, mm, ss, ns, time.UTC)] for a valid date. *)
Definition time_Date (y m d hh mm ss ns : Z) : GoTime :=
((days_from_civil y m d * 24 + hh) * 60 + mm) * 60 * Second + ss * Second + ns.

(** [t.Add(d)] *)
Definition time_Add (t : GoTime) (d : Z) : GoTime := t + d.

End Time.

(** ** Responses *)

(** Every listing response: the page's [Items] and the continuation
    cursor [OpcNextPage] ([nil] on the last page). *)
Record Page (Item : Type) := mkPage {
  Items : list Item;
  OpcNextPage : option string;
}.
Arguments mkPage {Item} _ _.
Arguments Items {Item} _.
Arguments OpcNextPage {Item} _.

(** ** Resource records *)

Module InstanceShapeConfig.
Record t := mk {
  ProcessorDescription : option string;
  Ocpus : option float;
  MemoryInGBs : option float;
}.
End InstanceShapeConfig.

Module CoreInstance.
Record t := mk {
  Id : option string;
  DisplayName : option string;
  Shape : option string;
  LifecycleState : string;
  ShapeConfig : option InstanceShapeConfig.t;
}.
End CoreInstance.

Module BootVolume.
Record t := mk { Id : option string; DisplayName : option string }.
End BootVolume.

Module LoadBalancer.
Record t := mk {
  DisplayName : option string;
  ShapeName : option string;
  LifecycleState : string;
}.
End LoadBalancer.

Module DbSystemSummary.
Record t := mk {
  DisplayName : option string;
  DatabaseEdition : string;
  LifecycleState : string;
}.
End DbSystemSummary.

Module BucketSummary.
Record t := mk {
  Name : option string;
  CreatedBy : option string;
  TimeCreated : option GoTime;
}.
End BucketSummary.

Module AvailabilityDomain.
Record t := mk { Name : option string; Id : option string }.
End AvailabilityDomain.

Module FileSystemSummary.
Record t := mk {
  Id : option string;
  DisplayName : option string;
  MeteredBytes : option Z;
  LifecycleState : string;
}.
End FileSystemSummary.

Module SnapshotSummary.
Record t := mk {
  Name : option string;
  TimeCreated : option GoTime;
  LifecycleState : string;
}.
End SnapshotSummary.

Module UsageSummary.
Record t := mk {
  TimeUsageStarted : option GoTime;
  ComputedQuantity : option float;
}.
End UsageSummary.

Module AggregatedDatapoint.
Record t := mk { Timestamp : option GoTime; Value : option float }.
End AggregatedDatapoint.

Module MetricData.
Record t := mk { AggregatedDatapoints : list AggregatedDatapoint.t }.
End MetricData.

(** ** Requests *)

(** What the pagination loop needs of a request: its [Page] field, read
    and written ([request.Page = response.OpcNextPage]). *)
Class PageRequest (Req : Type) := {
  req_page : Req -> option string;
  set_page : option string -> Req -> Req;
  req_page_set : ∀ p r, req_page (set_page p r) = p;
  set_page_set : ∀ p q r, set_page p (set_page q r) = set_page p r;
}.

Module ListInstancesRequest.
Record t := mk { CompartmentId : option string; Page : option string }.
End ListInstancesRequest.

Module ListBootVolumesRequest.
Record t := mk {
  CompartmentId : option string;
  AvailabilityDomain : option string;
  Page : option string;
}.
End ListBootVolumesRequest.

Module ListLoadBalancersRequest.
Record t := mk { CompartmentId : option string; Page : option string }.
End ListLoadBalancersRequest.

Module GetNamespaceRequest.
Record t := mk { CompartmentId : option string }.
End GetNamespaceRequest.

Module ListBucketsRequest.
Record t := mk {
  NamespaceName : option string;
  CompartmentId : option string;
  Page : option string;
}.
End ListBucketsRequest.

(** This request has no [Page] field, which is why the code leaves the
    cursor assignment commented out. *)
Module ListAvailabilityDomainsRequest.
Record t := mk { CompartmentId : option string }.
End ListAvailabilityDomainsRequest.

Module ListFileSystemsRequest.
Record t := mk {
  CompartmentId : option string;
  AvailabilityDomain : option string;
  Page : option string;
}.
End ListFileSystemsRequest.

Module ListSnapshotsRequest.
Record t := mk { FileSystemId : option string; Page : option string }.
End ListSnapshotsRequest.

Module ListDbSystemsRequest.
Record t := mk { CompartmentId : option string; Page : option string }.
End ListDbSystemsRequest.

Inductive Granularity :=
| GranularityHourly | GranularityDaily | GranularityMonthly | GranularityTotal.

Module RequestSummarizedUsagesDetails.
Record t := mk {
  TenantId : option string;
  TimeUsageStarted : option GoTime;
  TimeUsageEnded : option GoTime;
  Granularity : Granularity;
}.
End RequestSummarizedUsagesDetails.

Module RequestSummarizedUsagesRequest.
Record t := mk {
  Details : RequestSummarizedUsagesDetails.t;
  Page : option string;
}.
End RequestSummarizedUsagesRequest.

Module SummarizeMetricsDataDetails.
Record t := mk {
  Namespace : option string;
  Query : option string;
  StartTime : option GoTime;
}.
End SummarizeMetricsDataDetails.

Module SummarizeMetricsDataRequest.
Record t := mk {
  CompartmentId : option string;
  Details : SummarizeMetricsDataDetails.t;
}.
End SummarizeMetricsDataRequest.

(** The [Page] field of each pageable request, as a [PageRequest]. *)
Ltac solve_page_laws := intros; match goal with r : _ |- _ => destruct r end; reflexivity.

#[export] Instance ListInstancesRequest_page : PageRequest ListInstancesRequest.t.
Proof.
  refine {| req_page := ListInstancesRequest.Page;
            set_page p r := ListInstancesRequest.mk (ListInstancesRequest.CompartmentId r) p |};
    solve_page_laws.
Defined.

#[export] Instance ListBootVolumesRequest_page : PageRequest ListBootVolumesRequest.t.
Proof.
  refine {| req_page := ListBootVolumesRequest.Page;
            set_page p r := ListBootVolumesRequest.mk (ListBootVolumesRequest.CompartmentId r)
                              (ListBootVolumesRequest.AvailabilityDomain r) p |};
    solve_page_laws.
Defined.

#[export] Instance ListLoadBalancersRequest_page : PageRequest ListLoadBalancersRequest.t.
Proof.
  refine {| req_page := ListLoadBalancersRequest.Page;
            set_page p r := ListLoadBalancersRequest.mk (ListLoadBalancersRequest.CompartmentId r) p |};
    solve_page_laws.
Defined.

#[export] Instance ListBucketsRequest_page : PageRequest ListBucketsRequest.t.
Proof.
  refine {| req_page := ListBucketsRequest.Page;
            set_page p r := ListBucketsRequest.mk (ListBucketsRequest.NamespaceName r)
                              (ListBucketsRequest.CompartmentId r) p |};
    solve_page_laws.
Defined.

#[export] Instance ListFileSystemsRequest_page : PageRequest ListFileSystemsRequest.t.
Proof.
  refine {| req_page := ListFileSystemsRequest.Page;
            set_page p r := ListFileSystemsRequest.mk (ListFileSystemsRequest.CompartmentId r)
                              (ListFileSystemsRequest.AvailabilityDomain r) p |};
    solve_page_laws.
Defined.

#[export] Instance ListSnapshotsRequest_page : PageRequest ListSnapshotsRequest.t.
Proof.
  refine {| req_page := ListSnapshotsRequest.Page;
            set_page p r := ListSnapshotsRequest.mk (ListSnapshotsRequest.FileSystemId r) p |};
    solve_page_laws.
Defined.

#[export] Instance ListDbSystemsRequest_page : PageRequest ListDbSystemsRequest.t.
Proof.
  refine {| req_page := ListDbSystemsRequest.Page;
            set_page p r := ListDbSystemsRequest.mk (ListDbSystemsRequest.CompartmentId r) p |};
    solve_page_laws.
Defined.

#[export] Instance RequestSummarizedUsagesRequest_page :
  PageRequest RequestSummarizedUsagesRequest.t.
Proof.
  refine {| req_page := RequestSummarizedUsagesRequest.Page;
            set_page p r := RequestSummarizedUsagesRequest.mk
                              (RequestSummarizedUsagesRequest.Details r) p |};
    solve_page_laws.
Defined.

(** ** The provider, the environment and the events *)

(** One function per endpoint the code calls.  [GetNamespace] answers the
    response's [Value] field, a [*string]. *)
Record Provider := {
  ListInstances : ListInstancesRequest.t -> result (Page CoreInstance.t);
  ListBootVolumes : ListBootVolumesRequest.t -> result (Page BootVolume.t);
  ListLoadBalancers : ListLoadBalancersRequest.t -> result (Page LoadBalancer.t);
  GetNamespace : GetNamespaceRequest.t -> result (option string);
  ListBuckets : ListBucketsRequest.t -> result (Page BucketSummary.t);
  ListAvailabilityDomains :
    ListAvailabilityDomainsRequest.t -> result (Page AvailabilityDomain.t);
  ListFileSystems : ListFileSystemsRequest.t -> result (Page FileSystemSummary.t);
  ListSnapshots : ListSnapshotsRequest.t -> result (Page SnapshotSummary.t);
  ListDbSystems : ListDbSystemsRequest.t -> result (Page DbSystemSummary.t);
  RequestSummarizedUsages :
    RequestSummarizedUsagesRequest.t -> result (Page UsageSummary.t);
  SummarizeMetricsData :
    SummarizeMetricsDataRequest.t -> result (list MetricData.t);
}.

(** The SDK clients the code creates ([New...ClientWithConfigurationProvider]). *)
Inductive ClientKind :=
| ComputeClient | BlockstorageClient | LoadBalancerClient | ObjectStorageClient
| IdentityClient | FileStorageClient | DatabaseClient | UsageapiClient
| MonitoringClient.

(** What the process reads besides the provider.  [Now n] and
    [MapOrder n] are the clock and the order of a [range] over a map when
    read after [n] events; the order is any permutation ([MapOrder_perm]):
    Go leaves it unspecified and randomises it.  [Getenv] holds the
    variables as the process starts, after [godotenv.Load]; [Join] is
    [filepath.Join] and [ConfigValid vars] is
    [common.IsConfigurationProviderValid] of the provider that
    [common.ConfigurationProviderEnvironmentVariables("OCI_CONFIG", "")]
    builds from the variables [vars]: library code, given as functions. *)
Record Env := {
  provider : Provider;
  NewClient : ClientKind -> option GoError;
  Now : nat -> GoTime;
  MapOrder : nat -> list (string * string) -> list (string * string);
  MapOrder_perm : ∀ n l, MapOrder n l ≡ₚ l;
  DotenvLoad : option GoError;
  Getwd : result string;
  Getenv : string -> string;
  Join : list string -> string;
  ConfigValid : (string -> string) -> bool;
}.

(** A request sent to the provider. *)
Inductive Call :=
| CListInstances (r : ListInstancesRequest.t)
| CListBootVolumes (r : ListBootVolumesRequest.t)
| CListLoadBalancers (r : ListLoadBalancersRequest.t)
| CGetNamespace (r : GetNamespaceRequest.t)
| CListBuckets (r : ListBucketsRequest.t)
| CListAvailabilityDomains (r : ListAvailabilityDomainsRequest.t)
| CListFileSystems (r : ListFileSystemsRequest.t)
| CListSnapshots (r : ListSnapshotsRequest.t)
| CListDbSystems (r : ListDbSystemsRequest.t)
| CRequestSummarizedUsages (r : RequestSummarizedUsagesRequest.t)
| CSummarizeMetricsData (r : SummarizeMetricsDataRequest.t).

(** What the trace records: requests, lines printed on stdout, and the
    environment variables set by [os.Setenv]. *)
Inductive Event :=
| EvCall (c : Call)
| EvOut (l : Line)
| EvSetenv (key value : string).

Abbreviation GoM := (M Env Event).

(** [client.Endpoint(context.Background(), request)]: log the request and
    answer with the provider's response. *)
Definition remote {Req Resp} (mk : Req -> Call)
           (endpoint : Provider -> Req -> result Resp) (request : Req)
  : GoM (result Resp) :=
  fun env tr => (tr ++ [EvCall (mk request)], Ret (endpoint (provider env) request)).

(** [New...ClientWithConfigurationProvider(configProvider)] *)
Definition new_client (k : ClientKind) : GoM (result unit) :=
  fun env tr => (tr, Ret (match NewClient env k with Some e => Err e | None => Ok tt end)).

(** [time.Now()] *)
Definition time_Now : GoM GoTime := fun env tr => (tr, Ret (Now env (length tr))).

(** The order of [for k, v := range m] over a [map[string]string]. *)
Definition range_order (m : gmap string string) : GoM (list (string * string)) :=
  fun env tr => (tr, Ret (MapOrder env (length tr) (map_to_list m))).

(** The environment variables after the [os.Setenv] calls of [tr],
    in order: the last value set for a key wins. *)
Fixpoint setenv_view (vars : string -> string) (tr : list Event) : string -> string :=
  match tr with
  | [] => vars
  | EvSetenv k v :: tr' => setenv_view (λ k', if String.eqb k' k then v else vars k') tr'
  | _ :: tr' => setenv_view vars tr'
  end.

(** [os.Getenv(key)] *)
Definition os_Getenv (key : string) : GoM string :=
  fun env tr => (tr, Ret (setenv_view (Getenv env) tr key)).

(** [os.Setenv(key, value)]; its error (an empty key or one holding ['='])
    cannot arise for the constant key of the code. *)
Definition os_Setenv (key value : string) : GoM unit := emit (EvSetenv key value).

(** The variables a configuration provider built now reads. *)
Definition environ : GoM (string -> string) :=
  fun env tr => (tr, Ret (setenv_view (Getenv env) tr)).

(** [filepath.Join(elem...)] *)
Definition filepath_Join (elems : list string) : GoM string :=
  fun env tr => (tr, Ret (Join env elems)).

(** [fmt.Printf] and [fmt.Println] *)
Definition printf (format : string) (args : list Value) : GoM unit :=
  emit (EvOut (Printf format args)).
Definition println (args : list Value) : GoM unit := emit (EvOut (Println args)).

(** The requests of a trace, in order. *)
Definition calls (tr : list Event) : list Call :=
  omap (λ ev, match ev with EvCall c => Some c | _ => None end) tr.

(** ** Concrete environments, for the witnesses *)

Definition empty_listing {Req A} : Req -> result (Page A) := λ _, Ok (mkPage [] None).

(** A provider with nothing to list, in namespace ["ns"]. *)
Definition provider0 : Provider := {|
  ListInstances := empty_listing;
  ListBootVolumes := empty_listing;
  ListLoadBalancers := empty_listing;
  GetNamespace := λ _, Ok (Some "ns");
  ListBuckets := empty_listing;
  ListAvailabilityDomains := empty_listing;
  ListFileSystems := empty_listing;
  ListSnapshots := empty_listing;
  ListDbSystems := empty_listing;
  RequestSummarizedUsages := empty_listing;
  SummarizeMetricsData := λ _, Ok [];
|}.

(** A process whose clients are created, whose clock reads 0, whose maps
    iterate in [map_to_list] order, and whose configuration is valid. *)
Definition env_of (p : Provider) (clients : ClientKind -> option GoError) : Env := {|
  provider := p;
  NewClient := clients;
  Now := λ _, 0%Z;
  MapOrder := λ _ l, l;
  MapOrder_perm := λ _ l, Permutation_refl l;
  DotenvLoad := None;
  Getwd := Ok "/home/opc";
  Getenv := λ _, "ocid1.tenancy";
  Join := String.concat "/";
  ConfigValid := λ _, true;
|}.

(** ** The shape of the trace *)

Lemma run_remote {Req Resp} (mk : Req -> Call) (endpoint : Provider -> Req -> result Resp)
      request env tr :
  remote mk endpoint request env tr
  = (tr ++ [EvCall (mk request)], Ret (endpoint (provider env) request)).
Proof. reflexivity. Qed.

Lemma emits_only_remote {Req Resp} (P : Event -> Prop) (mk : Req -> Call)
      (endpoint : Provider -> Req -> result Resp) request :
  P (EvCall (mk request)) -> emits_only P (remote mk endpoint request).
Proof. intros HP env tr. exists [EvCall (mk request)]. auto. Qed.

Lemma emits_only_new_client P k : emits_only P (new_client k).
Proof. apply emits_only_halt. done. Qed.

Lemma emits_only_time_Now P : emits_only P time_Now.
Proof. apply emits_only_halt. done. Qed.

Lemma emits_only_range_order P m : emits_only P (range_order m).
Proof. apply emits_only_halt. done. Qed.

Lemma emits_only_printf P format args :
  P (EvOut (Printf format args)) -> emits_only P (printf format args).
Proof. apply emits_only_emit. Qed.

Lemma emits_only_println P args : P (EvOut (Println args)) -> emits_only P (println args).
Proof. apply emits_only_emit. Qed.

#[export] Hint Resolve emits_only_printf emits_only_println : go.

Lemma emits_only_os_Getenv P k : emits_only P (os_Getenv k).
Proof. apply emits_only_halt. done. Qed.

Lemma emits_only_os_Setenv P k v : P (EvSetenv k v) -> emits_only P (os_Setenv k v).
Proof. apply emits_only_emit. Qed.

Lemma emits_only_environ P : emits_only P environ.
Proof. apply emits_only_halt. done. Qed.

Lemma emits_only_filepath_Join P elems : emits_only P (filepath_Join elems).
Proof. apply emits_only_halt. done. Qed.

#[export] Hint Resolve emits_only_os_Getenv emits_only_os_Setenv emits_only_environ
  emits_only_filepath_Join : go.

#[export] Hint Resolve emits_only_remote emits_only_new_client emits_only_time_Now
  emits_only_range_order : go.


(** ** The single steps end *)

Section EndsSdk.
Context (P : Env -> Prop) (Q : exec unit -> Prop) (HQ : Q (Ret tt)).

Lemma ends_remote {Req Resp} (mk : Req -> Call) (endpoint : Provider -> Req -> result Resp)
      request : ends P Q (remote mk endpoint request).
Proof. by apply ends_step. Qed.

Lemma ends_new_client k : ends P Q (new_client k).
Proof. by apply ends_step. Qed.

Lemma ends_time_Now : ends P Q time_Now.
Proof. by apply ends_step. Qed.

Lemma ends_range_order m : ends P Q (range_order m).
Proof. by apply ends_step. Qed.

Lemma ends_printf format args : ends P Q (printf format args).
Proof. by apply ends_step. Qed.

Lemma ends_println args : ends P Q (println args).
Proof. by apply ends_step. Qed.

Lemma ends_os_Getenv k : ends P Q (os_Getenv k).
Proof. by apply ends_step. Qed.

Lemma ends_os_Setenv k v : ends P Q (os_Setenv k v).
Proof. by apply ends_step. Qed.

Lemma ends_environ : ends P Q environ.
Proof. by apply ends_step. Qed.

Lemma ends_filepath_Join elems : ends P Q (filepath_Join elems).
Proof. by apply ends_step. Qed.
End EndsSdk.

#[export] Hint Resolve ends_remote ends_new_client ends_time_Now ends_range_order
  ends_printf ends_println ends_os_Getenv ends_os_Setenv ends_environ
  ends_filepath_Join : go.

(** ** The requests of a loop *)

Lemma calls_app tr tr' : calls (tr ++ tr') = calls tr ++ calls tr'.
Proof. apply omap_app. Qed.

(** A [for range] whose body sends the requests [f x] for element [x]
    sends their concatenation, in order. *)
Lemma run_for_calls {A} (xs : list A) (body : A -> GoM unit) (f : A -> list Call) env :
  (∀ x t, x ∈ xs -> ∃ t', body x env t = (t', Ret tt) ∧ calls t' = calls t ++ f x) ->
  ∀ t, ∃ t', for_ xs body env t = (t', Ret tt) ∧ calls t' = calls t ++ concat (map f xs).
Proof.
  induction xs as [|x xs IH]; intros Hb t.
  - exists t. by rewrite app_nil_r.
  - destruct (Hb x t) as (t1 & Hx & Hc1); [set_solver|].
    destruct (IH ltac:(intros y t' Hy; apply Hb; set_solver) t1) as (t2 & Hxs & Hc2).
    exists t2. rewrite run_for_cons. erewrite run_bind_ret by exact Hx.
    split; [done|]. rewrite Hc2, Hc1. simpl. by rewrite app_assoc.
Qed.
