(* ===== verification/Pagination.v ===== *)
(** * The pagination loop of the enumerators

    Eight functions of src/functions/functions.go run the same loop
    (lines 33-46 of [ListAllInstances], and its copies at 65-78, 96-109,
    131-144, 194-207, 225-238, 256-269, 293-306):
<<
    for {
        response, err := client.List...(context.Background(), request)
        if err != nil { return nil, err }
        items = append(items, response.Items...)
        if response.OpcNextPage == nil { break }
        request.Page = response.OpcNextPage
    }
    return items, nil
>>
    [paginate] is that loop, generic in the request type (through
    [PageRequest]) and in the endpoint.  [ListAvailabilityDomains] (lines
    162-175) has the cursor assignment commented out: [paginate_norethread].

    The abstract contract of a listing is the chain of pages the provider
    serves from a request, following each cursor ([pages_from]), or the
    error it meets on the way ([fails_from]).  The theorems relate the loop
    to the chain in both directions (refinement), bound the fuel, and show
    that [paginate_norethread] never leaves its loop once a cursor is
    returned. *)

From S2P Require Import Prelude Sdk.

Section Paginate.
Context {Req Item : Type} `{PageRequest Req}.
Context (mk : Req -> Call) (endpoint : Provider -> Req -> result (Page Item)).

(** The loop, with [fuel] bounding the number of requests. *)
Fixpoint paginate (fuel : nat) (request : Req) (acc : list Item)
  : GoM (result (list Item)) :=
  match fuel with
  | O => out_of_fuel
  | S fuel' =>
      response ←? remote mk endpoint request ;
      let acc' := acc ++ Items response in
      match OpcNextPage response with
      | None => mret (Ok acc')
      | Some _ => paginate fuel' (set_page (OpcNextPage response) request) acc'
      end
  end.

(** ** The abstract contract *)

Section Contract.
Context (f : Req -> result (Page Item)).

(** [pages_from r ps]: from request [r], the provider serves the pages
    [ps], the last one without a cursor, each request after the first
    carrying the cursor of the page before. *)
Inductive pages_from : Req -> list (Page Item) -> Prop :=
| pages_last r p :
    f r = Ok p -> OpcNextPage p = None -> pages_from r [p]
| pages_next r p c ps :
    f r = Ok p -> OpcNextPage p = Some c ->
    pages_from (set_page (Some c) r) ps -> pages_from r (p :: ps).

(** [fails_from r n e]: following the cursors from [r], the provider
    serves [n] pages and then answers the error [e]. *)
Inductive fails_from : Req -> nat -> GoError -> Prop :=
| fails_here r e : f r = Err e -> fails_from r 0 e
| fails_next r p c n e :
    f r = Ok p -> OpcNextPage p = Some c ->
    fails_from (set_page (Some c) r) n e -> fails_from r (S n) e.

(** The requests issued along a chain. *)
Fixpoint page_requests (r : Req) (ps : list (Page Item)) : list Req :=
  match ps with
  | [] => []
  | p :: ps' =>
      r :: match OpcNextPage p with
           | Some c => page_requests (set_page (Some c) r) ps'
           | None => []
           end
  end.

(** The requests issued before an error, the failing one included. *)
Fixpoint failing_requests (r : Req) (n : nat) : list Req :=
  match n with
  | O => [r]
  | S n' =>
      r :: match f r with
           | Ok p => match OpcNextPage p with
                     | Some c => failing_requests (set_page (Some c) r) n'
                     | None => []
                     end
           | Err _ => []
           end
  end.
End Contract.

Definition calls_of (rs : list Req) : list Event := map (λ q, EvCall (mk q)) rs.

(** Two requests that differ at most in their [Page] field. *)
Definition same_filters (request q : Req) : Prop :=
  set_page None q = set_page None request.

(** A reference loop without accumulator: the items of this page
    followed by the items of the rest of the chain. *)
Fixpoint paginate_ref (fuel : nat) (request : Req) : GoM (result (list Item)) :=
  match fuel with
  | O => out_of_fuel
  | S fuel' =>
      response ←? remote mk endpoint request ;
      match OpcNextPage response with
      | None => mret (Ok (Items response))
      | Some c =>
          rest ←? paginate_ref fuel' (set_page (Some c) request) ;
          mret (Ok (Items response ++ rest))
      end
  end.

(** Every listing the provider serves, from any request, ends within
    [n] requests: a chain of at most [n] pages, or an error answered
    after fewer than [n] pages. *)
Definition listing_bounded (f : Req -> result (Page Item)) (n : nat) : Prop :=
  ∀ r, (∃ ps, pages_from f r ps ∧ length ps ≤ n) ∨ (∃ k e, fails_from f r k e ∧ k < n).
End Paginate.

Arguments pages_from {Req Item _} f _ _.
Arguments fails_from {Req Item _} f _ _ _.
Arguments page_requests {Req Item _} _ _.
Arguments failing_requests {Req Item _} f _ _.
Arguments calls_of {Req} mk _.
Arguments same_filters {Req _} _ _.
Arguments listing_bounded {Req Item _} _ _.

(** The items of a successful listing, after the items [acc]. *)
Definition prepend_ok {Item} (acc : list Item) (r : result (list Item)) : result (list Item) :=
  match r with Ok xs => Ok (acc ++ xs) | Err e => Err e end.

(** The loop of [ListAvailabilityDomains]: [request.Page] is never set. *)
Fixpoint paginate_norethread {Req Item : Type} (mk : Req -> Call)
         (endpoint : Provider -> Req -> result (Page Item))
         (fuel : nat) (request : Req) (acc : list Item)
  : GoM (result (list Item)) :=
  match fuel with
  | O => out_of_fuel
  | S fuel' =>
      response ←? remote mk endpoint request ;
      let acc' := acc ++ Items response in
      match OpcNextPage response with
      | None => mret (Ok acc')
      | Some _ => paginate_norethread mk endpoint fuel' request acc'
      end
  end.



(** ** Concrete listings, for the witnesses *)

Definition instance_named (id : string) : CoreInstance.t :=
  CoreInstance.mk (Some id) (Some id) (Some "VM.Standard.E4.Flex") "RUNNING" None.

Definition page1 : Page CoreInstance.t :=
  mkPage [instance_named "i1"; instance_named "i2"] (Some "p2").
Definition page2 : Page CoreInstance.t :=
  mkPage [instance_named "i3"; instance_named "i4"] (Some "p3").
Definition page3 : Page CoreInstance.t := mkPage [instance_named "i5"] None.

(** Three pages of sizes 2, 2 and 1, chained by the cursors "p2", "p3". *)
Definition three_pages (r : ListInstancesRequest.t) : result (Page CoreInstance.t) :=
  match ListInstancesRequest.Page r with
  | None => Ok page1
  | Some c => if String.eqb c "p2" then Ok page2
              else if String.eqb c "p3" then Ok page3
              else Err "InvalidParameter"
  end.

(** The same listing, throttled after its first page. *)
Definition throttled_after_first (r : ListInstancesRequest.t) : result (Page CoreInstance.t) :=
  match ListInstancesRequest.Page r with
  | None => Ok page1
  | Some _ => Err "TooManyRequests"
  end.

Definition with_instances (f : ListInstancesRequest.t -> result (Page CoreInstance.t)) : Env :=
  env_of {| ListInstances := f;
            ListBootVolumes := empty_listing;
            ListLoadBalancers := empty_listing;
            GetNamespace := λ _, Ok (Some "ns");
            ListBuckets := empty_listing;
            ListAvailabilityDomains := empty_listing;
            ListFileSystems := empty_listing;
            ListSnapshots := empty_listing;
            ListDbSystems := empty_listing;
            RequestSummarizedUsages := empty_listing;
            SummarizeMetricsData := λ _, Ok [] |} (λ _, None).

Definition ad1 : AvailabilityDomain.t := AvailabilityDomain.mk (Some "AD-1") (Some "ocid1.ad.1").

Definition with_availability_domains
    (f : ListAvailabilityDomainsRequest.t -> result (Page AvailabilityDomain.t)) : Env :=
  env_of {| ListInstances := empty_listing;
            ListBootVolumes := empty_listing;
            ListLoadBalancers := empty_listing;
            GetNamespace := λ _, Ok (Some "ns");
            ListBuckets := empty_listing;
            ListAvailabilityDomains := f;
            ListFileSystems := empty_listing;
            ListSnapshots := empty_listing;
            ListDbSystems := empty_listing;
            RequestSummarizedUsages := empty_listing;
            SummarizeMetricsData := λ _, Ok [] |} (λ _, None).

Definition first_instances_request : ListInstancesRequest.t :=
  ListInstancesRequest.mk (Some "ocid1.tenancy") None.

(** Build the chain of pages of a concrete provider. *)
Ltac solve_pages :=
  repeat (eapply pages_next; [reflexivity|reflexivity|]); apply pages_last; reflexivity.

(** ** Unfolding the loops *)

Section Run.
Context {Req Item : Type} `{PageRequest Req}.
Context (mk : Req -> Call) (endpoint : Provider -> Req -> result (Page Item)).

(** One iteration of the loop. *)
Lemma run_paginate_S fuel request acc env tr :
  paginate mk endpoint (S fuel) request acc env tr =
  match endpoint (provider env) request with
  | Err e => (tr ++ [EvCall (mk request)], Ret (Err e))
  | Ok p =>
      match OpcNextPage p with
      | None => (tr ++ [EvCall (mk request)], Ret (Ok (acc ++ Items p)))
      | Some c => paginate mk endpoint fuel (set_page (Some c) request) (acc ++ Items p)
                    env (tr ++ [EvCall (mk request)])
      end
  end.
Proof.
  simpl. unfold mbind, M_MBind, M_bind, remote.
  destruct (endpoint (provider env) request) as [p|e]; [|done].
  by destruct (OpcNextPage p).
Qed.

Lemma run_paginate_ref_S fuel request env tr :
  paginate_ref mk endpoint (S fuel) request env tr =
  match endpoint (provider env) request with
  | Err e => (tr ++ [EvCall (mk request)], Ret (Err e))
  | Ok p =>
      match OpcNextPage p with
      | None => (tr ++ [EvCall (mk request)], Ret (Ok (Items p)))
      | Some c =>
          (rest ←? paginate_ref mk endpoint fuel (set_page (Some c) request) ;
           mret (Ok (Items p ++ rest))) env (tr ++ [EvCall (mk request)])
      end
  end.
Proof.
  simpl. unfold mbind at 1. unfold M_MBind, M_bind at 1, remote.
  destruct (endpoint (provider env) request) as [p|e]; [|done].
  by destruct (OpcNextPage p).
Qed.

Lemma run_paginate_O request acc env tr :
  paginate mk endpoint 0 request acc env tr = (tr, OutOfFuel).
Proof. reflexivity. Qed.

Lemma run_paginate_norethread_S fuel request acc env tr :
  paginate_norethread mk endpoint (S fuel) request acc env tr =
  match endpoint (provider env) request with
  | Err e => (tr ++ [EvCall (mk request)], Ret (Err e))
  | Ok p =>
      match OpcNextPage p with
      | None => (tr ++ [EvCall (mk request)], Ret (Ok (acc ++ Items p)))
      | Some _ => paginate_norethread mk endpoint fuel request (acc ++ Items p)
                    env (tr ++ [EvCall (mk request)])
      end
  end.
Proof.
  simpl. unfold mbind, M_MBind, M_bind, remote.
  destruct (endpoint (provider env) request) as [p|e]; [|done].
  by destruct (OpcNextPage p).
Qed.
End Run.

(** ** The loop refines its contract *)

Section PaginateSpec.
Context {Req Item : Type} `{PageRequest Req}.
Context (mk : Req -> Call) (endpoint : Provider -> Req -> result (Page Item)).

Lemma pages_from_nonempty (f : Req -> result (Page Item)) r ps : pages_from f r ps -> ps ≠ [].
Proof. by destruct 1. Qed.

Lemma fails_from_first (f : Req -> result (Page Item)) r n e :
  fails_from f r n e -> n = 0 -> f r = Err e.
Proof. by destruct 1. Qed.

(** The run of the loop along a chain of pages. *)
Lemma paginate_pages env request ps fuel acc tr :
  pages_from (endpoint (provider env)) request ps -> length ps ≤ fuel ->
  paginate mk endpoint fuel request acc env tr =
    (tr ++ calls_of mk (page_requests request ps),
     Ret (Ok (acc ++ concat (map Items ps)))).
Proof.
  intros Hps. revert fuel acc tr.
  induction Hps as [r p Hf Hn|r p c ps Hf Hn Hps IH];
    intros [|fuel] acc tr Hfuel; simpl in Hfuel; try lia;
    rewrite run_paginate_S, Hf, Hn; simpl; rewrite Hn.
  - by rewrite !app_nil_r.
  - rewrite IH by lia. by rewrite <- !app_assoc.
Qed.

(** The run along a chain that ends in an error. *)
Lemma paginate_fails env request n e fuel acc tr :
  fails_from (endpoint (provider env)) request n e -> n < fuel ->
  paginate mk endpoint fuel request acc env tr =
    (tr ++ calls_of mk (failing_requests (endpoint (provider env)) request n),
     Ret (Err e)).
Proof.
  intros Hf. revert fuel acc tr.
  induction Hf as [r e He|r p c n e Hp Hn Hf IH];
    intros [|fuel] acc tr Hfuel; try lia; rewrite run_paginate_S.
  - by rewrite He.
  - rewrite Hp, Hn, IH by lia. simpl. rewrite Hp, Hn. by rewrite <- app_assoc.
Qed.

(** With listings bounded by the fuel, the loop always ends. *)
Lemma paginate_halts fuel request acc :
  halts (λ env, listing_bounded (endpoint (provider env)) fuel)
    (paginate mk endpoint fuel request acc).
Proof.
  intros env tr Hb. destruct (Hb request) as [(ps & Hps & Hlen)|(n & e & Hf & Hlt)].
  - by rewrite (paginate_pages env request ps).
  - by rewrite (paginate_fails env request n e).
Qed.

(** C5. Soundness: a list returned by the loop is the concatenation of
    the pages of a chain the provider serves from [request], that chain
    has at most [fuel] pages, and the trace holds exactly its requests. *)
Theorem paginate_sound env request fuel acc tr tr' xs :
  paginate mk endpoint fuel request acc env tr = (tr', Ret (Ok xs)) ->
  ∃ ps, pages_from (endpoint (provider env)) request ps ∧ length ps ≤ fuel ∧
        xs = acc ++ concat (map Items ps) ∧
        tr' = tr ++ calls_of mk (page_requests request ps).
Proof.
  revert request acc tr. induction fuel as [|fuel IH]; intros r acc tr Hrun;
    [discriminate|].
  rewrite run_paginate_S in Hrun.
  destruct (endpoint (provider env) r) as [p|e] eqn:Hf; [|discriminate].
  destruct (OpcNextPage p) as [c|] eqn:Hn.
  - destruct (IH _ _ _ Hrun) as (ps & Hps & Hlen & Hxs & Htr).
    exists (p :: ps). split_and!; [by econstructor|simpl; lia| |].
    + rewrite Hxs. simpl. by rewrite app_assoc.
    + rewrite Htr. simpl. rewrite Hn. by rewrite <- app_assoc.
  - simplify_eq. exists [p]. split_and!; [by constructor|simpl; lia| |].
    + simpl. by rewrite app_nil_r.
    + simpl. by rewrite Hn.
Qed.

(** C6. Error propagation: when the provider fails on the request after
    [n] pages, fuel above [n] makes the loop stop at that request and
    return its error, with none of the items already received. *)
Theorem paginate_error env request n e fuel acc tr :
  fails_from (endpoint (provider env)) request n e -> n < fuel ->
  paginate mk endpoint fuel request acc env tr =
    (tr ++ calls_of mk (failing_requests (endpoint (provider env)) request n),
     Ret (Err e)).
Proof. apply paginate_fails. Qed.

(** The converse: an error returned by the loop is one the provider
    answered on the chain of cursors. *)
Lemma paginate_error_sound env request fuel acc tr tr' e :
  paginate mk endpoint fuel request acc env tr = (tr', Ret (Err e)) ->
  ∃ n, fails_from (endpoint (provider env)) request n e ∧ n < fuel.
Proof.
  revert request acc tr. induction fuel as [|fuel IH]; intros r acc tr Hrun;
    [discriminate|].
  rewrite run_paginate_S in Hrun.
  destruct (endpoint (provider env) r) as [p|e'] eqn:Hf.
  - destruct (OpcNextPage p) as [c|] eqn:Hn; [|discriminate].
    destruct (IH _ _ _ Hrun) as (n & Hn' & Hlt).
    exists (S n). split; [by econstructor|lia].
  - simplify_eq. exists 0. split; [by constructor|lia].
Qed.

(** The loop neither exits the process nor panics. *)
Lemma paginate_outcome fuel request acc env tr :
  snd (paginate mk endpoint fuel request acc env tr) = OutOfFuel ∨
  ∃ x, snd (paginate mk endpoint fuel request acc env tr) = Ret x.
Proof.
  revert request acc tr. induction fuel as [|fuel IH]; intros r acc tr; [by left|].
  rewrite run_paginate_S.
  destruct (endpoint (provider env) r) as [p|e]; [|by eauto].
  destruct (OpcNextPage p); [apply IH|by eauto].
Qed.

Lemma page_requests_length (f : Req -> result (Page Item)) request ps :
  pages_from f request ps -> length (page_requests request ps) = length ps.
Proof. induction 1 as [r p Hf Hn|r p c ps Hf Hn Hps IH]; simpl; rewrite Hn; simpl; lia. Qed.

(** C1. Completeness: when the provider serves the pages [ps] from
    [request], fuel at least [length ps] runs the loop to the end: it
    issues the requests of the chain in order, exactly one per page, and
    returns the items of all pages, concatenated in page order. *)
Theorem paginate_complete env request ps fuel acc tr :
  pages_from (endpoint (provider env)) request ps -> length ps ≤ fuel ->
  paginate mk endpoint fuel request acc env tr =
    (tr ++ calls_of mk (page_requests request ps),
     Ret (Ok (acc ++ concat (map Items ps)))) ∧
  length (page_requests request ps) = length ps.
Proof.
  intros Hps Hfuel. split; [by apply paginate_pages|].
  by apply (page_requests_length (endpoint (provider env))).
Qed.

Lemma same_filters_set_page request q p :
  same_filters (set_page p request) q <-> same_filters request q.
Proof. unfold same_filters. by rewrite set_page_set. Qed.

(** Every request the loop sends is the first one with only its [Page]
    changed: the filters (compartment, domain, namespace, ...) are kept. *)
Lemma paginate_same_filters fuel request acc :
  emits_only (λ ev, ∃ q, ev = EvCall (mk q) ∧ same_filters request q)
    (paginate mk endpoint fuel request acc).
Proof.
  revert request acc. induction fuel as [|fuel IH]; intros r acc env tr.
  - exists []. by rewrite app_nil_r.
  - rewrite run_paginate_S.
    assert (Hr : ∃ q, EvCall (mk r) = EvCall (mk q) ∧ same_filters r q)
      by (exists r; done).
    destruct (endpoint (provider env) r) as [p|e]; [|by exists [EvCall (mk r)]; auto].
    destruct (OpcNextPage p) as [c|]; [|by exists [EvCall (mk r)]; auto].
    destruct (IH (set_page (Some c) r) (acc ++ Items p) env (tr ++ [EvCall (mk r)]))
      as [t [Ht Ft]].
    exists (EvCall (mk r) :: t). rewrite Ht, <- app_assoc. split; [done|].
    constructor; [done|]. eapply Forall_impl; [exact Ft|].
    intros ev (q & -> & Hq). exists q. split; [done|]. by apply same_filters_set_page in Hq.
Qed.
(** C24. The loop with its accumulator is equivalent to the reference
    recursion [paginate_ref], which returns the items of the first page
    followed by those of the rest of the chain: the same requests, the
    same outcome, the accumulated items in front of a returned list. *)
Theorem paginate_equiv fuel request acc env tr :
  paginate mk endpoint fuel request acc env tr =
  (r ← paginate_ref mk endpoint fuel request; mret (prepend_ok acc r)) env tr.
Proof.
  revert request acc tr. induction fuel as [|fuel IH]; intros r acc tr; [reflexivity|].
  rewrite run_paginate_S. unfold mbind at 1. unfold M_MBind, M_bind at 1.
  rewrite run_paginate_ref_S.
  destruct (endpoint (provider env) r) as [p|e]; [|done].
  destruct (OpcNextPage p) as [c|]; [|done].
  rewrite IH. unfold mbind, M_MBind, M_bind.
  destruct (paginate_ref mk endpoint fuel _ env _) as [t [[xs|e]| | | |]]; [|done..].
  simpl. by rewrite app_assoc.
Qed.

End PaginateSpec.

(** However the way a run stops is constrained, the loops stop within it
    when a return and the exhausted bound both satisfy it. *)
Lemma ends_paginate {Req Item : Type} `{PageRequest Req} (P : Env -> Prop) Q
      (mk : Req -> Call) (endpoint : Provider -> Req -> result (Page Item)) fuel request acc :
  Q (Ret tt) -> Q OutOfFuel -> ends P Q (paginate mk endpoint fuel request acc).
Proof.
  intros H1 H2. revert request acc.
  induction fuel as [|fuel IH]; intros r acc; simpl; [by apply ends_step|solve_ends].
Qed.

Lemma ends_paginate_norethread {Req Item : Type} (P : Env -> Prop) Q
      (mk : Req -> Call) (endpoint : Provider -> Req -> result (Page Item)) fuel request acc :
  Q (Ret tt) -> Q OutOfFuel -> ends P Q (paginate_norethread mk endpoint fuel request acc).
Proof.
  intros H1 H2. revert acc.
  induction fuel as [|fuel IH]; intros acc; simpl; [by apply ends_step|solve_ends].
Qed.

Lemma emits_only_paginate {Req Item : Type} `{PageRequest Req} (P : Event -> Prop)
      (mk : Req -> Call) (endpoint : Provider -> Req -> result (Page Item)) fuel request acc :
  (∀ q, P (EvCall (mk q))) -> emits_only P (paginate mk endpoint fuel request acc).
Proof.
  intros HP. eapply emits_only_weaken; [|apply paginate_same_filters].
  intros ev (q & -> & _). apply HP.
Qed.

Lemma emits_only_paginate_norethread {Req Item : Type} (P : Event -> Prop)
      (mk : Req -> Call) (endpoint : Provider -> Req -> result (Page Item)) fuel request acc :
  P (EvCall (mk request)) -> emits_only P (paginate_norethread mk endpoint fuel request acc).
Proof.
  intros HP. revert acc. induction fuel as [|fuel IH]; simpl; intros acc; solve_emits.
Qed.

#[export] Hint Resolve emits_only_paginate emits_only_paginate_norethread : go.

(** ** The loop of [ListAvailabilityDomains] *)

Section NoRethread.
Context {Req Item : Type} (mk : Req -> Call)
        (endpoint : Provider -> Req -> result (Page Item)).

(** As soon as the provider answers the request with a cursor, the loop
    spends any bound re-sending the identical request. *)
Lemma paginate_norethread_repeat env request p c fuel acc tr :
  endpoint (provider env) request = Ok p -> OpcNextPage p = Some c ->
  paginate_norethread mk endpoint fuel request acc env tr =
    (tr ++ replicate fuel (EvCall (mk request)), OutOfFuel).
Proof.
  intros Hf Hn. revert acc tr.
  induction fuel as [|fuel IH]; intros acc tr; [by rewrite app_nil_r|].
  rewrite run_paginate_norethread_S, Hf, Hn, IH.
  by rewrite <- app_assoc.
Qed.

(** C33. The loop returns only after one request, and only when that
    request fails or its page has no cursor; the result is then that
    error or that single page. *)
Theorem paginate_norethread_returns env request fuel acc tr tr' x :
  paginate_norethread mk endpoint fuel request acc env tr = (tr', Ret x) ->
  tr' = tr ++ [EvCall (mk request)] ∧
  ((∃ p, endpoint (provider env) request = Ok p ∧ OpcNextPage p = None ∧
         x = Ok (acc ++ Items p)) ∨
   (∃ e, endpoint (provider env) request = Err e ∧ x = Err e)).
Proof.
  intros Hrun. destruct fuel as [|fuel]; [discriminate|].
  destruct (endpoint (provider env) request) as [p|e] eqn:Hf.
  - destruct (OpcNextPage p) as [c|] eqn:Hn.
    + rewrite (paginate_norethread_repeat env request p c) in Hrun by done.
      discriminate.
    + rewrite run_paginate_norethread_S, Hf, Hn in Hrun. simplify_eq. eauto 10.
  - rewrite run_paginate_norethread_S, Hf in Hrun. simplify_eq. eauto 10.
Qed.
(** The loop without the cursor assignment ends when the provider never
    answers its request with a cursor. *)
Lemma paginate_norethread_halts fuel request acc :
  0 < fuel ->
  halts (λ env, ∀ p, endpoint (provider env) request = Ok p -> OpcNextPage p = None)
    (paginate_norethread mk endpoint fuel request acc).
Proof.
  intros Hfuel env tr Hsingle. destruct fuel as [|fuel]; [lia|].
  rewrite run_paginate_norethread_S.
  destruct (endpoint (provider env) request) as [p|e] eqn:Hf; [|done].
  by rewrite (Hsingle p).
Qed.

End NoRethread.


(** ** Witnesses *)

Lemma paginate_complete_witness :
  paginate CListInstances ListInstances 3 first_instances_request []
    (with_instances three_pages) [] =
  (calls_of CListInstances
     [first_instances_request;
      ListInstancesRequest.mk (Some "ocid1.tenancy") (Some "p2");
      ListInstancesRequest.mk (Some "ocid1.tenancy") (Some "p3")],
   Ret (Ok (map instance_named ["i1"; "i2"; "i3"; "i4"; "i5"]))).
Proof.
  destruct (paginate_complete CListInstances ListInstances (with_instances three_pages)
              first_instances_request [page1; page2; page3] 3 [] []) as [-> _].
  - solve_pages.
  - simpl; lia.
  - reflexivity.
Defined.

Lemma paginate_sound_witness :
  ∃ ps, pages_from (ListInstances (provider (with_instances three_pages)))
          first_instances_request ps ∧ length ps ≤ 3 ∧
        map instance_named ["i1"; "i2"; "i3"; "i4"; "i5"] = [] ++ concat (map Items ps) ∧
        fst (paginate CListInstances ListInstances 3 first_instances_request []
               (with_instances three_pages) []) =
          [] ++ calls_of CListInstances (page_requests first_instances_request ps).
Proof.
  apply (paginate_sound CListInstances ListInstances (with_instances three_pages)
           first_instances_request 3 [] []).
  vm_compute. reflexivity.
Defined.

Lemma paginate_error_witness :
  paginate CListInstances ListInstances 2 first_instances_request []
    (with_instances throttled_after_first) [] =
  (calls_of CListInstances
     [first_instances_request; ListInstancesRequest.mk (Some "ocid1.tenancy") (Some "p2")],
   Ret (Err "TooManyRequests")).
Proof.
  rewrite (paginate_error CListInstances ListInstances (with_instances throttled_after_first)
             first_instances_request 1 "TooManyRequests").
  - reflexivity.
  - eapply fails_next; [reflexivity|reflexivity|]. apply fails_here. reflexivity.
  - lia.
Defined.

Lemma paginate_norethread_returns_witness :
  let env := with_availability_domains (λ _, Ok (mkPage [ad1] None)) in
  let r := ListAvailabilityDomainsRequest.mk (Some "ocid1.tenancy") in
  fst (paginate_norethread CListAvailabilityDomains ListAvailabilityDomains 4 r [] env []) =
    [] ++ [EvCall (CListAvailabilityDomains r)] ∧
  ((∃ p, ListAvailabilityDomains (provider env) r = Ok p ∧ OpcNextPage p = None ∧
         Ok [ad1] = Ok ([] ++ Items p)) ∨
   (∃ e, ListAvailabilityDomains (provider env) r = Err e ∧ Ok [ad1] = Err e)).
Proof.
  apply (paginate_norethread_returns CListAvailabilityDomains ListAvailabilityDomains _ _ 4).
  vm_compute. reflexivity.
Defined.
