(* ===== verification/Enumerators.v ===== *)
(** * The enumerators of src/functions/functions.go

    Each function creates its SDK client (a failure goes to [log.Fatalf],
    which ends the process), builds its request from the tenancy and the
    kind-specific filters, and runs the pagination loop of [Pagination.v]
    from an empty list.  [ListAllBuckets] first resolves the object-storage
    namespace, ignoring the error of that call; [ListAvailabilityDomains]
    runs the loop that does not set the cursor.

    The theorems: client-creation failure exits before any request; the
    complete listing of instances (with the three-page example of the
    spec); the namespace passed unchanged into every bucket request; a
    failed namespace lookup panics instead of returning an error. *)

From S2P Require Import Prelude Sdk Pagination.

(** [client, err := New...Client(configProvider); if err != nil {
    log.Fatalf(msg, err); return nil, err }], then [body]. *)
Definition with_client {A} (k : ClientKind) (msg : string) (body : GoM A) : GoM A :=
  c ← new_client k;
  match c with
  | Err err => fatalf msg [VErr err]
  | Ok _ => body
  end.

(** Lines 20-49. *)
Definition ListAllInstances (fuel : nat) (tenancyID : string)
  : GoM (result (list CoreInstance.t)) :=
  with_client ComputeClient "Error creating OCI client: %v"
    (let request := ListInstancesRequest.mk (Some tenancyID) None in
     paginate CListInstances ListInstances fuel request []).

(** Lines 51-81. *)
Definition ListAllBootVolumes (fuel : nat) (tenancyID availabilityDomain : string)
  : GoM (result (list BootVolume.t)) :=
  with_client BlockstorageClient "Error creating OCI client: %v"
    (let request := ListBootVolumesRequest.mk (Some tenancyID)
                      (Some availabilityDomain) None in
     paginate CListBootVolumes ListBootVolumes fuel request []).

(** Lines 83-112. *)
Definition ListAllLoadBalancers (fuel : nat) (tenancyID : string)
  : GoM (result (list LoadBalancer.t)) :=
  with_client LoadBalancerClient "Error creating Load Balancer client: %v"
    (let request := ListLoadBalancersRequest.mk (Some tenancyID) None in
     paginate CListLoadBalancers ListLoadBalancers fuel request []).

(** Lines 114-147.  [namespace, _ := GetNamespace(...)] drops the error:
    on failure the response is the zero value, whose [Value] is nil, and
    [*namespace.Value] dereferences it. *)
Definition ListAllBuckets (fuel : nat) (tenancyID : string)
  : GoM (result (list BucketSummary.t)) :=
  with_client ObjectStorageClient "Error creating Object Storage client: %v"
    (let namespaceRequest := GetNamespaceRequest.mk (Some tenancyID) in
     namespace ← remote CGetNamespace GetNamespace namespaceRequest;
     let value := match namespace with Ok v => v | Err _ => None end in
     ns ← deref value;
     let request := ListBucketsRequest.mk (Some ns) (Some tenancyID) None in
     paginate CListBuckets ListBuckets fuel request []).

(** Lines 149-178: the loop without [request.Page = response.OpcNextPage]. *)
Definition ListAvailabilityDomains (fuel : nat) (tenancyID : string)
  : GoM (result (list AvailabilityDomain.t)) :=
  with_client IdentityClient "Error creating Object Storage client: %v"
    (let request := ListAvailabilityDomainsRequest.mk (Some tenancyID) in
     paginate_norethread CListAvailabilityDomains ListAvailabilityDomains
       fuel request []).

(** Lines 180-210. *)
Definition ListAllFileSystems (fuel : nat) (tenancyID availabilityDomain : string)
  : GoM (result (list FileSystemSummary.t)) :=
  with_client FileStorageClient "Error creating Object Storage client: %v"
    (let request := ListFileSystemsRequest.mk (Some tenancyID)
                      (Some availabilityDomain) None in
     paginate CListFileSystems ListFileSystems fuel request []).

(** Lines 212-241. *)
Definition ListFileStorageSnapshots (fuel : nat) (fileSystemID : string)
  : GoM (result (list SnapshotSummary.t)) :=
  with_client FileStorageClient "Error creating Object Storage client: %v"
    (let request := ListSnapshotsRequest.mk (Some fileSystemID) None in
     paginate CListSnapshots ListSnapshots fuel request []).

(** Lines 243-272. *)
Definition ListAllDatabases (fuel : nat) (tenancyID : string)
  : GoM (result (list DbSystemSummary.t)) :=
  with_client DatabaseClient "Error creating Object Storage client: %v"
    (let request := ListDbSystemsRequest.mk (Some tenancyID) None in
     paginate CListDbSystems ListDbSystems fuel request []).

(** Lines 274-309. *)
Definition GetBillingReport (fuel : nat) (tenancyID : string) (startDate endDate : GoTime)
  : GoM (result (list UsageSummary.t)) :=
  with_client UsageapiClient "Error creating Usage API client: %v"
    (let request :=
       RequestSummarizedUsagesRequest.mk
         (RequestSummarizedUsagesDetails.mk (Some tenancyID) (Some startDate)
            (Some endDate) GranularityDaily)
         None in
     paginate CRequestSummarizedUsages RequestSummarizedUsages fuel request []).

(** The first request of each listing. *)

Definition instances_request (tenancyID : string) : ListInstancesRequest.t :=
  ListInstancesRequest.mk (Some tenancyID) None.

Definition namespace_request (tenancyID : string) : GetNamespaceRequest.t :=
  GetNamespaceRequest.mk (Some tenancyID).

Definition availability_domains_request (tenancyID : string)
  : ListAvailabilityDomainsRequest.t :=
  ListAvailabilityDomainsRequest.mk (Some tenancyID).

(** Concrete environments, for the witnesses. *)

Definition env_namespace_fails : Env :=
  env_of {| ListInstances := empty_listing;
            ListBootVolumes := empty_listing;
            ListLoadBalancers := empty_listing;
            GetNamespace := λ _, Err "NotAuthorizedOrNotFound";
            ListBuckets := empty_listing;
            Sdk.ListAvailabilityDomains := empty_listing;
            ListFileSystems := empty_listing;
            ListSnapshots := empty_listing;
            ListDbSystems := empty_listing;
            RequestSummarizedUsages := empty_listing;
            SummarizeMetricsData := λ _, Ok [] |} (λ _, None).

Definition identity_client_fails (k : ClientKind) : option GoError :=
  match k with
  | IdentityClient => Some "can not create client, bad configuration"
  | _ => None
  end.

(** ** Client creation *)

Lemma run_with_client_ok {A} k msg (body : GoM A) env tr :
  NewClient env k = None -> with_client k msg body env tr = body env tr.
Proof. intros Hk. unfold with_client, mbind, M_MBind, M_bind, new_client. by rewrite Hk. Qed.

Lemma run_with_client_err {A} k msg (body : GoM A) env tr e :
  NewClient env k = Some e ->
  with_client k msg body env tr = (tr, Fatal (Printf msg [VErr e])).
Proof. intros Hk. unfold with_client, mbind, M_MBind, M_bind, new_client. by rewrite Hk. Qed.

Lemma emits_only_with_client {A} P k msg (body : GoM A) :
  emits_only P body -> emits_only P (with_client k msg body).
Proof.
  intros Hb env tr. destruct (NewClient env k) eqn:Hk.
  - rewrite (run_with_client_err _ _ _ _ _ _ Hk). exists []. by rewrite app_nil_r.
  - rewrite (run_with_client_ok _ _ _ _ _ Hk). apply Hb.
Qed.

#[export] Hint Resolve emits_only_with_client : go.

(** Each enumerator sends only its own requests. *)
Lemma emits_only_ListAllInstances P fuel tid :
  (∀ r, P (EvCall (CListInstances r))) -> emits_only P (ListAllInstances fuel tid).
Proof. intros HP. unfold ListAllInstances. solve_emits. Qed.

Lemma emits_only_ListAllLoadBalancers P fuel tid :
  (∀ r, P (EvCall (CListLoadBalancers r))) -> emits_only P (ListAllLoadBalancers fuel tid).
Proof. intros HP. unfold ListAllLoadBalancers. solve_emits. Qed.

Lemma emits_only_ListAllDatabases P fuel tid :
  (∀ r, P (EvCall (CListDbSystems r))) -> emits_only P (ListAllDatabases fuel tid).
Proof. intros HP. unfold ListAllDatabases. solve_emits. Qed.

Lemma emits_only_ListAllBuckets P fuel tid :
  (∀ r, P (EvCall (CGetNamespace r))) -> (∀ r, P (EvCall (CListBuckets r))) ->
  emits_only P (ListAllBuckets fuel tid).
Proof. intros HP HQ. unfold ListAllBuckets. solve_emits. Qed.

Lemma emits_only_ListAvailabilityDomains P fuel tid :
  (∀ r, P (EvCall (CListAvailabilityDomains r))) ->
  emits_only P (ListAvailabilityDomains fuel tid).
Proof. intros HP. unfold ListAvailabilityDomains. solve_emits. Qed.

Lemma emits_only_ListAllFileSystems P fuel tid ad :
  (∀ r, P (EvCall (CListFileSystems r))) -> emits_only P (ListAllFileSystems fuel tid ad).
Proof. intros HP. unfold ListAllFileSystems. solve_emits. Qed.

Lemma emits_only_ListFileStorageSnapshots P fuel id :
  (∀ r, P (EvCall (CListSnapshots r))) -> emits_only P (ListFileStorageSnapshots fuel id).
Proof. intros HP. unfold ListFileStorageSnapshots. solve_emits. Qed.

Lemma emits_only_GetBillingReport P fuel tid s e :
  (∀ r, P (EvCall (CRequestSummarizedUsages r))) ->
  emits_only P (GetBillingReport fuel tid s e).
Proof. intros HP. unfold GetBillingReport. solve_emits. Qed.

#[export] Hint Resolve emits_only_ListAllInstances emits_only_ListAllLoadBalancers
  emits_only_ListAllDatabases emits_only_ListAllBuckets emits_only_ListAvailabilityDomains
  emits_only_ListAllFileSystems emits_only_ListFileStorageSnapshots
  emits_only_GetBillingReport : go.

(** ** Instances *)


(** C4. With its client created, [ListAllInstances] returns every instance
    of every page the provider serves for the tenancy, in page order,
    after exactly one request per page, given fuel for the pages. *)
Theorem ListAllInstances_complete fuel tenancyID env tr ps :
  NewClient env ComputeClient = None ->
  pages_from (ListInstances (provider env)) (instances_request tenancyID) ps ->
  length ps ≤ fuel ->
  ListAllInstances fuel tenancyID env tr =
    (tr ++ calls_of CListInstances (page_requests (instances_request tenancyID) ps),
     Ret (Ok (concat (map Items ps)))).
Proof.
  intros Hc Hps Hfuel. unfold ListAllInstances. rewrite run_with_client_ok by done.
  by rewrite (paginate_pages _ _ env _ ps).
Qed.

(** ** Buckets *)


Lemma run_ListAllBuckets_ns fuel tenancyID env tr ns :
  NewClient env ObjectStorageClient = None ->
  GetNamespace (provider env) (namespace_request tenancyID) = Ok (Some ns) ->
  ListAllBuckets fuel tenancyID env tr =
    paginate CListBuckets ListBuckets fuel
      (ListBucketsRequest.mk (Some ns) (Some tenancyID) None) []
      env (tr ++ [EvCall (CGetNamespace (namespace_request tenancyID))]).
Proof.
  intros Hc Hns. unfold ListAllBuckets. rewrite run_with_client_ok by done.
  unfold mbind, M_MBind, M_bind, remote. simpl. unfold namespace_request in Hns.
  by rewrite Hns.
Qed.

(** C28. The namespace is resolved first and passed unchanged: after the
    namespace request, every request [ListAllBuckets] sends is a bucket
    listing of that namespace and that tenancy. *)
Theorem ListAllBuckets_namespace fuel tenancyID env tr tr' x ns :
  NewClient env ObjectStorageClient = None ->
  GetNamespace (provider env) (namespace_request tenancyID) = Ok (Some ns) ->
  ListAllBuckets fuel tenancyID env tr = (tr', x) ->
  ∃ calls, tr' = tr ++ EvCall (CGetNamespace (namespace_request tenancyID)) :: calls ∧
    Forall (λ ev, ∃ r, ev = EvCall (CListBuckets r) ∧
                       ListBucketsRequest.NamespaceName r = Some ns ∧
                       ListBucketsRequest.CompartmentId r = Some tenancyID) calls.
Proof.
  intros Hc Hns Hrun. rewrite (run_ListAllBuckets_ns _ _ _ _ ns) in Hrun by done.
  set (r0 := ListBucketsRequest.mk (Some ns) (Some tenancyID) None) in Hrun.
  destruct (paginate_same_filters CListBuckets ListBuckets fuel r0 [] env
              (tr ++ [EvCall (CGetNamespace (namespace_request tenancyID))]))
    as [t [Ht Ft]].
  rewrite Hrun in Ht. simpl in Ht. exists t. split; [by rewrite Ht, <- app_assoc|].
  eapply Forall_impl; [exact Ft|]. intros ev (q & -> & Hq). exists q.
  split; [done|]. destruct q as [qn qc qp]. unfold same_filters in Hq.
  simpl in Hq. by simplify_eq.
Qed.

(** C11. The error of the namespace lookup is dropped: when it fails,
    [ListAllBuckets] dereferences the nil [Value] of the empty response and
    panics, after that one request and before any bucket request, instead
    of returning the error. *)
Theorem ListAllBuckets_namespace_error fuel tenancyID env tr e :
  NewClient env ObjectStorageClient = None ->
  GetNamespace (provider env) (namespace_request tenancyID) = Err e ->
  ListAllBuckets fuel tenancyID env tr =
    (tr ++ [EvCall (CGetNamespace (namespace_request tenancyID))],
     Panic "invalid memory address or nil pointer dereference").
Proof.
  intros Hc He. unfold ListAllBuckets. rewrite run_with_client_ok by done.
  unfold mbind, M_MBind, M_bind, remote. simpl. unfold namespace_request in He.
  by rewrite He.
Qed.

(** ** Availability domains *)


(** C10. [ListAvailabilityDomains] does not stop after one page: when the
    provider answers with a cursor, it re-sends the identical request until
    any bound is exhausted. *)
Theorem ListAvailabilityDomains_diverges fuel tenancyID env tr p c :
  NewClient env IdentityClient = None ->
  Sdk.ListAvailabilityDomains (provider env) (availability_domains_request tenancyID) = Ok p ->
  OpcNextPage p = Some c ->
  ListAvailabilityDomains fuel tenancyID env tr =
    (tr ++ replicate fuel
             (EvCall (CListAvailabilityDomains (availability_domains_request tenancyID))),
     OutOfFuel).
Proof.
  intros Hc Hp Hn. unfold ListAvailabilityDomains. rewrite run_with_client_ok by done.
  by apply (paginate_norethread_repeat _ _ env _ p c).
Qed.

(** C34. A failed identity-client creation exits with the message of the
    object-storage client, before any request. *)
Theorem ListAvailabilityDomains_client_error fuel tenancyID env tr e :
  NewClient env IdentityClient = Some e ->
  ListAvailabilityDomains fuel tenancyID env tr =
    (tr, Fatal (Printf "Error creating Object Storage client: %v" [VErr e])).
Proof. intros He. by apply run_with_client_err. Qed.

(** ** Witnesses *)

Lemma ListAllInstances_complete_witness :
  ListAllInstances 3 "ocid1.tenancy" (with_instances three_pages) [] =
  (calls_of CListInstances
     [instances_request "ocid1.tenancy";
      ListInstancesRequest.mk (Some "ocid1.tenancy") (Some "p2");
      ListInstancesRequest.mk (Some "ocid1.tenancy") (Some "p3")],
   Ret (Ok (map instance_named ["i1"; "i2"; "i3"; "i4"; "i5"]))).
Proof.
  rewrite (ListAllInstances_complete 3 "ocid1.tenancy" (with_instances three_pages) []
             [page1; page2; page3]).
  - reflexivity.
  - reflexivity.
  - solve_pages.
  - simpl; lia.
Defined.

Lemma ListAllBuckets_namespace_witness :
  ∃ calls, fst (ListAllBuckets 2 "ocid1.tenancy" (env_of provider0 (λ _, None)) []) =
             [] ++ EvCall (CGetNamespace (namespace_request "ocid1.tenancy")) :: calls ∧
    Forall (λ ev, ∃ r, ev = EvCall (CListBuckets r) ∧
                       ListBucketsRequest.NamespaceName r = Some "ns" ∧
                       ListBucketsRequest.CompartmentId r = Some "ocid1.tenancy") calls.
Proof.
  apply (ListAllBuckets_namespace 2 "ocid1.tenancy" (env_of provider0 (λ _, None)) [] _
           (snd (ListAllBuckets 2 "ocid1.tenancy" (env_of provider0 (λ _, None)) []))).
  - reflexivity.
  - reflexivity.
  - apply surjective_pairing.
Defined.

Lemma ListAllBuckets_namespace_error_witness :
  ListAllBuckets 2 "ocid1.tenancy" env_namespace_fails [] =
    ([] ++ [EvCall (CGetNamespace (namespace_request "ocid1.tenancy"))],
     Panic "invalid memory address or nil pointer dereference").
Proof.
  apply (ListAllBuckets_namespace_error 2 "ocid1.tenancy" env_namespace_fails []
           "NotAuthorizedOrNotFound"); reflexivity.
Defined.

Lemma ListAvailabilityDomains_diverges_witness :
  ListAvailabilityDomains 5 "ocid1.tenancy"
    (with_availability_domains (λ _, Ok (mkPage [ad1] (Some "next")))) [] =
  ([] ++ replicate 5 (EvCall (CListAvailabilityDomains
                                (availability_domains_request "ocid1.tenancy"))),
   OutOfFuel).
Proof.
  apply (ListAvailabilityDomains_diverges 5 "ocid1.tenancy" _ [] (mkPage [ad1] (Some "next"))
           "next"); reflexivity.
Defined.

Lemma ListAvailabilityDomains_client_error_witness :
  ListAvailabilityDomains 5 "ocid1.tenancy" (env_of provider0 identity_client_fails) [] =
    ([], Fatal (Printf "Error creating Object Storage client: %v"
                  [VErr "can not create client, bad configuration"])).
Proof. apply ListAvailabilityDomains_client_error. reflexivity. Defined.
