(* ===== verification/Metrics.v ===== *)
(** * The metrics aggregator: [GetInstanceMetrics]

    src/functions/functions.go lines 311-348.  The function builds a Go
    map from the four metric names to their monitoring queries, ranges
    over it (in the order Go chooses, taken from [Env.MapOrder]), and for
    each metric sets [metrics[metric] = 0], sends one
    [SummarizeMetricsData] request over the last minute, and walks the
    returned series: the last data point of each series overwrites the
    metric when it is non-zero.  A failed request returns the error and no
    map; an empty series indexes [-1] and panics.

    The metrics map is a [gmap string float]; a value is a primitive
    [float] (Go's [float64]) and [!= 0] is the IEEE comparison
    [PrimFloat.eqb] negated.

    The abstract specification is order-free: [metrics_spec] maps each
    metric name to [reduce_spec 0 items], the reduction of that metric's
    response.  The theorems show that the code computes it whatever the
    iteration order, that its keys are exactly the four names, and how it
    fails. *)

From S2P Require Import Prelude Sdk Pagination Enumerators.


(** ** The queries *)

Definition metric_names : list string :=
  ["CpuUtilization"; "MemoryUtilization"; "DiskBytesRead"; "DiskBytesWritten"].

Definition quote : string := String (Ascii.ascii_of_nat 34) EmptyString.

(** [fmt.Sprintf(`<name>[1m]{resourceID =~ "%s"}.max()`, instanceID)] *)
Definition metric_query (name instanceID : string) : string :=
  name +:+ "[1m]{resourceID =~ " +:+ quote +:+ instanceID +:+ quote +:+ "}.max()".

(** Lines 319-323, in the order of the code. *)
Definition metric_queries (instanceID : string) : gmap string string :=
  <["DiskBytesWritten" := metric_query "DiskBytesWritten" instanceID]>
  (<["DiskBytesRead" := metric_query "DiskBytesRead" instanceID]>
  (<["MemoryUtilization" := metric_query "MemoryUtilization" instanceID]>
  (<["CpuUtilization" := metric_query "CpuUtilization" instanceID]> ∅))).

(** ** The reduction of a response *)

(** [v != 0] on a [float64]. *)
Definition float_nonzero (v : float) : bool := negb (PrimFloat.eqb v 0%float).

(** Lines 341-344, for one series [metricValues]. *)
Definition reduce_series (metric : string) (metrics : gmap string float)
           (metricValues : MetricData.t) : GoM (gmap string float) :=
  let dps := MetricData.AggregatedDatapoints metricValues in
  let lastIndex := (Z.of_nat (length dps) - 1)%Z in
  dp ← index dps lastIndex;
  v ← deref (AggregatedDatapoint.Value dp);
  if float_nonzero v then mret (<[metric := v]> metrics) else mret metrics.

(** Lines 326-333: the request for one query, sent at time [now]. *)
Definition metrics_request (tenancyID metricQuery : string) (now : GoTime)
  : SummarizeMetricsDataRequest.t :=
  SummarizeMetricsDataRequest.mk (Some tenancyID)
    (SummarizeMetricsDataDetails.mk (Some "oci_computeagent") (Some metricQuery)
       (Some (time_Add now (-1 * Minute)%Z))).

(** Lines 324-346, for the metrics still to query, in iteration order. *)
Fixpoint query_metrics (tenancyID : string) (queries : list (string * string))
         (metrics : gmap string float) : GoM (result (gmap string float)) :=
  match queries with
  | [] => mret (Ok metrics)
  | (metric, metricQuery) :: rest =>
      let metrics := <[metric := 0%float]> metrics in
      now ← time_Now;
      let request := metrics_request tenancyID metricQuery now in
      items ←? remote CSummarizeMetricsData SummarizeMetricsData request;
      metrics' ← foldM (reduce_series metric) metrics items;
      query_metrics tenancyID rest metrics'
  end.

(** Lines 311-348.  The code calls [log.Fatalf] without [return] when the
    client cannot be created; [log.Fatalf] does not return, so this is
    [with_client]. *)
Definition GetInstanceMetrics (tenancyID instanceID : string)
  : GoM (result (gmap string float)) :=
  with_client MonitoringClient "Error creating monitoring client: %v"
    (order ← range_order (metric_queries instanceID);
     query_metrics tenancyID order ∅).

(** ** The specification *)

(** The value of the last data point of a series, [None] when reading it
    panics (an empty series, a nil value). *)
Definition last_value (md : MetricData.t) : option float :=
  dp ← last (MetricData.AggregatedDatapoints md); AggregatedDatapoint.Value dp.

(** "Last point wins unless zero", series after series, from [v]. *)
Fixpoint reduce_spec (v : float) (items : list MetricData.t) : option float :=
  match items with
  | [] => Some v
  | md :: rest =>
      x ← last_value md;
      reduce_spec (if float_nonzero x then x else v) rest
  end.

(** The map the aggregator promises: each metric name to its value. *)
Definition metrics_spec (val : string -> float) : gmap string float :=
  list_to_map ((λ k, (k, val k)) <$> metric_names).

(** The provider answers the query of metric [k] with [answer k], whatever
    the time window. *)
Definition answers_by_metric (env : Env) (instanceID : string)
           (answer : string -> result (list MetricData.t)) : Prop :=
  ∀ k req, k ∈ metric_names ->
    SummarizeMetricsDataDetails.Query (SummarizeMetricsDataRequest.Details req)
      = Some (metric_query k instanceID) ->
    SummarizeMetricsData (provider env) req = answer k.

(** The queries of a range over the query map: each is the query of its
    metric, and each metric is one of the four. *)
Definition well_formed_queries (instanceID : string) (l : list (string * string)) : Prop :=
  Forall (λ kq, kq.2 = metric_query kq.1 instanceID ∧ kq.1 ∈ metric_names) l.

(** ** Concrete environments, for the witnesses *)

Definition datapoint (v : float) : AggregatedDatapoint.t := AggregatedDatapoint.mk None (Some v).

(** One series of data points, oldest first. *)
Definition series (vs : list float) : MetricData.t := MetricData.mk (datapoint <$> vs).
Arguments series vs%_float_scope.

Definition witness_instance : string := "ocid1.instance.oc1.a".

(** The metrics map right after [metrics["CpuUtilization"] = 0]. *)
Definition cpu_zero : gmap string float := {["CpuUtilization" := 0%float]}.

(** A monitoring service answering the query of metric [k] with [answer k]. *)
Definition metrics_provider (answer : string -> result (list MetricData.t)) : Provider :=
  {| ListInstances := empty_listing;
     ListBootVolumes := empty_listing;
     ListLoadBalancers := empty_listing;
     GetNamespace := λ _, Ok (Some "ns");
     ListBuckets := empty_listing;
     Sdk.ListAvailabilityDomains := empty_listing;
     ListFileSystems := empty_listing;
     ListSnapshots := empty_listing;
     ListDbSystems := empty_listing;
     RequestSummarizedUsages := empty_listing;
     SummarizeMetricsData := λ req,
       match list_find (λ k, SummarizeMetricsDataDetails.Query
                               (SummarizeMetricsDataRequest.Details req)
                             = Some (metric_query k witness_instance)) metric_names with
       | Some (_, k) => answer k
       | None => Err "InvalidParameter"
       end |}.

(** The same process, with Go's map iteration reversed. *)
Definition env_reversed (p : Provider) : Env := {|
  provider := p;
  NewClient := λ _, None;
  Now := λ _, 0%Z;
  MapOrder := λ _ l, reverse l;
  MapOrder_perm := λ _ l, reverse_Permutation l;
  DotenvLoad := None;
  Getwd := Ok "/home/opc";
  Getenv := λ _, "ocid1.tenancy";
  Join := String.concat "/";
  ConfigValid := λ _, true;
|}.

(** CPU and memory queries both fail, with different errors. *)
Definition two_failures (k : string) : result (list MetricData.t) :=
  if String.eqb k "CpuUtilization" then Err "CpuUtilization: TooManyRequests"
  else if String.eqb k "MemoryUtilization" then Err "MemoryUtilization: TooManyRequests"
  else Ok [].

(** [answers_by_metric] of a concrete [metrics_provider]. *)
Ltac solve_answers :=
  intros k req Hk Hq; simpl; rewrite Hq;
  repeat (apply elem_of_cons in Hk as [->|Hk]; [reflexivity|]); set_solver.

(** ** Running the reduction *)

Lemma run_reduce_series k m md x env tr :
  last_value md = Some x ->
  reduce_series k m md env tr = (tr, Ret (if float_nonzero x then <[k:=x]> m else m)).
Proof.
  unfold last_value, reduce_series.
  destruct (last (MetricData.AggregatedDatapoints md)) as [dp|] eqn:Hl; [|discriminate].
  simpl. intros Hv. rewrite (index_last (R:=Env) (E:=Event) _ dp Hl).
  erewrite run_bind_ret by apply run_ret. rewrite Hv.
  erewrite run_bind_ret by apply run_ret.
  by destruct (float_nonzero x).
Qed.

Lemma run_reduce_series_panic k m md env tr :
  last_value md = None -> ∃ msg, reduce_series k m md env tr = (tr, Panic msg).
Proof.
  unfold last_value, reduce_series.
  destruct (last (MetricData.AggregatedDatapoints md)) as [dp|] eqn:Hl; simpl.
  - intros Hv. rewrite (index_last (R:=Env) (E:=Event) _ dp Hl).
    erewrite run_bind_ret by apply run_ret. rewrite Hv. eexists.
    by erewrite run_bind_halt by reflexivity.
  - intros _. apply last_None in Hl. rewrite Hl. eexists.
    by erewrite run_bind_halt by reflexivity.
Qed.

Lemma run_foldM_reduce k items : ∀ m v0 v env tr,
  m !! k = Some v0 -> reduce_spec v0 items = Some v ->
  foldM (reduce_series k) m items env tr = (tr, Ret (<[k:=v]> m)).
Proof.
  induction items as [|md items IH]; intros m v0 v env tr Hm Hspec; simpl in Hspec.
  - simplify_eq. simpl. by rewrite insert_id.
  - destruct (last_value md) as [x|] eqn:Hx; [|discriminate]. simpl in Hspec. simpl.
    erewrite run_bind_ret by (apply run_reduce_series; exact Hx).
    destruct (float_nonzero x).
    + rewrite (IH _ x v) by (rewrite ?lookup_insert_eq; done). by rewrite insert_insert_eq.
    + by apply IH with v0.
Qed.

Lemma run_foldM_reduce_panic k items : ∀ m v0 env tr,
  m !! k = Some v0 -> reduce_spec v0 items = None ->
  ∃ msg, foldM (reduce_series k) m items env tr = (tr, Panic msg).
Proof.
  induction items as [|md items IH]; intros m v0 env tr Hm Hspec; simpl in Hspec;
    [discriminate|]. simpl.
  destruct (last_value md) as [x|] eqn:Hx; simpl in Hspec.
  - erewrite run_bind_ret by (apply run_reduce_series; exact Hx).
    destruct (float_nonzero x).
    + apply (IH _ x); [by rewrite lookup_insert_eq|done].
    + by apply (IH _ v0).
  - destruct (run_reduce_series_panic k m md env tr Hx) as [msg Hp].
    exists msg. by erewrite run_bind_halt by (exact Hp || reflexivity).
Qed.

Lemma run_query_metrics_cons tid k q rest m env tr :
  query_metrics tid ((k, q) :: rest) m env tr =
  let request := metrics_request tid q (Now env (length tr)) in
  let tr1 := tr ++ [EvCall (CSummarizeMetricsData request)] in
  match SummarizeMetricsData (provider env) request with
  | Err e => (tr1, Ret (Err e))
  | Ok items =>
      (foldM (reduce_series k) (<[k := 0%float]> m) items ≫= query_metrics tid rest) env tr1
  end.
Proof.
  simpl. unfold mbind at 1 2, M_MBind, M_bind, remote, time_Now. simpl.
  by destruct (SummarizeMetricsData _ _).
Qed.

(** ** The query map *)

Lemma metric_queries_spec instanceID :
  metric_queries instanceID =
    list_to_map ((λ k, (k, metric_query k instanceID)) <$> metric_names).
Proof. reflexivity. Qed.

Lemma fold_insert_lookup (val : string -> float) (l : list (string * string))
      (m : gmap string float) k :
  fold_left (λ acc kq, <[kq.1 := val kq.1]> acc) l m !! k =
    if decide (k ∈ l.*1) then Some (val k) else m !! k.
Proof.
  revert m. induction l as [|[k' q] l IH]; intros m; simpl.
  - repeat case_decide; done || set_solver.
  - rewrite IH, lookup_insert. repeat case_decide; simplify_eq; set_solver.
Qed.

(** Whatever order Go picks, the range visits the four metrics with their
    queries (setoid rewriting along the permutation). *)
Lemma range_metric_queries instanceID l :
  l ≡ₚ map_to_list (metric_queries instanceID) ->
  well_formed_queries instanceID l ∧ ∀ k, k ∈ l.*1 <-> k ∈ metric_names.
Proof.
  intros Hl. unfold well_formed_queries. split.
  - rewrite Hl. apply Forall_forall. intros [k q] Hkq%elem_of_map_to_list.
    rewrite metric_queries_spec, lookup_list_to_map_fun in Hkq.
    case_decide; simplify_eq/=; done.
  - intros k. rewrite Hl, list_elem_of_fmap. split.
    + intros ([k' q] & -> & Hkq%elem_of_map_to_list).
      rewrite metric_queries_spec, lookup_list_to_map_fun in Hkq.
      by case_decide.
    + intros Hk. exists (k, metric_query k instanceID). split; [done|].
      apply elem_of_map_to_list. rewrite metric_queries_spec, lookup_list_to_map_fun.
      by case_decide.
Qed.

(** ** The loop over the queries *)

Lemma query_metrics_ok tid id env items val l : ∀ m tr,
  well_formed_queries id l ->
  answers_by_metric env id (λ k, Ok (items k)) ->
  (∀ k, k ∈ metric_names -> reduce_spec 0%float (items k) = Some (val k)) ->
  snd (query_metrics tid l m env tr) =
    Ret (Ok (fold_left (λ acc kq, <[kq.1 := val kq.1]> acc) l m)).
Proof.
  induction l as [|[k q] l IH]; intros m tr Hwf Hans Hval; [done|].
  inversion Hwf as [|? ? [Hq Hk] Hwf']; subst. simpl in Hq, Hk. subst q.
  rewrite run_query_metrics_cons. simpl. rewrite (Hans k) by done.
  erewrite run_bind_ret
    by (apply (run_foldM_reduce k (items k) _ 0%float (val k));
        [by rewrite lookup_insert_eq | auto]).
  rewrite IH by done. simpl. by rewrite insert_insert_eq.
Qed.

Lemma reduce_series_cases k m md env tr tr' m' :
  reduce_series k m md env tr = (tr', Ret m') ->
  tr' = tr ∧ (m' = m ∨ ∃ x, m' = <[k:=x]> m).
Proof.
  destruct (last_value md) as [x|] eqn:Hx.
  - rewrite (run_reduce_series _ _ _ x) by done. intros; simplify_eq.
    destruct (float_nonzero x); eauto.
  - destruct (run_reduce_series_panic k m md env tr Hx) as [msg ->]. done.
Qed.

Lemma foldM_reduce_keys k items : ∀ m env tr tr' m',
  foldM (reduce_series k) m items env tr = (tr', Ret m') -> is_Some (m !! k) ->
  ∀ j, is_Some (m' !! j) <-> is_Some (m !! j).
Proof.
  induction items as [|md items IH]; intros m env tr tr' m' Hrun Hk j; simpl in Hrun.
  - rewrite run_ret in Hrun. by simplify_eq.
  - apply run_bind_inv in Hrun as (tr1 & m1 & H1 & H2).
    apply reduce_series_cases in H1 as [-> [->|[x ->]]].
    + by apply (IH _ _ _ _ _ H2).
    + rewrite (IH _ _ _ _ _ H2) by (rewrite lookup_insert_is_Some'; auto).
      rewrite lookup_insert_is_Some'. naive_solver.
Qed.

Lemma query_metrics_keys tid l : ∀ m env tr tr' m',
  query_metrics tid l m env tr = (tr', Ret (Ok m')) ->
  ∀ j, is_Some (m' !! j) <-> is_Some (m !! j) ∨ j ∈ l.*1.
Proof.
  induction l as [|[k q] l IH]; intros m env tr tr' m' Hrun j.
  - simpl in Hrun. rewrite run_ret in Hrun. simplify_eq. set_solver.
  - rewrite run_query_metrics_cons in Hrun. simpl in Hrun.
    destruct (SummarizeMetricsData _ _) as [items|e]; [|discriminate].
    apply run_bind_inv in Hrun as (tr1 & m1 & H1 & H2).
    rewrite (IH _ _ _ _ _ H2), (foldM_reduce_keys _ _ _ _ _ _ _ H1)
      by (rewrite lookup_insert_is_Some'; auto).
    rewrite lookup_insert_is_Some'. set_solver.
Qed.

Lemma reduce_spec_None v items md :
  md ∈ items -> last_value md = None -> reduce_spec v items = None.
Proof.
  revert v. induction items as [|md' items IH]; intros v Hin Hmd; [set_solver|].
  simpl. apply elem_of_cons in Hin as [->|Hin]; [by rewrite Hmd|].
  destruct (last_value md'); simpl; [by apply IH|done].
Qed.

Lemma query_metrics_error tid id env answer l : ∀ m tr,
  well_formed_queries id l -> answers_by_metric env id answer ->
  (∀ k items, k ∈ metric_names -> answer k = Ok items ->
              is_Some (reduce_spec 0%float items)) ->
  (∃ k e, k ∈ l.*1 ∧ answer k = Err e) ->
  ∃ k e, snd (query_metrics tid l m env tr) = Ret (Err e) ∧ k ∈ l.*1 ∧ answer k = Err e.
Proof.
  induction l as [|[k q] l IH]; intros m tr Hwf Hans Hok (k0 & e0 & Hk0 & He0);
    [set_solver|].
  inversion Hwf as [|? ? [Hq Hk] Hwf']; subst. simpl in Hq, Hk. subst q.
  rewrite run_query_metrics_cons. simpl. rewrite (Hans k) by done.
  destruct (answer k) as [items|e] eqn:Ha.
  - destruct (Hok k items Hk Ha) as [v Hv].
    erewrite run_bind_ret
      by (apply (run_foldM_reduce k items _ 0%float v); [by rewrite lookup_insert_eq|done]).
    edestruct IH as (k1 & e1 & ? & ? & ?); [done|done|done| |].
    + exists k0, e0. simpl in Hk0. apply elem_of_cons in Hk0 as [->|?]; [congruence|done].
    + exists k1, e1. split; [done|]. split; [|done]. simpl. set_solver.
  - exists k, e. simpl. set_solver.
Qed.

(** The loop stops at the first failing query of its list. *)
Lemma query_metrics_first_error tid id env answer pre k e post : ∀ l m tr,
  well_formed_queries id l -> answers_by_metric env id answer ->
  l.*1 = pre ++ k :: post -> answer k = Err e ->
  (∀ k', k' ∈ pre -> ∃ items, answer k' = Ok items ∧ is_Some (reduce_spec 0%float items)) ->
  snd (query_metrics tid l m env tr) = Ret (Err e).
Proof.
  induction pre as [|k1 pre IH]; intros [|[k' q] l] m tr Hwf Hans Hl He Hpre; try done.
  all: inversion Hwf as [|? ? [Hq Hk] Hwf']; subst; simpl in Hq, Hk, Hl; subst q.
  all: injection Hl as -> Hl; rewrite run_query_metrics_cons; simpl; rewrite (Hans _) by done.
  - by rewrite He.
  - destruct (Hpre k1) as (items & -> & v & Hv); [by constructor|].
    erewrite run_bind_ret
      by (apply (run_foldM_reduce k1 items _ 0%float v); [by rewrite lookup_insert_eq|done]).
    apply (IH l); [done|done|done|done|]. intros k'' Hk''. apply Hpre. by right.
Qed.

Lemma query_metrics_panic tid id env items l : ∀ m tr,
  well_formed_queries id l -> answers_by_metric env id (λ k, Ok (items k)) ->
  (∃ k, k ∈ l.*1 ∧ reduce_spec 0%float (items k) = None) ->
  ∃ msg, snd (query_metrics tid l m env tr) = Panic msg.
Proof.
  induction l as [|[k q] l IH]; intros m tr Hwf Hans (k0 & Hk0 & Hk0n); [set_solver|].
  inversion Hwf as [|? ? [Hq Hk] Hwf']; subst. simpl in Hq, Hk. subst q.
  rewrite run_query_metrics_cons. simpl. rewrite (Hans k) by done.
  destruct (reduce_spec 0%float (items k)) as [v|] eqn:Hv.
  - erewrite run_bind_ret
      by (apply (run_foldM_reduce k (items k) _ 0%float v); [by rewrite lookup_insert_eq|done]).
    apply IH; [done|done|]. exists k0. split; [|done].
    simpl in Hk0. apply elem_of_cons in Hk0 as [->|?]; [congruence|done].
  - edestruct (run_foldM_reduce_panic k (items k) (<[k:=0%float]> m) 0%float)
      as [msg Hp]; [by rewrite lookup_insert_eq|done|].
    exists msg. by erewrite run_bind_halt by (exact Hp || reflexivity).
Qed.

Lemma foldM_reduce_trace k items : ∀ m env tr tr' m',
  foldM (reduce_series k) m items env tr = (tr', Ret m') -> tr' = tr.
Proof.
  induction items as [|md items IH]; intros m env tr tr' m' Hrun; simpl in Hrun.
  - rewrite run_ret in Hrun. by simplify_eq.
  - apply run_bind_inv in Hrun as (tr1 & m1 & H1 & H2).
    apply reduce_series_cases in H1 as [-> _]. by apply IH in H2.
Qed.

(** A successful loop sends one request per query, in iteration order. *)
Lemma query_metrics_requests tid l : ∀ m env tr tr' m',
  query_metrics tid l m env tr = (tr', Ret (Ok m')) ->
  ∃ reqs, tr' = tr ++ ((λ r, EvCall (CSummarizeMetricsData r)) <$> reqs) ∧
    (λ r, SummarizeMetricsDataDetails.Query (SummarizeMetricsDataRequest.Details r)) <$> reqs
      = (λ kq, Some kq.2) <$> l.
Proof.
  induction l as [|[k q] l IH]; intros m env tr tr' m' Hrun.
  - simpl in Hrun. rewrite run_ret in Hrun. simplify_eq. exists []. by rewrite app_nil_r.
  - rewrite run_query_metrics_cons in Hrun. simpl in Hrun.
    destruct (SummarizeMetricsData _ _) as [items|e]; [|discriminate].
    apply run_bind_inv in Hrun as (tr1 & m1 & H1 & H2).
    apply foldM_reduce_trace in H1 as ->.
    destruct (IH _ _ _ _ _ H2) as (reqs & -> & Hq).
    eexists (_ :: reqs). split; [by rewrite <- app_assoc|]. by rewrite !fmap_cons, Hq.
Qed.

(** The queries of the four metrics, one each. *)
Lemma metric_queries_NoDup : NoDup metric_names.
Proof. apply (bool_decide_unpack _). vm_compute. reflexivity. Qed.

Lemma range_queries_perm instanceID l :
  l ≡ₚ map_to_list (metric_queries instanceID) ->
  (λ kq, Some kq.2) <$> l ≡ₚ (λ k, Some (metric_query k instanceID)) <$> metric_names.
Proof.
  intros Hl. rewrite Hl, metric_queries_spec, map_to_list_to_map.
  - rewrite <- list_fmap_compose. done.
  - rewrite <- list_fmap_compose. apply metric_queries_NoDup.
Qed.

(** Running [GetInstanceMetrics] up to its loop. *)
Lemma run_GetInstanceMetrics tid id env tr :
  NewClient env MonitoringClient = None ->
  GetInstanceMetrics tid id env tr =
    query_metrics tid (MapOrder env (length tr) (map_to_list (metric_queries id))) ∅ env tr.
Proof.
  intros Hc. unfold GetInstanceMetrics. rewrite run_with_client_ok by done.
  by erewrite run_bind_ret by reflexivity.
Qed.

(** The aggregator sends only monitoring queries. *)
Lemma emits_only_query_metrics P tid l m :
  (∀ r, P (EvCall (CSummarizeMetricsData r))) -> emits_only P (query_metrics tid l m).
Proof.
  intros HP. revert m. induction l as [|[k q] l IH]; intros m; simpl;
    unfold reduce_series; solve_emits.
Qed.

Lemma emits_only_GetInstanceMetrics P tid id :
  (∀ r, P (EvCall (CSummarizeMetricsData r))) -> emits_only P (GetInstanceMetrics tid id).
Proof. intros HP. unfold GetInstanceMetrics. solve_emits. by apply emits_only_query_metrics. Qed.

#[export] Hint Resolve emits_only_GetInstanceMetrics : go.

(** ** The aggregator meets its specification *)

(** The result, whatever the iteration order. *)
Lemma GetInstanceMetrics_result tid id env tr items val :
  NewClient env MonitoringClient = None ->
  answers_by_metric env id (λ k, Ok (items k)) ->
  (∀ k, k ∈ metric_names -> reduce_spec 0%float (items k) = Some (val k)) ->
  snd (GetInstanceMetrics tid id env tr) = Ret (Ok (metrics_spec val)).
Proof.
  intros Hc Hans Hval. rewrite run_GetInstanceMetrics by done.
  destruct (range_metric_queries id (MapOrder env (length tr) (map_to_list (metric_queries id))))
    as [Hwf Hkeys]; [apply MapOrder_perm|].
  rewrite (query_metrics_ok tid id env items val) by done.
  do 2 f_equal. apply map_eq. intros k. specialize (Hkeys k).
  rewrite fold_insert_lookup, lookup_empty. unfold metrics_spec.
  rewrite lookup_list_to_map_fun. repeat case_decide; naive_solver.
Qed.

(** The run of a successful aggregation: monitoring requests, then the map. *)
Lemma run_GetInstanceMetrics_ok tid id env tr items val :
  NewClient env MonitoringClient = None ->
  answers_by_metric env id (λ k, Ok (items k)) ->
  (∀ k, k ∈ metric_names -> reduce_spec 0%float (items k) = Some (val k)) ->
  ∃ calls, GetInstanceMetrics tid id env tr = (tr ++ calls, Ret (Ok (metrics_spec val))) ∧
           Forall (λ ev, ∃ r, ev = EvCall (CSummarizeMetricsData r)) calls.
Proof.
  intros Hc Hans Hval.
  pose proof (GetInstanceMetrics_result tid id env tr items val Hc Hans Hval) as Hres.
  destruct (emits_only_GetInstanceMetrics (λ ev, ∃ r, ev = EvCall (CSummarizeMetricsData r))
              tid id (λ r, ex_intro _ r eq_refl) env tr) as [calls [Ht Hf]].
  exists calls. split; [|done]. rewrite <- Ht, <- Hres. apply surjective_pairing.
Qed.

(** C2. Whatever order Go iterates the query map in, when every query
    succeeds and every series has a readable last point, [GetInstanceMetrics]
    sends exactly one request per metric, with that metric's query, and
    returns the map that sends each of the four metric names to the
    "last point wins unless zero" reduction of its response, started from 0. *)
Theorem GetInstanceMetrics_spec tid id env tr items val :
  NewClient env MonitoringClient = None ->
  answers_by_metric env id (λ k, Ok (items k)) ->
  (∀ k, k ∈ metric_names -> reduce_spec 0%float (items k) = Some (val k)) ->
  ∃ reqs, GetInstanceMetrics tid id env tr =
            (tr ++ ((λ r, EvCall (CSummarizeMetricsData r)) <$> reqs),
             Ret (Ok (metrics_spec val))) ∧
          (λ r, SummarizeMetricsDataDetails.Query (SummarizeMetricsDataRequest.Details r))
            <$> reqs ≡ₚ (λ k, Some (metric_query k id)) <$> metric_names.
Proof.
  intros Hc Hans Hval.
  pose proof (GetInstanceMetrics_result tid id env tr items val Hc Hans Hval) as Hres.
  destruct (GetInstanceMetrics tid id env tr) as [tr' x] eqn:Hrun. simpl in Hres. subst x.
  rewrite run_GetInstanceMetrics in Hrun by done.
  destruct (query_metrics_requests _ _ _ _ _ _ _ Hrun) as (reqs & -> & Hq).
  exists reqs. split; [done|]. rewrite Hq.
  apply range_queries_perm, MapOrder_perm.
Qed.

(** C27. A map returned by [GetInstanceMetrics] has exactly the four metric
    names as keys, whatever the provider answered. *)
Theorem GetInstanceMetrics_keys tid id env tr tr' m :
  GetInstanceMetrics tid id env tr = (tr', Ret (Ok m)) ->
  ∀ k, is_Some (m !! k) <-> k ∈ metric_names.
Proof.
  intros Hrun k. destruct (NewClient env MonitoringClient) as [e|] eqn:Hc.
  - unfold GetInstanceMetrics in Hrun. by rewrite (run_with_client_err _ _ _ _ _ e) in Hrun.
  - rewrite run_GetInstanceMetrics in Hrun by done.
    destruct (range_metric_queries id (MapOrder env (length tr) (map_to_list (metric_queries id))))
      as [_ Hkeys]; [apply MapOrder_perm|].
    rewrite (query_metrics_keys _ _ _ _ _ _ _ Hrun), Hkeys, lookup_empty.
    split; [intros [[? ?]|?]|]; auto; discriminate.
Qed.

(** C26. When the query of one metric fails and no series panics, the
    aggregation aborts with the error of a failed query and returns no map. *)
Theorem GetInstanceMetrics_error tid id env tr answer k0 e0 :
  NewClient env MonitoringClient = None ->
  answers_by_metric env id answer ->
  k0 ∈ metric_names -> answer k0 = Err e0 ->
  (∀ k items, k ∈ metric_names -> answer k = Ok items ->
              is_Some (reduce_spec 0%float items)) ->
  ∃ k e, snd (GetInstanceMetrics tid id env tr) = Ret (Err e) ∧
         k ∈ metric_names ∧ answer k = Err e.
Proof.
  intros Hc Hans Hk0 He0 Hok. rewrite run_GetInstanceMetrics by done.
  destruct (range_metric_queries id (MapOrder env (length tr) (map_to_list (metric_queries id))))
    as [Hwf Hkeys]; [apply MapOrder_perm|].
  edestruct (query_metrics_error tid id env answer) as (k & e & Hrun & Hk & He);
    [done|done|done| |].
  - exists k0, e0. by rewrite Hkeys.
  - exists k, e. rewrite <- Hkeys. eauto.
Qed.

(** C12. A series without data points is not "no data, zero": when every
    query succeeds and one response holds an empty series, the aggregator
    indexes [-1] (or meets a nil value first) and panics. *)
Theorem GetInstanceMetrics_empty_series tid id env tr items k0 md :
  NewClient env MonitoringClient = None ->
  answers_by_metric env id (λ k, Ok (items k)) ->
  k0 ∈ metric_names -> md ∈ items k0 -> MetricData.AggregatedDatapoints md = [] ->
  ∃ msg, snd (GetInstanceMetrics tid id env tr) = Panic msg.
Proof.
  intros Hc Hans Hk0 Hmd Hempty. rewrite run_GetInstanceMetrics by done.
  destruct (range_metric_queries id (MapOrder env (length tr) (map_to_list (metric_queries id))))
    as [Hwf Hkeys]; [apply MapOrder_perm|].
  apply (query_metrics_panic tid id env items); [done|done|].
  exists k0. split; [by rewrite Hkeys|].
  apply (reduce_spec_None _ _ md Hmd). unfold last_value. by rewrite Hempty.
Qed.

(** C13. One series: its last point is stored under the metric when it is
    non-zero, and otherwise the metric keeps its value; no other metric
    changes.  So [5, 0, 0] leaves the metric at 0 and [0, 0, 7] sets it to 7. *)
Theorem reduce_series_value k m md x env tr :
  last_value md = Some x ->
  ∃ m', reduce_series k m md env tr = (tr, Ret m') ∧
        m' !! k = (if float_nonzero x then Some x else m !! k) ∧
        ∀ j, j ≠ k -> m' !! j = m !! j.
Proof.
  intros Hx. rewrite (run_reduce_series _ _ _ x) by done. eexists. split; [done|].
  destruct (float_nonzero x); split; intros; by simplify_map_eq.
Qed.

(** C32. The error reported is the one of the first failing query in
    Go's iteration order over the query map: when the queries before
    metric [k] in that order succeed with reducible series and the query
    of [k] fails with [e], [GetInstanceMetrics] returns [e], whatever the
    later queries would answer.  Go randomises the order, so with two
    failing metrics two runs can report two different errors. *)
Theorem GetInstanceMetrics_first_error tid id env tr answer pre k e post :
  NewClient env MonitoringClient = None ->
  answers_by_metric env id answer ->
  (MapOrder env (length tr) (map_to_list (metric_queries id))).*1 = pre ++ k :: post ->
  answer k = Err e ->
  (∀ k', k' ∈ pre -> ∃ items, answer k' = Ok items ∧ is_Some (reduce_spec 0%float items)) ->
  snd (GetInstanceMetrics tid id env tr) = Ret (Err e).
Proof.
  intros Hc Hans Hl He Hpre. rewrite run_GetInstanceMetrics by done.
  eapply query_metrics_first_error; [|done|exact Hl|done|done].
  apply range_metric_queries, MapOrder_perm.
Qed.

(** ** Witnesses *)

Lemma GetInstanceMetrics_spec_witness :
  ∃ reqs, GetInstanceMetrics "ocid1.tenancy" witness_instance
            (env_reversed (metrics_provider (λ k, Ok [series ([5; 0; 0])%float;
                                                      series ([0; 42.5])%float]))) [] =
          ([] ++ ((λ r, EvCall (CSummarizeMetricsData r)) <$> reqs),
           Ret (Ok (metrics_spec (λ _, 42.5%float)))) ∧
          (λ r, SummarizeMetricsDataDetails.Query (SummarizeMetricsDataRequest.Details r))
            <$> reqs ≡ₚ (λ k, Some (metric_query k witness_instance)) <$> metric_names.
Proof.
  apply (GetInstanceMetrics_spec _ _ _ _
           (λ _, [series ([5; 0; 0])%float; series ([0; 42.5])%float])).
  - reflexivity.
  - solve_answers.
  - intros k _. vm_compute. reflexivity.
Defined.

Lemma GetInstanceMetrics_keys_witness :
  is_Some (metrics_spec (λ _, 3%float) !! "DiskIOPS") <-> "DiskIOPS" ∈ metric_names.
Proof.
  apply (GetInstanceMetrics_keys "ocid1.tenancy" witness_instance
           (env_of (metrics_provider (λ _, Ok [series ([3])%float])) (λ _, None)) []
           (fst (GetInstanceMetrics "ocid1.tenancy" witness_instance
                   (env_of (metrics_provider (λ _, Ok [series ([3])%float])) (λ _, None)) []))).
  vm_compute. reflexivity.
Defined.

Lemma GetInstanceMetrics_error_witness :
  ∃ k e, snd (GetInstanceMetrics "ocid1.tenancy" witness_instance
                (env_of (metrics_provider two_failures) (λ _, None)) []) = Ret (Err e) ∧
         k ∈ metric_names ∧ two_failures k = Err e.
Proof.
  apply (GetInstanceMetrics_error _ _ _ _ two_failures "CpuUtilization"
           "CpuUtilization: TooManyRequests").
  - reflexivity.
  - solve_answers.
  - set_solver.
  - reflexivity.
  - intros k items Hk Hok. unfold two_failures in Hok.
    destruct (String.eqb k _); [discriminate|].
    destruct (String.eqb k _); [discriminate|]. simplify_eq. by eexists.
Defined.

Lemma GetInstanceMetrics_empty_series_witness :
  ∃ msg, snd (GetInstanceMetrics "ocid1.tenancy" witness_instance
                (env_of (metrics_provider (λ _, Ok [series []])) (λ _, None)) []) = Panic msg.
Proof.
  apply (GetInstanceMetrics_empty_series _ _ _ _ (λ _, [series []]) "CpuUtilization"
           (series [])).
  - reflexivity.
  - solve_answers.
  - set_solver.
  - set_solver.
  - reflexivity.
Defined.

Lemma reduce_series_value_witness :
  (∃ m', reduce_series "CpuUtilization" cpu_zero (series ([5; 0; 0])%float)
           (env_of provider0 (λ _, None)) [] = ([], Ret m') ∧
         m' !! "CpuUtilization" = (if float_nonzero 0%float then Some 0%float
                                   else cpu_zero !! "CpuUtilization") ∧
         ∀ j, j ≠ "CpuUtilization" -> m' !! j = cpu_zero !! j) ∧
  (∃ m', reduce_series "CpuUtilization" cpu_zero (series ([0; 0; 7])%float)
           (env_of provider0 (λ _, None)) [] = ([], Ret m') ∧
         m' !! "CpuUtilization" = (if float_nonzero 7%float then Some 7%float
                                   else cpu_zero !! "CpuUtilization") ∧
         ∀ j, j ≠ "CpuUtilization" -> m' !! j = cpu_zero !! j).
Proof. split; apply reduce_series_value; reflexivity. Defined.

(** Two iteration orders, two reported errors. *)
Lemma GetInstanceMetrics_first_error_witness :
  snd (GetInstanceMetrics "ocid1.tenancy" witness_instance
         (env_of (metrics_provider two_failures) (λ _, None)) []) =
    Ret (Err "CpuUtilization: TooManyRequests") ∧
  snd (GetInstanceMetrics "ocid1.tenancy" witness_instance
         (env_reversed (metrics_provider two_failures)) []) =
    Ret (Err "MemoryUtilization: TooManyRequests").
Proof.
  split.
  - apply (GetInstanceMetrics_first_error _ _ _ _ two_failures [] "CpuUtilization" _
             ["MemoryUtilization"; "DiskBytesWritten"; "DiskBytesRead"]);
      [reflexivity|solve_answers|vm_compute; reflexivity|reflexivity|set_solver].
  - apply (GetInstanceMetrics_first_error _ _ _ _ two_failures ["DiskBytesRead"; "DiskBytesWritten"]
             "MemoryUtilization" _ ["CpuUtilization"]);
      [reflexivity|solve_answers|vm_compute; reflexivity|reflexivity|].
    intros k' Hk'. exists []. split; [|by eexists].
    apply elem_of_cons in Hk' as [->|Hk']; [reflexivity|].
    apply list_elem_of_singleton in Hk' as ->. reflexivity.
Defined.
