(* ===== verification/Driver.v ===== *)
(** * The report driver: [main] of src/main.go

    [main] loads the [.env] file, reads the working directory, sets
    [OCI_CONFIG_private_key_path] to the key file under "config" of that
    directory, checks the SDK configuration built from the variables, and
    then prints seven sections in a fixed order:
    instances (with the metrics of every running instance), load
    balancers, databases, buckets, availability domains, file systems with
    their snapshots (one listing per availability domain, one per file
    system), and the billing lines of May 2024.  Every failure goes to
    [log.Fatalf], which ends the process.

    Each section is a definition mapped to its lines; [report] chains them
    as the code does.  A printed line is an [EvOut] event holding the
    format string and the argument values.  The theorems: the calls of a
    run go through the sections in order; a failed step ends the run with
    its message and nothing after it is executed; an invalid configuration
    ends the run before anything is printed; the check reads the
    variables with the key path set; the lines printed for a running
    instance carry its metrics. *)

From Stdlib Require Import Ascii.
From stdpp Require Import sorting.
From S2P Require Import Prelude Sdk Pagination Enumerators Metrics.

(** A Go map lookup: a missing key reads as the zero value. *)
Definition lookup_or_zero (m : gmap string float) (k : string) : float :=
  default 0%float (m !! k).

Definition lookup_metrics (m : gmap string (gmap string float)) (k : string)
  : gmap string float :=
  default ∅ (m !! k).

(** [fmt.Println(x)] of a struct: its fields, pointers as pointers. *)
Definition load_balancer_value (lb : LoadBalancer.t) : Value :=
  VStruct [VPtr (VStr <$> LoadBalancer.DisplayName lb);
           VPtr (VStr <$> LoadBalancer.ShapeName lb);
           VStr (LoadBalancer.LifecycleState lb)].

Definition database_value (db : DbSystemSummary.t) : Value :=
  VStruct [VPtr (VStr <$> DbSystemSummary.DisplayName db);
           VStr (DbSystemSummary.DatabaseEdition db);
           VStr (DbSystemSummary.LifecycleState db)].

Definition bucket_value (b : BucketSummary.t) : Value :=
  VStruct [VPtr (VStr <$> BucketSummary.Name b);
           VPtr (VStr <$> BucketSummary.CreatedBy b);
           VPtr (VTime <$> BucketSummary.TimeCreated b)].

(** ** Instances, lines 42-73 *)

(** Lines 61-72: the metrics of a running instance. *)
Definition print_instance_metrics (tenancyID : string) (instance : CoreInstance.t)
           (instanceMetrics : gmap string (gmap string float))
  : GoM (gmap string (gmap string float)) :=
  id ← deref (CoreInstance.Id instance);
  r ← GetInstanceMetrics tenancyID id;
  match r with
  | Err err =>
      name ← deref (CoreInstance.DisplayName instance);
      fatalf "Error fetching instance %s metrics: %v" [VStr name; VErr err]
  | Ok metrics =>
      let instanceMetrics := <[id := metrics]> instanceMetrics in
      let m := lookup_metrics instanceMetrics id in
      printf "    Metrics:\n" [];;
      printf "      CpuUtilization: %.2f %%\n" [VFloat (lookup_or_zero m "CpuUtilization")];;
      printf "      MemoryUtilization: %.2f %%\n" [VFloat (lookup_or_zero m "MemoryUtilization")];;
      printf "      DiskBytesRead: %f Mb\n"
        [VFloat (PrimFloat.div (lookup_or_zero m "DiskBytesRead") (1024 * 1024)%float)];;
      printf "      DiskBytesWritten: %f Mb\n"
        [VFloat (PrimFloat.div (lookup_or_zero m "DiskBytesWritten") (1024 * 1024)%float)];;
      mret instanceMetrics
  end.

(** Lines 53-73: the body of the loop over instances. *)
Definition print_instance (tenancyID : string)
           (instanceMetrics : gmap string (gmap string float)) (instance : CoreInstance.t)
  : GoM (gmap string (gmap string float)) :=
  name ← deref (CoreInstance.DisplayName instance);
  shape ← deref (CoreInstance.Shape instance);
  printf "  Name: %s, Shape: %s, State: %s\n"
    [VStr name; VStr shape; VStr (CoreInstance.LifecycleState instance)];;
  printf "    Shape Details:\n" [];;
  sc ← deref (CoreInstance.ShapeConfig instance);
  processor ← deref (InstanceShapeConfig.ProcessorDescription sc);
  printf "      Processor: %s\n" [VStr processor];;
  ocpus ← deref (InstanceShapeConfig.Ocpus sc);
  printf "      Cores: %.0f\n" [VFloat ocpus];;
  memory ← deref (InstanceShapeConfig.MemoryInGBs sc);
  printf "      Memory: %.0f Gb\n" [VFloat memory];;
  if String.eqb (CoreInstance.LifecycleState instance) "RUNNING"
  then print_instance_metrics tenancyID instance instanceMetrics
  else mret instanceMetrics.

Definition section_instances (fuel : nat) (tenancyID : string) : GoM unit :=
  println [VStr "Instances:"];;
  r ← ListAllInstances fuel tenancyID;
  match r with
  | Err err => fatalf "Error fetching instances: %v" [VErr err]
  | Ok instances => _ ← foldM (print_instance tenancyID) ∅ instances; mret tt
  end.

(** ** Load balancers, lines 75-87 *)

Definition section_load_balancers (fuel : nat) (tenancyID : string) : GoM unit :=
  println [VStr "Load Balancers:"];;
  r ← ListAllLoadBalancers fuel tenancyID;
  match r with
  | Err err => fatalf "Error fetching Load Balancers: %v" [VErr err]
  | Ok loadBalancers =>
      for_ loadBalancers (λ lb,
        println [load_balancer_value lb];;
        name ← deref (LoadBalancer.DisplayName lb);
        shape ← deref (LoadBalancer.ShapeName lb);
        printf "  Name: %s, Shape: %s, State: %s\n"
          [VStr name; VStr shape; VStr (LoadBalancer.LifecycleState lb)])
  end.

(** ** Databases, lines 89-100 *)

Definition section_databases (fuel : nat) (tenancyID : string) : GoM unit :=
  println [VStr "Databases:"];;
  r ← ListAllDatabases fuel tenancyID;
  match r with
  | Err err => fatalf "Error fetching Databases: %v" [VErr err]
  | Ok databases =>
      for_ databases (λ db,
        println [database_value db];;
        name ← deref (DbSystemSummary.DisplayName db);
        printf "  Name: %s, DB: %s, State: %s\n"
          [VStr name; VStr (DbSystemSummary.DatabaseEdition db);
           VStr (DbSystemSummary.LifecycleState db)])
  end.

(** ** Buckets, lines 102-113 *)

Definition section_buckets (fuel : nat) (tenancyID : string) : GoM unit :=
  println [VStr "Buckets:"];;
  r ← ListAllBuckets fuel tenancyID;
  match r with
  | Err err => fatalf "Error fetching Buckets: %v" [VErr err]
  | Ok buckets =>
      for_ buckets (λ b,
        println [bucket_value b];;
        name ← deref (BucketSummary.Name b);
        createdBy ← deref (BucketSummary.CreatedBy b);
        created ← deref (BucketSummary.TimeCreated b);
        printf "  Name: %s, Created by: %s, Creation Date: %s\n"
          [VStr name; VStr createdBy; VTime created])
  end.

(** ** Availability domains, lines 115-125 (the fatal message says
    "Buckets") *)

Definition section_availability_domains (fuel : nat) (tenancyID : string)
  : GoM (list AvailabilityDomain.t) :=
  println [VStr "Availability Domains:"];;
  r ← ListAvailabilityDomains fuel tenancyID;
  match r with
  | Err err => fatalf "Error fetching Buckets: %v" [VErr err]
  | Ok availabilityDomains =>
      for_ availabilityDomains (λ ad,
        name ← deref (AvailabilityDomain.Name ad);
        id ← deref (AvailabilityDomain.Id ad);
        printf "  Name: %s, ID: %s\n" [VStr name; VStr id]);;
      mret availabilityDomains
  end.

(** ** File systems and snapshots, lines 127-150 *)

(** Lines 136-149, for one file system of domain [adName]. *)
Definition print_file_system (fuel : nat) (adName : string) (fileSystem : FileSystemSummary.t)
  : GoM unit :=
  name ← deref (FileSystemSummary.DisplayName fileSystem);
  printf "  Name: %s, Size: %d Bytes, Availability Domain: %s, State: %s\n"
    [VStr name; VPtr (VInt <$> FileSystemSummary.MeteredBytes fileSystem); VStr adName;
     VStr (FileSystemSummary.LifecycleState fileSystem)];;
  id ← deref (FileSystemSummary.Id fileSystem);
  r ← ListFileStorageSnapshots fuel id;
  match r with
  | Err err => fatalf "Error fetching File System (%s) snapshots: %v" [VStr id; VErr err]
  | Ok snapshots =>
      println [VStr "    Snapshots:"];;
      for_ snapshots (λ snapshot,
        sname ← deref (SnapshotSummary.Name snapshot);
        printf "  Name: %s, Creation Date: %s Bytes, State: %s\n"
          [VStr sname; VPtr (VTime <$> SnapshotSummary.TimeCreated snapshot);
           VStr (SnapshotSummary.LifecycleState snapshot)])
  end.

Definition section_file_systems (fuel : nat) (tenancyID : string)
           (availabilityDomains : list AvailabilityDomain.t) : GoM unit :=
  println [VStr "File Systems:"];;
  for_ availabilityDomains (λ ad,
    adName ← deref (AvailabilityDomain.Name ad);
    r ← ListAllFileSystems fuel tenancyID adName;
    match r with
    | Err err => fatalf "Error fetching File Systems: %v" [VErr err]
    | Ok fileSystems => for_ fileSystems (print_file_system fuel adName)
    end).

(** ** Billing, lines 152-163 (the fatal message says "Buckets") *)

Definition billing_start : GoTime := time_Date 2024 5 1 0 0 0 0.
Definition billing_end : GoTime := time_Date 2024 5 31 0 0 0 0.

Definition section_billing (fuel : nat) (tenancyID : string) : GoM unit :=
  println [VStr "Billing:"];;
  r ← GetBillingReport fuel tenancyID billing_start billing_end;
  match r with
  | Err err => fatalf "Error fetching Buckets: %v" [VErr err]
  | Ok billingReports =>
      for_ billingReports (λ billingReport,
        started ← deref (UsageSummary.TimeUsageStarted billingReport);
        quantity ← deref (UsageSummary.ComputedQuantity billingReport);
        printf "   Date: %s, Comp. Qty: %f\n" [VTime started; VFloat quantity])
  end.

(** ** The whole run *)

(** Lines 42-163: the sections in the order of the code. *)
Definition report (fuel : nat) (tenancyID : string) : GoM unit :=
  section_instances fuel tenancyID;;
  section_load_balancers fuel tenancyID;;
  section_databases fuel tenancyID;;
  section_buckets fuel tenancyID;;
  availabilityDomains ← section_availability_domains fuel tenancyID;
  section_file_systems fuel tenancyID availabilityDomains;;
  section_billing fuel tenancyID.

(** The separator line of lines 168 and 174: 71 dashes. *)
Definition separator : string := String.string_of_list_ascii (repeat "-"%char 71).

(** Lines 165-177: the [else] branch.  [log.Fatalf] prints its line and
    ends the process, so the diagnostics after it and [os.Exit(1)] are
    never executed (the bind after [fatalf] discards them). *)
Definition config_invalid : GoM unit :=
  fatalf (A:=unit) "Error: Config file not valid" [];;
  println [VStr separator];;
  private_key_path ← os_Getenv "OCI_CONFIG_private_key_path";
  println [VStr "OCI_CONFIG_private_key_path:"; VStr private_key_path];;
  tenancy ← os_Getenv "OCI_CONFIG_tenancy_ocid";
  println [VStr "OCI_CONFIG_tenancy_ocid:"; VStr tenancy];;
  user ← os_Getenv "OCI_CONFIG_user_ocid";
  println [VStr "OCI_CONFIG_user_ocid:"; VStr user];;
  fingerprint ← os_Getenv "OCI_CONFIG_fingerprint";
  println [VStr "OCI_CONFIG_fingerprint:"; VStr fingerprint];;
  region ← os_Getenv "OCI_CONFIG_region";
  println [VStr "OCI_CONFIG_region:"; VStr region];;
  println [VStr separator];;
  exit 1.

(** Lines 16-178.  [tenancyID] is read (line 46) before [report] prints
    its first line rather than after: [os.Getenv] neither prints nor
    depends on what was printed, so the run is the same. *)
Definition main (fuel : nat) : GoM unit :=
  env ← ask;
  match DotenvLoad env with
  | Some err => fatalf "Error loading .env file: %s" [VErr err]
  | None =>
      match Getwd env with
      | Err err => fatalf "Error fetching working dir: %v" [VErr err]
      | Ok currentDir =>
          filename ← os_Getenv "OCI_CONFIG_private_key_filename";
          private_key_path ← filepath_Join [currentDir; "/config/"; filename];
          os_Setenv "OCI_CONFIG_private_key_path" private_key_path;;
          vars ← environ;
          if ConfigValid env vars
          then tenancyID ← os_Getenv "OCI_CONFIG_tenancy_ocid"; report fuel tenancyID
          else config_invalid
      end
  end.

(** The private-key path of lines 35-36, for working directory [cwd]. *)
Definition key_path (env : Env) (cwd : string) : string :=
  Join env [cwd; "/config/"; Getenv env "OCI_CONFIG_private_key_filename"].

(** The trace at the validity check of line 40. *)
Definition startup (env : Env) (cwd : string) : list Event :=
  [EvSetenv "OCI_CONFIG_private_key_path" (key_path env cwd)].

(** ** The order of the calls *)

(** The section of [main] that sends each kind of request. *)
Definition call_phase (c : Call) : nat :=
  match c with
  | CListInstances _ | CSummarizeMetricsData _ => 1
  | CListLoadBalancers _ => 2
  | CListDbSystems _ => 3
  | CGetNamespace _ | CListBuckets _ => 4
  | CListAvailabilityDomains _ => 5
  | CListFileSystems _ | CListSnapshots _ => 6
  | CRequestSummarizedUsages _ => 7
  | CListBootVolumes _ => 8
  end.

Definition event_phase (ev : Event) : option nat :=
  match ev with
  | EvCall c => Some (call_phase c)
  | EvOut _ | EvSetenv _ _ => None
  end.

(** The sections of the requests of a trace, in trace order. *)
Definition phases (tr : list Event) : list nat := omap event_phase tr.

(** [ev] is printed output or a request of section [i]. *)
Definition in_phase (i : nat) (ev : Event) : Prop :=
  match ev with
  | EvCall c => call_phase c = i
  | EvOut _ | EvSetenv _ _ => True
  end.

(** The requests of [tr] go through the sections in order, up to [p]. *)
Definition phases_upto (p : nat) (tr : list Event) : Prop :=
  StronglySorted (≤) (phases tr) ∧ Forall (λ x, x ≤ p) (phases tr).

(** Running [m] after requests up to section [p] leaves requests up to [q]. *)
Definition keeps_order {A} (p q : nat) (m : GoM A) : Prop :=
  ∀ env tr, phases_upto p tr -> phases_upto q (fst (m env tr)).

(** ** What is printed for a running instance *)

(** Lines 55-60 for an instance with these fields. *)
Definition instance_lines (name shape state processor : string) (ocpus memory : float)
  : list Event :=
  [EvOut (Printf "  Name: %s, Shape: %s, State: %s\n" [VStr name; VStr shape; VStr state]);
   EvOut (Printf "    Shape Details:\n" []);
   EvOut (Printf "      Processor: %s\n" [VStr processor]);
   EvOut (Printf "      Cores: %.0f\n" [VFloat ocpus]);
   EvOut (Printf "      Memory: %.0f Gb\n" [VFloat memory])].

(** Lines 67-71 when metric [k] has the value [val k]. *)
Definition metrics_lines (val : string -> float) : list Event :=
  [EvOut (Printf "    Metrics:\n" []);
   EvOut (Printf "      CpuUtilization: %.2f %%\n" [VFloat (val "CpuUtilization")]);
   EvOut (Printf "      MemoryUtilization: %.2f %%\n" [VFloat (val "MemoryUtilization")]);
   EvOut (Printf "      DiskBytesRead: %f Mb\n"
            [VFloat (PrimFloat.div (val "DiskBytesRead") (1024 * 1024)%float)]);
   EvOut (Printf "      DiskBytesWritten: %f Mb\n"
            [VFloat (PrimFloat.div (val "DiskBytesWritten") (1024 * 1024)%float)])].

(** ** Concrete processes *)

Definition running_instance : CoreInstance.t :=
  CoreInstance.mk (Some witness_instance) (Some "web-1") (Some "VM.Standard.E4.Flex") "RUNNING"
    (Some (InstanceShapeConfig.mk (Some "AMD EPYC 7J13") (Some 1%float) (Some 16%float))).

(** Every series ends with 42.5. *)
Definition flat_series (k : string) : list MetricData.t := [series ([5; 0; 42.5])%float].

(** One running instance, a monitoring service answering [flat_series],
    and a load-balancer service failing when [lb_fails]. *)
Definition one_instance_provider (lb_fails : bool) : Provider :=
  let p := metrics_provider (λ k, Ok (flat_series k)) in
  {| ListInstances := λ _, Ok (mkPage [running_instance] None);
     ListBootVolumes := empty_listing;
     ListLoadBalancers := λ r, if lb_fails then Err "LimitExceeded" else empty_listing r;
     GetNamespace := λ _, Ok (Some "ns");
     ListBuckets := empty_listing;
     Sdk.ListAvailabilityDomains := λ _, Err "NotAuthorizedOrNotFound";
     ListFileSystems := empty_listing;
     ListSnapshots := empty_listing;
     ListDbSystems := empty_listing;
     RequestSummarizedUsages := empty_listing;
     SummarizeMetricsData := SummarizeMetricsData p |}.

Definition env_one_instance (lb_fails : bool) : Env :=
  env_of (one_instance_provider lb_fails) (λ _, None).

(** A process whose configuration does not validate. *)
Definition env_invalid : Env := {|
  provider := provider0;
  NewClient := λ _, None;
  Now := λ _, 0%Z;
  MapOrder := λ _ l, l;
  MapOrder_perm := λ _ l, Permutation_refl l;
  DotenvLoad := None;
  Getwd := Ok "/home/opc";
  Getenv := λ _, "";
  Join := String.concat "/";
  ConfigValid := λ _, false;
|}.

(** ** The order of the calls: lemmas *)

#[export] Hint Extern 1 (in_phase _ _) => (cbn; done) : go.

Lemma phases_app tr tr' : phases (tr ++ tr') = phases tr ++ phases tr'.
Proof. apply omap_app. Qed.

Lemma phases_upto_weaken p q tr : phases_upto p tr -> p ≤ q -> phases_upto q tr.
Proof.
  intros [Hs Hf] Hpq. split; [done|]. eapply Forall_impl; [exact Hf|]. simpl. lia.
Qed.

Lemma phases_in_phase i t : Forall (in_phase i) t -> Forall (λ x, x = i) (phases t).
Proof.
  induction 1 as [|[c|l|k v] t Hev Ht IH]; simpl; [constructor| |done|done].
  constructor; [done|done].
Qed.

Lemma phases_upto_app p i tr t :
  phases_upto p tr -> p ≤ i -> Forall (in_phase i) t -> phases_upto i (tr ++ t).
Proof.
  intros [Hs Hf] Hpi Ht. apply phases_in_phase in Ht.
  unfold phases_upto. rewrite phases_app. split.
  - apply StronglySorted_app_2; [|done|].
    + intros x1 x2 Hx1 Hx2. rewrite Forall_forall in Hf, Ht.
      specialize (Hf x1 Hx1). specialize (Ht x2 Hx2). simpl in *. lia.
    + induction Ht as [|x t' Hx Ht' IH]; constructor; [done|].
      eapply Forall_impl; [exact Ht'|]. intros y Hy. simpl in *. lia.
  - apply Forall_app. split.
    + eapply Forall_impl; [exact Hf|]. simpl. lia.
    + eapply Forall_impl; [exact Ht|]. intros y Hy. simpl in *. lia.
Qed.

Lemma keeps_order_emits {A} p i (m : GoM A) :
  emits_only (in_phase i) m -> p ≤ i -> keeps_order p i m.
Proof.
  intros Hm Hpi env tr Htr. destruct (Hm env tr) as [t [-> Ht]].
  by apply (phases_upto_app p).
Qed.

Lemma keeps_order_bind {A B} p q r (m : GoM A) (k : A -> GoM B) :
  keeps_order p q m -> q ≤ r -> (∀ a, keeps_order q r (k a)) ->
  keeps_order p r (m ≫= k).
Proof.
  intros Hm Hqr Hk env tr Htr. specialize (Hm env tr Htr).
  unfold mbind, M_MBind, M_bind.
  destruct (m env tr) as [tr1 [a| | | |]]; simpl in *; [by apply Hk|..];
    by apply (phases_upto_weaken q).
Qed.

Lemma keeps_order_section {A} i (m : GoM A) :
  emits_only (in_phase i) m -> keeps_order (i - 1) i m ∧ keeps_order i i m.
Proof. intros Hm. split; apply keeps_order_emits; (done || lia). Qed.

Lemma section_instances_phase fuel tid : emits_only (in_phase 1) (section_instances fuel tid).
Proof. unfold section_instances, print_instance, print_instance_metrics. solve_emits. Qed.

Lemma section_load_balancers_phase fuel tid :
  emits_only (in_phase 2) (section_load_balancers fuel tid).
Proof. unfold section_load_balancers. solve_emits. Qed.

Lemma section_databases_phase fuel tid : emits_only (in_phase 3) (section_databases fuel tid).
Proof. unfold section_databases. solve_emits. Qed.

Lemma section_buckets_phase fuel tid : emits_only (in_phase 4) (section_buckets fuel tid).
Proof. unfold section_buckets. solve_emits. Qed.

Lemma section_availability_domains_phase fuel tid :
  emits_only (in_phase 5) (section_availability_domains fuel tid).
Proof. unfold section_availability_domains. solve_emits. Qed.

Lemma section_file_systems_phase fuel tid ads :
  emits_only (in_phase 6) (section_file_systems fuel tid ads).
Proof. unfold section_file_systems, print_file_system. solve_emits. Qed.

Lemma section_billing_phase fuel tid : emits_only (in_phase 7) (section_billing fuel tid).
Proof. unfold section_billing. solve_emits. Qed.

#[export] Hint Resolve section_instances_phase section_load_balancers_phase
  section_databases_phase section_buckets_phase section_availability_domains_phase
  section_file_systems_phase section_billing_phase : go.

(** One section after another: the requests stay in section order. *)
Ltac chain_sections :=
  repeat (eapply keeps_order_bind;
          [eapply keeps_order_emits; [solve [eauto with go]|lia]|lia|intros ?]);
  eapply keeps_order_emits; [solve [eauto with go]|lia].

Lemma report_keeps_order fuel tid : keeps_order 0 7 (report fuel tid).
Proof. unfold report. chain_sections. Qed.

Lemma main_keeps_order fuel : keeps_order 0 7 (main fuel).
Proof.
  unfold main. eapply (keeps_order_bind 0 0 7);
    [apply keeps_order_emits; [apply emits_only_ask|lia]|lia|intros env].
  destruct (DotenvLoad env); [apply keeps_order_emits; [apply emits_only_fatalf|lia]|].
  destruct (Getwd env) as [cwd|]; [|apply keeps_order_emits; [apply emits_only_fatalf|lia]].
  repeat (eapply (keeps_order_bind 0 0 7);
          [apply keeps_order_emits; [solve_emits|lia]|lia|intros ?]).
  match goal with |- keeps_order _ _ (if ?b then _ else _) => destruct b end.
  - eapply (keeps_order_bind 0 0 7);
      [apply keeps_order_emits; [solve_emits|lia]|lia|intros ?].
    apply report_keeps_order.
  - apply keeps_order_emits; [apply emits_only_fatalf|lia].
Qed.

(** The prologue of [main]: the private-key path is set, then the
    configuration is checked against the variables with that path. *)
Lemma run_main fuel env cwd :
  DotenvLoad env = None -> Getwd env = Ok cwd ->
  main fuel env [] =
  if ConfigValid env (setenv_view (Getenv env) (startup env cwd))
  then report fuel (Getenv env "OCI_CONFIG_tenancy_ocid") env (startup env cwd)
  else (startup env cwd, Fatal (Printf "Error: Config file not valid" [])).
Proof.
  intros Hd Hw. unfold main. erewrite run_bind_ret by reflexivity.
  rewrite Hd, Hw. go_run. unfold startup.
  destruct (ConfigValid env _); [|done].
  by erewrite run_bind_ret by reflexivity.
Qed.

Lemma run_main_valid fuel env cwd :
  DotenvLoad env = None -> Getwd env = Ok cwd ->
  ConfigValid env (setenv_view (Getenv env) (startup env cwd)) = true ->
  main fuel env [] = report fuel (Getenv env "OCI_CONFIG_tenancy_ocid") env (startup env cwd).
Proof. intros Hd Hw Hc. by rewrite (run_main _ _ cwd), Hc. Qed.

(** A section that prints its title and then fails its listing. *)
Lemma run_section_listing_error {A B} (title : string) (listing : GoM (result A))
      (msg : string) (body : A -> GoM B) env tr tr' e :
  listing env (tr ++ [EvOut (Println [VStr title])]) = (tr', Ret (Err e)) ->
  (println [VStr title];;
   r ← listing;
   match r with Err err => fatalf msg [VErr err] | Ok a => body a end) env tr =
  (tr', Fatal (Printf msg [VErr e])).
Proof.
  intros Hl. erewrite run_bind_ret by apply run_emit.
  by erewrite run_bind_ret by exact Hl.
Qed.

(** The value printed for a metric of [metrics_spec val] is [val k]. *)
Lemma lookup_or_zero_metrics_spec val k :
  k ∈ metric_names -> lookup_or_zero (metrics_spec val) k = val k.
Proof.
  intros Hk. unfold lookup_or_zero, metrics_spec.
  rewrite lookup_list_to_map_fun. by rewrite decide_True.
Qed.

(** One pass of the loop body over a running instance. *)
Lemma run_print_instance_running tid env tr im inst id name shape sc pd ocpus mem items val :
  NewClient env MonitoringClient = None ->
  CoreInstance.Id inst = Some id -> CoreInstance.DisplayName inst = Some name ->
  CoreInstance.Shape inst = Some shape -> CoreInstance.LifecycleState inst = "RUNNING" ->
  CoreInstance.ShapeConfig inst = Some sc ->
  InstanceShapeConfig.ProcessorDescription sc = Some pd ->
  InstanceShapeConfig.Ocpus sc = Some ocpus -> InstanceShapeConfig.MemoryInGBs sc = Some mem ->
  answers_by_metric env id (λ k, Ok (items k)) ->
  (∀ k, k ∈ metric_names -> reduce_spec 0%float (items k) = Some (val k)) ->
  ∃ calls, Forall (λ ev, ∃ r, ev = EvCall (CSummarizeMetricsData r)) calls ∧
    print_instance tid im inst env tr =
    (tr ++ instance_lines name shape "RUNNING" pd ocpus mem ++ calls ++ metrics_lines val,
     Ret (<[id := metrics_spec val]> im)).
Proof.
  intros Hmc Hid Hn Hs Hst Hsc Hpd Hoc Hmem Hans Hval.
  set (t0 := tr ++ instance_lines name shape "RUNNING" pd ocpus mem).
  destruct (run_GetInstanceMetrics_ok tid id env t0 items val Hmc Hans Hval) as (calls & Hrun & Hf).
  exists calls. split; [done|].
  unfold print_instance, print_instance_metrics.
  rewrite Hn, Hs, Hst, Hsc. go_run. cbv beta.
  rewrite Hpd. go_run. cbv beta. rewrite Hoc. go_run. cbv beta. rewrite Hmem. go_run.
  rewrite String.eqb_refl. rewrite Hid. go_run.
  match goal with
  | |- (GetInstanceMetrics _ _ ≫= _) _ ?t = _ =>
      assert (Ht : t = t0) by (unfold t0, instance_lines; rewrite <- !app_assoc; reflexivity);
      rewrite Ht
  end.
  erewrite run_bind_ret by exact Hrun. go_run.
  unfold lookup_metrics. rewrite lookup_insert_eq. simpl default.
  rewrite !lookup_or_zero_metrics_spec by set_solver.
  go_run. unfold t0, metrics_lines. by rewrite <- !app_assoc.
Qed.

(** ** Theorems *)

(** C3. Whatever the environment, the requests of a run of [main] go
    through the sections in the order of the code (instances and their
    metrics, load balancers, databases, namespace and buckets, availability
    domains, file systems and snapshots, billing), and boot volumes are
    never listed. *)
Theorem main_calls_in_order fuel env :
  StronglySorted (≤) (phases (fst (main fuel env []))) ∧
  Forall (λ p, p ≤ 7) (phases (fst (main fuel env []))).
Proof. apply main_keeps_order. split; constructor. Qed.

(** C29. When the load-balancer listing fails, [main] ends right there with
    the fatal message naming load balancers: its trace is the trace at the
    failed listing, so no later step (databases, buckets, ...) runs and
    nothing more is printed. *)
Theorem main_stops_at_load_balancers fuel env cwd tr1 tr2 e :
  DotenvLoad env = None -> Getwd env = Ok cwd ->
  ConfigValid env (setenv_view (Getenv env) (startup env cwd)) = true ->
  section_instances fuel (Getenv env "OCI_CONFIG_tenancy_ocid") env (startup env cwd)
    = (tr1, Ret tt) ->
  ListAllLoadBalancers fuel (Getenv env "OCI_CONFIG_tenancy_ocid") env
    (tr1 ++ [EvOut (Println [VStr "Load Balancers:"])]) = (tr2, Ret (Err e)) ->
  main fuel env [] = (tr2, Fatal (Printf "Error fetching Load Balancers: %v" [VErr e])).
Proof.
  intros Hd Hw Hc Hi Hlb. rewrite (run_main_valid _ _ cwd) by done.
  unfold report. erewrite run_bind_ret by exact Hi.
  eapply run_bind_halt; [by apply run_section_listing_error|reflexivity].
Qed.

(** C30. A failed availability-domain listing ends the run with the
    message of the bucket step ("Error fetching Buckets"), not one naming
    availability domains, and nothing after it runs. *)
Theorem report_stops_at_availability_domains fuel tid env tr t1 t2 t3 t4 t5 e :
  section_instances fuel tid env tr = (t1, Ret tt) ->
  section_load_balancers fuel tid env t1 = (t2, Ret tt) ->
  section_databases fuel tid env t2 = (t3, Ret tt) ->
  section_buckets fuel tid env t3 = (t4, Ret tt) ->
  ListAvailabilityDomains fuel tid env
    (t4 ++ [EvOut (Println [VStr "Availability Domains:"])]) = (t5, Ret (Err e)) ->
  report fuel tid env tr = (t5, Fatal (Printf "Error fetching Buckets: %v" [VErr e])).
Proof.
  intros H1 H2 H3 H4 H5. unfold report.
  erewrite run_bind_ret by exact H1. erewrite run_bind_ret by exact H2.
  erewrite run_bind_ret by exact H3. erewrite run_bind_ret by exact H4.
  eapply run_bind_halt;
    [unfold section_availability_domains; by apply run_section_listing_error|reflexivity].
Qed.

(** C25. Before checking the configuration, [main] sets
    [OCI_CONFIG_private_key_path] to the working directory joined with
    ["/config/"] and the key file name, and the check reads exactly the
    variables of the process with that one changed; a valid configuration
    goes on to the report with the tenancy of [OCI_CONFIG_tenancy_ocid],
    an invalid one exits through [log.Fatalf] before printing anything:
    the diagnostic lines that follow the call in the code (lines
    168-176) are never printed. *)
Theorem main_config_check fuel env cwd :
  DotenvLoad env = None -> Getwd env = Ok cwd ->
  let path := Join env [cwd; "/config/"; Getenv env "OCI_CONFIG_private_key_filename"] in
  main fuel env [] =
  if ConfigValid env (λ k, if String.eqb k "OCI_CONFIG_private_key_path" then path
                           else Getenv env k)
  then report fuel (Getenv env "OCI_CONFIG_tenancy_ocid") env
         [EvSetenv "OCI_CONFIG_private_key_path" path]
  else ([EvSetenv "OCI_CONFIG_private_key_path" path],
        Fatal (Printf "Error: Config file not valid" [])).
Proof. intros Hd Hw path. by rewrite (run_main _ _ cwd). Qed.

(** C14. A run over one running instance prints the instance's title
    line, its name, shape and shape details, queries the monitoring
    service only, and then prints, for each of the four metrics, the value
    of the metric's series: the lines that carry the metrics show what the
    monitoring service answered. *)
Theorem section_instances_running fuel tid env tr inst id name shape sc pd ocpus mem items val :
  NewClient env ComputeClient = None -> NewClient env MonitoringClient = None ->
  ListInstances (provider env) (instances_request tid) = Ok (mkPage [inst] None) ->
  CoreInstance.Id inst = Some id -> CoreInstance.DisplayName inst = Some name ->
  CoreInstance.Shape inst = Some shape -> CoreInstance.LifecycleState inst = "RUNNING" ->
  CoreInstance.ShapeConfig inst = Some sc ->
  InstanceShapeConfig.ProcessorDescription sc = Some pd ->
  InstanceShapeConfig.Ocpus sc = Some ocpus -> InstanceShapeConfig.MemoryInGBs sc = Some mem ->
  answers_by_metric env id (λ k, Ok (items k)) ->
  (∀ k, k ∈ metric_names -> reduce_spec 0%float (items k) = Some (val k)) ->
  ∃ calls, Forall (λ ev, ∃ r, ev = EvCall (CSummarizeMetricsData r)) calls ∧
    section_instances (S fuel) tid env tr =
    (tr ++ [EvOut (Println [VStr "Instances:"]); EvCall (CListInstances (instances_request tid))]
        ++ instance_lines name shape "RUNNING" pd ocpus mem ++ calls ++ metrics_lines val,
     Ret tt).
Proof.
  intros Hcc Hmc Hl Hid Hn Hs Hst Hsc Hpd Hoc Hmem Hans Hval.
  set (t0 := tr ++ [EvOut (Println [VStr "Instances:"]); EvCall (CListInstances (instances_request tid))]).
  destruct (run_print_instance_running tid env t0 ∅ inst id name shape sc pd ocpus mem items val)
    as (calls & Hf & Hp); [done..|].
  exists calls. split; [done|].
  unfold section_instances. erewrite run_bind_ret by apply run_emit.
  erewrite run_bind_ret.
  2:{ unfold ListAllInstances. rewrite run_with_client_ok by done.
      rewrite run_paginate_S. unfold instances_request in Hl. by rewrite Hl. }
  cbn [foldM app Items]. rewrite bind_assoc_run.
  replace ((tr ++ [EvOut (Println [VStr "Instances:"])]) ++
           [EvCall (CListInstances (ListInstancesRequest.mk (Some tid) None))]) with t0
    by (unfold t0; by rewrite <- app_assoc).
  erewrite run_bind_ret by exact Hp. unfold t0. by rewrite <- !app_assoc.
Qed.

(** ** Witnesses *)

Lemma main_stops_at_load_balancers_witness :
  ∃ tr, main 1 (env_one_instance true) [] =
        (tr, Fatal (Printf "Error fetching Load Balancers: %v" [VErr "LimitExceeded"])).
Proof.
  set (env := env_one_instance true). set (tid := Getenv env "OCI_CONFIG_tenancy_ocid").
  set (tr1 := fst (section_instances 1 tid env (startup env "/home/opc"))).
  set (tr2 := fst (ListAllLoadBalancers 1 tid env (tr1 ++ [EvOut (Println [VStr "Load Balancers:"])]))).
  exists tr2. apply (main_stops_at_load_balancers 1 env "/home/opc" tr1 tr2); vm_compute; reflexivity.
Defined.

Lemma report_stops_at_availability_domains_witness :
  ∃ tr, report 1 "ocid1.tenancy" (env_one_instance false) [] =
        (tr, Fatal (Printf "Error fetching Buckets: %v" [VErr "NotAuthorizedOrNotFound"])).
Proof.
  set (env := env_one_instance false). set (tid := "ocid1.tenancy").
  set (t1 := fst (section_instances 1 tid env [])).
  set (t2 := fst (section_load_balancers 1 tid env t1)).
  set (t3 := fst (section_databases 1 tid env t2)).
  set (t4 := fst (section_buckets 1 tid env t3)).
  set (t5 := fst (ListAvailabilityDomains 1 tid env
                    (t4 ++ [EvOut (Println [VStr "Availability Domains:"])]))).
  exists t5. apply (report_stops_at_availability_domains 1 tid env [] t1 t2 t3 t4 t5);
    vm_compute; reflexivity.
Defined.

Lemma main_config_check_witness :
  main 1 env_invalid [] =
    ([EvSetenv "OCI_CONFIG_private_key_path" "/home/opc//config//"],
     Fatal (Printf "Error: Config file not valid" [])).
Proof. exact (main_config_check 1 env_invalid "/home/opc" eq_refl eq_refl). Defined.

Lemma section_instances_running_witness :
  ∃ calls, Forall (λ ev, ∃ r, ev = EvCall (CSummarizeMetricsData r)) calls ∧
    section_instances 1 "ocid1.tenancy" (env_one_instance false) [] =
    ([] ++ [EvOut (Println [VStr "Instances:"]);
            EvCall (CListInstances (instances_request "ocid1.tenancy"))]
        ++ instance_lines "web-1" "VM.Standard.E4.Flex" "RUNNING" "AMD EPYC 7J13"
             1%float 16%float
        ++ calls ++ metrics_lines (λ _, 42.5%float),
     Ret tt).
Proof.
  apply (section_instances_running 0 "ocid1.tenancy" (env_one_instance false) [] running_instance
           witness_instance "web-1" "VM.Standard.E4.Flex"
           (InstanceShapeConfig.mk (Some "AMD EPYC 7J13") (Some 1%float) (Some 16%float))
           "AMD EPYC 7J13" 1%float 16%float flat_series (λ _, 42.5%float));
    try reflexivity.
  solve_answers.
Defined.
