(* ===== verification/Requests.v ===== *)
(** * What the requests of a run carry

    Every request the report sends is scoped to the tenancy read from
    [OCI_CONFIG_tenancy_ocid]: the compartment of each listing, of the
    namespace lookup and of each metrics query is the tenancy, and the
    usage request is for that tenant, over the hard-coded window of
    main.go line 154, by day.  Snapshot listings are by file system and
    carry no compartment.  The pagination loop keeps these fields because
    it only changes a request's [Page] ([paginate_same_filters]).

    The billing window runs from 2024-05-01 to 2024-05-31 at midnight UTC:
    30 days, one short of the month the report is meant to summarise. *)

From S2P Require Import Prelude Sdk Pagination Enumerators Metrics Driver.

(** The usage request details of line 154. *)
Definition billing_details (tid : string) : RequestSummarizedUsagesDetails.t :=
  RequestSummarizedUsagesDetails.mk (Some tid) (Some billing_start) (Some billing_end)
    GranularityDaily.

(** A request scoped to tenancy [tid]. *)
Definition scoped (tid : string) (c : Call) : Prop :=
  match c with
  | CListInstances r => ListInstancesRequest.CompartmentId r = Some tid
  | CListBootVolumes r => ListBootVolumesRequest.CompartmentId r = Some tid
  | CListLoadBalancers r => ListLoadBalancersRequest.CompartmentId r = Some tid
  | CGetNamespace r => GetNamespaceRequest.CompartmentId r = Some tid
  | CListBuckets r => ListBucketsRequest.CompartmentId r = Some tid
  | CListAvailabilityDomains r => ListAvailabilityDomainsRequest.CompartmentId r = Some tid
  | CListFileSystems r => ListFileSystemsRequest.CompartmentId r = Some tid
  | CListSnapshots _ => True
  | CListDbSystems r => ListDbSystemsRequest.CompartmentId r = Some tid
  | CRequestSummarizedUsages r => RequestSummarizedUsagesRequest.Details r = billing_details tid
  | CSummarizeMetricsData r => SummarizeMetricsDataRequest.CompartmentId r = Some tid
  end.

Definition scoped_event (tid : string) (ev : Event) : Prop :=
  match ev with
  | EvCall c => scoped tid c
  | EvOut _ | EvSetenv _ _ => True
  end.

(** ** The loops keep the scope *)

#[export] Hint Extern 1 (scoped_event _ _) => (cbn; done) : go.

Lemma paginate_scoped {Req Item} `{PageRequest Req} (mk : Req -> Call)
      (endpoint : Provider -> Req -> result (Page Item)) fuel request acc tid :
  (∀ q, same_filters request q -> scoped tid (mk q)) ->
  emits_only (scoped_event tid) (paginate mk endpoint fuel request acc).
Proof.
  intros Hq. eapply emits_only_weaken; [|apply paginate_same_filters].
  intros ev (q & -> & Hs). by apply Hq.
Qed.

(** A request with the filters of a scoped one is scoped. *)
Ltac filters_scoped :=
  apply paginate_scoped; intros [] Hq; unfold same_filters in Hq; cbn in Hq |- *;
  simplify_eq; done.

Section Enumerators.
Context (fuel : nat) (tid : string).

Lemma ListAllInstances_scoped : emits_only (scoped_event tid) (ListAllInstances fuel tid).
Proof. unfold ListAllInstances, with_client. solve_emits. filters_scoped. Qed.

Lemma ListAllLoadBalancers_scoped :
  emits_only (scoped_event tid) (ListAllLoadBalancers fuel tid).
Proof. unfold ListAllLoadBalancers, with_client. solve_emits. filters_scoped. Qed.

Lemma ListAllDatabases_scoped : emits_only (scoped_event tid) (ListAllDatabases fuel tid).
Proof. unfold ListAllDatabases, with_client. solve_emits. filters_scoped. Qed.

Lemma ListAllBuckets_scoped : emits_only (scoped_event tid) (ListAllBuckets fuel tid).
Proof. unfold ListAllBuckets, with_client. solve_emits. filters_scoped. Qed.

Lemma ListAvailabilityDomains_scoped :
  emits_only (scoped_event tid) (ListAvailabilityDomains fuel tid).
Proof. unfold ListAvailabilityDomains, with_client. solve_emits. Qed.

Lemma ListAllFileSystems_scoped ad :
  emits_only (scoped_event tid) (ListAllFileSystems fuel tid ad).
Proof. unfold ListAllFileSystems, with_client. solve_emits. filters_scoped. Qed.

Lemma ListFileStorageSnapshots_scoped id :
  emits_only (scoped_event tid) (ListFileStorageSnapshots fuel id).
Proof. unfold ListFileStorageSnapshots, with_client. solve_emits. Qed.

Lemma GetBillingReport_scoped :
  emits_only (scoped_event tid) (GetBillingReport fuel tid billing_start billing_end).
Proof. unfold GetBillingReport, with_client. solve_emits. filters_scoped. Qed.

Lemma query_metrics_scoped l m : emits_only (scoped_event tid) (query_metrics tid l m).
Proof. revert m. induction l as [|[??] ? IH]; intros m; simpl; solve_emits. Qed.

Lemma GetInstanceMetrics_scoped id : emits_only (scoped_event tid) (GetInstanceMetrics tid id).
Proof. unfold GetInstanceMetrics, with_client. solve_emits. apply query_metrics_scoped. Qed.
End Enumerators.

#[export] Hint Resolve ListAllInstances_scoped ListAllLoadBalancers_scoped
  ListAllDatabases_scoped ListAllBuckets_scoped ListAvailabilityDomains_scoped
  ListAllFileSystems_scoped ListFileStorageSnapshots_scoped GetBillingReport_scoped
  GetInstanceMetrics_scoped : go.

Lemma report_scoped fuel tid : emits_only (scoped_event tid) (report fuel tid).
Proof.
  unfold report, section_instances, print_instance, print_instance_metrics,
    section_load_balancers, section_databases, section_buckets,
    section_availability_domains, section_file_systems, print_file_system,
    section_billing.
  solve_emits.
Qed.

(** The requests of a whole run of [main]. *)
Lemma main_trace_scoped fuel env :
  Forall (scoped_event (Getenv env "OCI_CONFIG_tenancy_ocid")) (fst (main fuel env [])).
Proof.
  destruct (DotenvLoad env) as [e|] eqn:Hd.
  { unfold main. erewrite run_bind_ret by reflexivity. by rewrite Hd. }
  destruct (Getwd env) as [cwd|e] eqn:Hw.
  2:{ unfold main. erewrite run_bind_ret by reflexivity. by rewrite Hd, Hw. }
  rewrite (run_main _ _ cwd) by done.
  destruct (ConfigValid env _); [|by repeat constructor].
  destruct (report_scoped fuel (Getenv env "OCI_CONFIG_tenancy_ocid") env (startup env cwd))
    as [t [-> Ht]].
  apply Forall_app. split; [by repeat constructor|done].
Qed.

(** ** Theorems *)

(** C8. Every request a run of [main] sends is scoped to the tenancy of
    [OCI_CONFIG_tenancy_ocid]: each listing, the namespace lookup and each
    metrics query has it as compartment, and each usage request asks for
    that tenant's usage over the window of line 154, by day; later pages
    keep these fields. *)
Theorem main_requests_scoped fuel env c :
  EvCall c ∈ fst (main fuel env []) -> scoped (Getenv env "OCI_CONFIG_tenancy_ocid") c.
Proof.
  intros Hc. pose proof (main_trace_scoped fuel env) as Hall.
  rewrite Forall_forall in Hall. exact (Hall _ Hc).
Qed.

(** C31. The usage window of every billing request of [main] is 30 days
    long and ends on 2024-05-31 at midnight UTC, one day before June: the
    last day of May is outside the "monthly" billing summary. *)
Theorem billing_window fuel env r :
  EvCall (CRequestSummarizedUsages r) ∈ fst (main fuel env []) ->
  ∃ s e, RequestSummarizedUsagesDetails.TimeUsageStarted (RequestSummarizedUsagesRequest.Details r)
           = Some s ∧
         RequestSummarizedUsagesDetails.TimeUsageEnded (RequestSummarizedUsagesRequest.Details r)
           = Some e ∧
         (e - s = 30 * 24 * 60 * Minute)%Z ∧
         (time_Date 2024 6 1 0 0 0 0 - e = 24 * 60 * Minute)%Z.
Proof.
  intros Hr. pose proof (main_trace_scoped fuel env) as Hall.
  rewrite Forall_forall in Hall. specialize (Hall _ Hr). simpl in Hall. rewrite Hall.
  exists billing_start, billing_end. split_and!; [done|done|vm_compute; done..].
Qed.

(** ** Witnesses *)

Lemma main_requests_scoped_witness :
  EvCall (CListInstances (instances_request "ocid1.tenancy"))
    ∈ fst (main 1 (env_one_instance false) []) ∧
  scoped (Getenv (env_one_instance false) "OCI_CONFIG_tenancy_ocid")
    (CListInstances (instances_request "ocid1.tenancy")).
Proof.
  assert (Hin : EvCall (CListInstances (instances_request "ocid1.tenancy"))
                  ∈ fst (main 1 (env_one_instance false) [])).
  { apply list_elem_of_In. vm_compute. repeat (first [left; reflexivity | right]). }
  split; [exact Hin|exact (main_requests_scoped 1 _ _ Hin)].
Defined.

Lemma billing_window_witness :
  let env := env_of provider0 (λ _, None) in
  let r := RequestSummarizedUsagesRequest.mk (billing_details "ocid1.tenancy") None in
  EvCall (CRequestSummarizedUsages r) ∈ fst (main 1 env []) ∧
  ∃ s e, RequestSummarizedUsagesDetails.TimeUsageStarted (RequestSummarizedUsagesRequest.Details r)
           = Some s ∧
         RequestSummarizedUsagesDetails.TimeUsageEnded (RequestSummarizedUsagesRequest.Details r)
           = Some e ∧
         (e - s = 30 * 24 * 60 * Minute)%Z ∧
         (time_Date 2024 6 1 0 0 0 0 - e = 24 * 60 * Minute)%Z.
Proof.
  intros env r.
  assert (Hin : EvCall (CRequestSummarizedUsages r) ∈ fst (main 1 env [])).
  { apply list_elem_of_In. vm_compute. repeat (first [left; reflexivity | right]). }
  split; [exact Hin|exact (billing_window 1 env r Hin)].
Defined.
