(* ===== verification/Sections.v ===== *)
(** * The nested loops of the file-system section

    Lines 127-150 of src/main.go nest three loops: over the availability
    domains, over the file systems of each domain, and over the snapshots
    of each file system.  This file computes the requests such a run
    sends, in order: for each domain its file-system listing, then one
    snapshot listing per file system of that domain, before the next
    domain.  The provider is described by the file systems [fs_of n] of
    domain [n] and the snapshots [snaps_of id] of file system [id], each
    served as one page.

    The instance loop of lines 53-73 threads the map [instanceMetrics]
    through its iterations (a [foldM] of [print_instance]); the file
    shows that the loop leaves in it exactly the OCIDs of the running
    instances ([running_ids]). *)

From S2P Require Import Prelude Sdk Pagination Enumerators Metrics Driver.

(** The listing requests of lines 189-192 and 221-223. *)
Definition fs_request (tid ad : string) : ListFileSystemsRequest.t :=
  ListFileSystemsRequest.mk (Some tid) (Some ad) None.

Definition snapshots_request (id : string) : ListSnapshotsRequest.t :=
  ListSnapshotsRequest.mk (Some id) None.

(** The requests for domain [ad]: the listing of its file systems,
    then the snapshot listing of each of them. *)
Definition domain_calls (tid : string) (fs_of : string -> list FileSystemSummary.t)
           (ad : AvailabilityDomain.t) : list Call :=
  let n := default "" (AvailabilityDomain.Name ad) in
  CListFileSystems (fs_request tid n) ::
  map (λ fs, CListSnapshots (snapshots_request (default "" (FileSystemSummary.Id fs))))
    (fs_of n).

(** The requests of the section: domain after domain. *)
Definition file_system_calls (tid : string) (fs_of : string -> list FileSystemSummary.t)
           (ads : list AvailabilityDomain.t) : list Call :=
  concat (map (domain_calls tid fs_of) ads).

(** The ids of the running instances, in order (lines 61-62). *)
Definition running_ids (instances : list CoreInstance.t) : list string :=
  omap (λ inst, if String.eqb (CoreInstance.LifecycleState inst) "RUNNING"
                then CoreInstance.Id inst else None) instances.

(** ** A concrete process: two file systems in ["AD-1"], the first with
    two snapshots *)

Definition fs1 : FileSystemSummary.t :=
  FileSystemSummary.mk (Some "ocid1.fs.1") (Some "home") (Some 4096%Z) "ACTIVE".
Definition fs2 : FileSystemSummary.t :=
  FileSystemSummary.mk (Some "ocid1.fs.2") (Some "data") None "ACTIVE".

Definition witness_fs_of (n : string) : list FileSystemSummary.t :=
  if String.eqb n "AD-1" then [fs1; fs2] else [].

Definition witness_snaps_of (id : string) : list SnapshotSummary.t :=
  if String.eqb id "ocid1.fs.1"
  then [SnapshotSummary.mk (Some "daily-1") None "ACTIVE";
        SnapshotSummary.mk (Some "daily-2") None "ACTIVE"]
  else [].

Definition env_file_systems : Env :=
  env_of {| ListInstances := empty_listing;
            ListBootVolumes := empty_listing;
            ListLoadBalancers := empty_listing;
            GetNamespace := λ _, Ok (Some "ns");
            ListBuckets := empty_listing;
            Sdk.ListAvailabilityDomains := λ _, Ok (mkPage [ad1] None);
            ListFileSystems := λ r, Ok (mkPage (witness_fs_of
                                 (default "" (ListFileSystemsRequest.AvailabilityDomain r))) None);
            ListSnapshots := λ r, Ok (mkPage (witness_snaps_of
                                 (default "" (ListSnapshotsRequest.FileSystemId r))) None);
            ListDbSystems := empty_listing;
            RequestSummarizedUsages := empty_listing;
            SummarizeMetricsData := λ _, Ok [] |} (λ _, None).

Section FileSystems.
Context (fuel : nat) (tid : string) (env : Env)
        (fs_of : string -> list FileSystemSummary.t)
        (snaps_of : string -> list SnapshotSummary.t).
Hypothesis client_ok : NewClient env FileStorageClient = None.
Hypothesis fs_served : ∀ n,
  ListFileSystems (provider env) (fs_request tid n) = Ok (mkPage (fs_of n) None).
Hypothesis snaps_served : ∀ id,
  ListSnapshots (provider env) (snapshots_request id) = Ok (mkPage (snaps_of id) None).
Hypothesis fs_named : ∀ n fs, fs ∈ fs_of n ->
  is_Some (FileSystemSummary.DisplayName fs) ∧ is_Some (FileSystemSummary.Id fs).
Hypothesis snaps_named : ∀ id s, s ∈ snaps_of id -> is_Some (SnapshotSummary.Name s).

Lemma print_file_system_calls n fs t :
  fs ∈ fs_of n ->
  ∃ t', print_file_system (S fuel) n fs env t = (t', Ret tt) ∧
        calls t' = calls t ++ [CListSnapshots (snapshots_request
                                 (default "" (FileSystemSummary.Id fs)))].
Proof.
  intros Hfs. destruct (fs_named n fs Hfs) as [[name Hn] [id Hid]].
  unfold print_file_system. rewrite Hn, Hid. go_run.
  erewrite run_bind_ret.
  2:{ unfold ListFileStorageSnapshots. rewrite run_with_client_ok by done.
      rewrite run_paginate_S. pose proof (snaps_served id) as Hs.
      unfold snapshots_request in Hs. rewrite Hs. reflexivity. }
  cbn [app Items]. go_run.
  match goal with |- ∃ _, for_ _ ?body _ ?t0 = _ ∧ _ =>
    destruct (run_for_calls (snaps_of id) body (λ _, []) env) with t0 as (t' & Hrun & Hc)
  end.
  { intros s t1 Hsin. destruct (snaps_named id s Hsin) as [sname Hsn].
    rewrite Hsn. go_run. eexists. split; [reflexivity|].
    rewrite calls_app. simpl. by rewrite !app_nil_r. }
  exists t'. split; [exact Hrun|]. rewrite Hc, concat_map_nil, !calls_app. simpl.
  by rewrite !app_nil_r.
Qed.
(** C16. With every listing served as one page and every record named,
    the file-system section sends, domain after domain in the order of
    the listing of availability domains, the file-system listing of the
    domain followed by one snapshot listing per file system of that
    domain, in the order they were listed, and then returns. *)
Theorem section_file_systems_order ads t :
  (∀ ad, ad ∈ ads -> is_Some (AvailabilityDomain.Name ad)) ->
  ∃ t', section_file_systems (S fuel) tid ads env t = (t', Ret tt) ∧
        calls t' = calls t ++ file_system_calls tid fs_of ads.
Proof.
  intros Hads. unfold section_file_systems. erewrite run_bind_ret by apply run_emit.
  match goal with |- ∃ _, for_ _ ?body _ ?t0 = _ ∧ _ =>
    destruct (run_for_calls ads body (domain_calls tid fs_of) env) with t0 as (t' & Hrun & Hc)
  end.
  { intros ad t1 Had. destruct (Hads ad Had) as [n Hn]. unfold domain_calls. rewrite Hn.
    go_run. erewrite run_bind_ret.
    2:{ unfold ListAllFileSystems. rewrite run_with_client_ok by done.
        rewrite run_paginate_S. pose proof (fs_served n) as Hf. unfold fs_request in Hf.
        rewrite Hf. reflexivity. }
    cbn [app Items default].
    match goal with |- ∃ _, for_ _ ?b _ ?t2 = _ ∧ _ =>
      destruct (run_for_calls (fs_of n) b
        (λ fs, [CListSnapshots (snapshots_request (default "" (FileSystemSummary.Id fs)))])
        env) with t2 as (t3 & Hr3 & Hc3)
    end.
    { intros fs t4 Hfs. by apply print_file_system_calls. }
    exists t3. split; [done|]. rewrite Hc3, concat_map_singleton, calls_app. simpl.
    by rewrite <- app_assoc. }
  exists t'. split; [done|]. rewrite Hc, calls_app. simpl. by rewrite app_nil_r.
Qed.
End FileSystems.

(** ** Witness *)

Lemma section_file_systems_order_witness :
  ∃ t', section_file_systems 1 "ocid1.tenancy" [ad1] env_file_systems [] = (t', Ret tt) ∧
        calls t' = [] ++ file_system_calls "ocid1.tenancy" witness_fs_of [ad1].
Proof.
  apply (section_file_systems_order 0 "ocid1.tenancy" env_file_systems witness_fs_of
           witness_snaps_of); try reflexivity.
  - intros n fs Hfs. unfold witness_fs_of in Hfs. destruct (String.eqb n "AD-1"); [|set_solver].
    apply elem_of_cons in Hfs as [->|Hfs]; [split; eexists; reflexivity|].
    apply elem_of_cons in Hfs as [->|Hfs]; [split; eexists; reflexivity|set_solver].
  - intros id sn Hs. unfold witness_snaps_of in Hs. destruct (String.eqb id "ocid1.fs.1");
      [|set_solver].
    apply elem_of_cons in Hs as [->|Hs]; [eexists; reflexivity|].
    apply elem_of_cons in Hs as [->|Hs]; [eexists; reflexivity|set_solver].
  - intros ad Had. apply elem_of_cons in Had as [->|Had]; [eexists; reflexivity|set_solver].
Defined.

(** ** The map of the instance loop *)

(** Invert the binds of a run that returned. *)
Ltac invert_run H :=
  repeat match type of H with
  | (_ ≫= _) _ _ = (_, Ret _) =>
      let t := fresh "t" in let a := fresh "a" in let Hm := fresh "Hm" in
      apply run_bind_inv in H as (t & a & Hm & H)
  end.

Lemma deref_ret {A} (p : option A) env tr tr' a :
  (deref p : GoM A) env tr = (tr', Ret a) -> p = Some a ∧ tr' = tr.
Proof. destruct p; cbv [deref mret M_MRet M_ret panic]; intros H; simplify_eq; auto. Qed.

(** One pass of the loop body: a running instance stores its metrics
    under its id, any other instance leaves the map as it was. *)
Lemma print_instance_map tid im inst env tr tr' im' :
  print_instance tid im inst env tr = (tr', Ret im') ->
  if String.eqb (CoreInstance.LifecycleState inst) "RUNNING"
  then ∃ id m, CoreInstance.Id inst = Some id ∧ im' = <[id := m]> im
  else im' = im.
Proof.
  intros H. unfold print_instance in H. invert_run H.
  destruct (String.eqb _ _); [|cbv [mret M_MRet M_ret] in H; by simplify_eq].
  unfold print_instance_metrics in H. invert_run H.
  match goal with Hd : deref (CoreInstance.Id inst) _ _ = _ |- _ =>
    apply deref_ret in Hd as [Hid _] end.
  match type of H with (match ?r with _ => _ end) _ _ = _ => destruct r end;
    invert_run H; cbv [mret M_MRet M_ret fatalf] in H; simplify_eq; eauto.
Qed.

(** C15. The map [instanceMetrics] that the instance loop of main.go
    (lines 51-73) threads through its iterations ends with one key per
    running instance and no other: a pass over an instance whose
    [LifecycleState] is ["RUNNING"] adds its OCID, any other instance
    leaves the map unchanged. *)
Theorem instance_loop_keys tid insts : ∀ im env tr tr' im',
  foldM (print_instance tid) im insts env tr = (tr', Ret im') ->
  dom im' = dom im ∪ list_to_set (running_ids insts).
Proof.
  induction insts as [|inst insts IH]; intros im env tr tr' im' H; simpl in H.
  - cbv [mret M_MRet M_ret] in H. simplify_eq. set_solver.
  - apply run_bind_inv in H as (t & a & Hm & H). rewrite (IH _ _ _ _ _ H).
    apply print_instance_map in Hm. unfold running_ids. cbn [omap list_omap].
    destruct (String.eqb _ _).
    + destruct Hm as (id & m & -> & ->). rewrite dom_insert_L. set_solver.
    + subst. set_solver.
Qed.

Lemma instance_loop_keys_witness :
  ∃ tr' im', foldM (print_instance "ocid1.tenancy") ∅ [running_instance]
               (env_one_instance false) [] = (tr', Ret im') ∧
             dom im' = {[witness_instance]}.
Proof.
  destruct (foldM (print_instance "ocid1.tenancy") ∅ [running_instance]
              (env_one_instance false) []) as [tr' [im'| | | |]] eqn:E;
    try (vm_compute in E; discriminate).
  exists tr', im'. split; [reflexivity|].
  rewrite (instance_loop_keys _ _ _ _ _ _ _ E). vm_compute. set_solver.
Defined.
