(* ===== verification/Format.v ===== *)
(** * The format strings of the program

    Every line the program writes goes through [fmt.Printf],
    [fmt.Println] or [log.Fatalf]; the model keeps a [Printf] line as its
    format string and its argument values.  This file reads the format
    strings the way the fmt package does: a [%] starts a directive, flags,
    width and precision ([+ - # space 0-9 .]) may follow, and the next
    character is the verb; [%%] prints a percent sign and takes no
    argument.  A line is well formed when it has one argument per verb
    ([arity_ok]: no [%!v(MISSING)] and no [%!(EXTRA ...)] in the output)
    and each argument has the kind its verb formats ([kinds_ok]): [%s]
    a string, an [error], or a [Stringer] (a [time.Time], or an
    [*SDKTime], nil included); [%f] a float; [%d] an integer; [%v] any
    value.

    The theorem: every line a run of [main] prints or logs has one
    argument per verb, and the only lines with an argument of the wrong
    kind are the file-system lines of main.go line 137, which give the
    [*int64] [MeteredBytes] to [%d]: they print the pointer, not the size.

    The rendering of the values (decimal expansion of floats, layout of
    times) is the fmt package's and is not modelled. *)

From Stdlib Require Import Ascii.
From S2P Require Import Prelude Sdk Pagination Enumerators Metrics Driver Sections.

(** Flags, width and precision between [%] and the verb. *)
Definition fmt_modifier (c : ascii) : bool :=
  existsb (Ascii.eqb c) ["+"; "-"; "#"; " "; "."; "0"; "1"; "2"; "3"; "4";
                         "5"; "6"; "7"; "8"; "9"]%char.

(** The verbs of a format string, in order; [in_verb] holds after a [%]. *)
Fixpoint verbs_from (in_verb : bool) (s : string) : list ascii :=
  match s with
  | EmptyString => []
  | String c s' =>
      if in_verb then
        if fmt_modifier c then verbs_from true s'
        else if Ascii.eqb c "%" then verbs_from false s'
        else c :: verbs_from false s'
      else if Ascii.eqb c "%" then verbs_from true s'
      else verbs_from false s'
  end.

Definition verbs (format : string) : list ascii := verbs_from false format.

(** The kinds of value a verb formats. *)
Definition verb_accepts (v : ascii) (x : Value) : bool :=
  if Ascii.eqb v "v" then true
  else if Ascii.eqb v "s" then
    match x with
    | VStr _ | VErr _ | VTime _ | VPtr None | VPtr (Some (VTime _)) => true
    | _ => false
    end
  else if Ascii.eqb v "f" then match x with VFloat _ => true | _ => false end
  else if Ascii.eqb v "d" then match x with VInt _ => true | _ => false end
  else false.

Fixpoint args_match (vs : list ascii) (args : list Value) : bool :=
  match vs, args with
  | [], [] => true
  | v :: vs', a :: args' => verb_accepts v a && args_match vs' args'
  | _, _ => false
  end.

Definition arity_ok (l : Line) : bool :=
  match l with
  | Printf f args => Nat.eqb (length (verbs f)) (length args)
  | Println _ => true
  end.

Definition kinds_ok (l : Line) : bool :=
  match l with
  | Printf f args => args_match (verbs f) args
  | Println _ => true
  end.

Definition line_format (l : Line) : option string :=
  match l with Printf f _ => Some f | Println _ => None end.

(** The format of main.go line 137. *)
Definition file_system_format : string :=
  "  Name: %s, Size: %d Bytes, Availability Domain: %s, State: %s\n".

(** One argument per verb; the wrong kinds exactly on line 137. *)
Definition line_good (l : Line) : Prop :=
  arity_ok l = true ∧ (kinds_ok l = true <-> line_format l ≠ Some file_system_format).

(** The lines printed along a trace, and the line of a fatal exit. *)
Definition printed_lines (tr : list Event) : list Line :=
  omap (λ ev, match ev with EvOut l => Some l | _ => None end) tr.

Definition fatal_lines {A} (x : exec A) : list Line :=
  match x with Fatal l => [l] | _ => [] end.

Definition out_good (ev : Event) : Prop :=
  match ev with EvOut l => line_good l | _ => True end.

Definition fatal_good (x : exec unit) : Prop :=
  match x with Fatal l => line_good l | _ => True end.

(** ** Checking a concrete line *)

Ltac line_iff :=
  split; [reflexivity|];
  split; let H := fresh "Hline" in intros H;
  first [ discriminate H | intros ?; discriminate | reflexivity
        | (exfalso; apply H; reflexivity) ].

Ltac solve_line :=
  unfold line_good; cbn;
  repeat (match goal with |- context [_ <$> ?t] => destruct t end; cbn);
  line_iff.

#[export] Hint Extern 1 (out_good _) => (cbn; first [exact I | solve_line]) : go.
#[export] Hint Extern 1 (fatal_good _) => (cbn; first [exact I | solve_line]) : go.

Lemma printed_lines_app tr tr' : printed_lines (tr ++ tr') = printed_lines tr ++ printed_lines tr'.
Proof. apply omap_app. Qed.

(** ** The fatal exits of the components *)

#[export] Hint Resolve ends_paginate ends_paginate_norethread : go.

Section FatalLines.
Context (fuel : nat).

Lemma with_client_fatal_good {A} k msg (body : GoM A) :
  (∀ e, fatal_good (Fatal (Printf msg [VErr e]))) -> ends (λ _, True) fatal_good body ->
  ends (λ _, True) fatal_good (with_client k msg body).
Proof. intros Hm Hb. unfold with_client. solve_ends. Qed.

Ltac enumerator_fatal_good :=
  apply with_client_fatal_good; [intros e; solve_line|solve_ends].

Lemma ListAllInstances_fatal tid : ends (λ _, True) fatal_good (ListAllInstances fuel tid).
Proof. unfold ListAllInstances. enumerator_fatal_good. Qed.

Lemma ListAllLoadBalancers_fatal tid :
  ends (λ _, True) fatal_good (ListAllLoadBalancers fuel tid).
Proof. unfold ListAllLoadBalancers. enumerator_fatal_good. Qed.

Lemma ListAllDatabases_fatal tid : ends (λ _, True) fatal_good (ListAllDatabases fuel tid).
Proof. unfold ListAllDatabases. enumerator_fatal_good. Qed.

Lemma ListAllBuckets_fatal tid : ends (λ _, True) fatal_good (ListAllBuckets fuel tid).
Proof. unfold ListAllBuckets. enumerator_fatal_good. Qed.

Lemma ListAvailabilityDomains_fatal tid :
  ends (λ _, True) fatal_good (ListAvailabilityDomains fuel tid).
Proof. unfold ListAvailabilityDomains. enumerator_fatal_good. Qed.

Lemma ListAllFileSystems_fatal tid ad :
  ends (λ _, True) fatal_good (ListAllFileSystems fuel tid ad).
Proof. unfold ListAllFileSystems. enumerator_fatal_good. Qed.

Lemma ListFileStorageSnapshots_fatal id :
  ends (λ _, True) fatal_good (ListFileStorageSnapshots fuel id).
Proof. unfold ListFileStorageSnapshots. enumerator_fatal_good. Qed.

Lemma GetBillingReport_fatal tid s t :
  ends (λ _, True) fatal_good (GetBillingReport fuel tid s t).
Proof. unfold GetBillingReport. enumerator_fatal_good. Qed.

Lemma query_metrics_fatal tid l m : ends (λ _, True) fatal_good (query_metrics tid l m).
Proof. revert m. induction l as [|[??] ? IH]; intros m; simpl; solve_ends. Qed.

Lemma GetInstanceMetrics_fatal tid id :
  ends (λ _, True) fatal_good (GetInstanceMetrics tid id).
Proof.
  unfold GetInstanceMetrics. apply with_client_fatal_good; [intros e; solve_line|].
  solve_ends. apply query_metrics_fatal.
Qed.
End FatalLines.

#[export] Hint Resolve ListAllInstances_fatal ListAllLoadBalancers_fatal ListAllDatabases_fatal
  ListAllBuckets_fatal ListAvailabilityDomains_fatal ListAllFileSystems_fatal
  ListFileStorageSnapshots_fatal GetBillingReport_fatal GetInstanceMetrics_fatal : go.

(** ** The whole run *)

Lemma main_fatal_good fuel : ends (λ _, True) fatal_good (main fuel).
Proof.
  unfold main, config_invalid, report, section_instances, print_instance,
    print_instance_metrics, section_load_balancers, section_databases, section_buckets,
    section_availability_domains, section_file_systems, print_file_system, section_billing.
  solve_ends.
Qed.

Lemma main_out_good fuel : emits_only out_good (main fuel).
Proof.
  unfold main, config_invalid, report, section_instances, print_instance,
    print_instance_metrics, section_load_balancers, section_databases, section_buckets,
    section_availability_domains, section_file_systems, print_file_system, section_billing.
  solve_emits.
Qed.

Lemma printed_lines_good t : Forall out_good t -> Forall line_good (printed_lines t).
Proof. induction 1 as [|[c|l|k v] t Hev Ht IH]; simpl; auto. Qed.

(** ** Theorem *)

(** C9. Every line a run of [main] prints with [fmt.Printf] or
    [fmt.Println], or logs with [log.Fatalf], has exactly one argument per
    verb of its format; every verb gets an argument of its kind except on
    the file-system lines of main.go line 137, and there always: their
    [%d] receives the [*int64] [MeteredBytes], so the pointer is printed
    instead of the size. *)
Theorem main_lines_well_formed fuel env l :
  l ∈ printed_lines (fst (main fuel env [])) ++ fatal_lines (snd (main fuel env [])) ->
  line_good l.
Proof.
  intros Hl. apply elem_of_app in Hl as [Hl|Hl].
  - destruct (main_out_good fuel env []) as [t [Ht Hf]]. rewrite Ht in Hl.
    apply printed_lines_good in Hf. rewrite Forall_forall in Hf. by apply Hf.
  - pose proof (main_fatal_good fuel env [] I) as Hg.
    destruct (snd (main fuel env [])); simpl in *; set_solver.
Qed.

(** ** Witness *)

Lemma main_lines_well_formed_witness :
  let l := Printf file_system_format [VStr "home"; VPtr (Some (VInt 4096)); VStr "AD-1";
                                      VStr "ACTIVE"] in
  l ∈ printed_lines (fst (main 1 env_file_systems [])) ++
      fatal_lines (snd (main 1 env_file_systems [])) ∧
  line_good l.
Proof.
  intros l.
  assert (Hin : l ∈ printed_lines (fst (main 1 env_file_systems [])) ++
                    fatal_lines (snd (main 1 env_file_systems []))).
  { apply list_elem_of_In. vm_compute. repeat (first [left; reflexivity | right]). }
  split; [exact Hin|exact (main_lines_well_formed 1 _ _ Hin)].
Defined.
