(* ===== verification/Termination.v ===== *)
(** * Every run of [main] ends

    A run of the model stops for one of five reasons: [main] returns,
    [log.Fatalf] exits, Go panics, [os.Exit] is called (never reached in
    [main], where it follows [log.Fatalf]), or a loop used up its fuel.
    The first four are behaviours of the program; the last is the
    model's bound.
    This file shows that the bound is never what stops [main] when the
    provider's listings are finite: every listing the sections send ends
    within [fuel] pages (or fails earlier), and the availability-domain
    listing, whose loop never advances its cursor, answers with a single
    page.  Without the last condition the loop repeats its request forever
    (Enumerators.ListAvailabilityDomains_diverges), so it cannot be
    dropped.

    The proof composes the [halts] discipline of the prelude ([ends]
    with the outcome "not out of fuel"): each step
    ends, a sequence of steps ends, a [for] over a list ends, and the
    pagination loop ends on a bounded listing. *)

From S2P Require Import Prelude Sdk Pagination Enumerators Metrics Driver.

(** The listings [main] sends end within [n] pages; the availability
    domains come in one page. *)
Record bounded_env (n : nat) (env : Env) : Prop := {
  bounded_instances : listing_bounded (ListInstances (provider env)) n;
  bounded_load_balancers : listing_bounded (ListLoadBalancers (provider env)) n;
  bounded_db_systems : listing_bounded (ListDbSystems (provider env)) n;
  bounded_buckets : listing_bounded (ListBuckets (provider env)) n;
  bounded_file_systems : listing_bounded (ListFileSystems (provider env)) n;
  bounded_snapshots : listing_bounded (ListSnapshots (provider env)) n;
  bounded_usages : listing_bounded (RequestSummarizedUsages (provider env)) n;
  single_page_domains : ∀ r p,
    Sdk.ListAvailabilityDomains (provider env) r = Ok p -> OpcNextPage p = None;
}.

(** A listing served as one page. *)
Definition one_page {Req Item} (f : Req -> result (Page Item)) : Prop :=
  ∀ r, ∃ p, f r = Ok p ∧ OpcNextPage p = None.

(** ** Bounded listings *)

Lemma listing_bounded_pos {Req Item} `{PageRequest Req} (f : Req -> result (Page Item)) n (r : Req) :
  listing_bounded f n -> 0 < n.
Proof.
  intros Hb. destruct (Hb r) as [(ps & Hps & Hlen)|(k & e & _ & Hk)]; [|lia].
  apply pages_from_nonempty in Hps. destruct ps; [done|]. simpl in Hlen. lia.
Qed.

Lemma one_page_bounded {Req Item} `{PageRequest Req} (f : Req -> result (Page Item)) n :
  one_page f -> 0 < n -> listing_bounded f n.
Proof.
  intros H1 Hn r. left. destruct (H1 r) as (p & Hf & Hc).
  exists [p]. split; [by constructor|simpl; lia].
Qed.

Lemma bounded_env_pos n env : bounded_env n env -> 0 < n.
Proof. intros [Hi ???????]. exact (listing_bounded_pos _ _ (instances_request "") Hi). Qed.

(** One listing loop inside a bounded process. *)
Ltac halts_listing :=
  eapply ends_weaken; [|apply paginate_halts];
  intros ? []; eassumption.

(** ** The enumerators end *)

Section Enumerators.
Context (fuel : nat).

Lemma ListAllInstances_halts tid : halts (bounded_env fuel) (ListAllInstances fuel tid).
Proof. unfold ListAllInstances, with_client. solve_halts. halts_listing. Qed.

Lemma ListAllLoadBalancers_halts tid :
  halts (bounded_env fuel) (ListAllLoadBalancers fuel tid).
Proof. unfold ListAllLoadBalancers, with_client. solve_halts. halts_listing. Qed.

Lemma ListAllDatabases_halts tid : halts (bounded_env fuel) (ListAllDatabases fuel tid).
Proof. unfold ListAllDatabases, with_client. solve_halts. halts_listing. Qed.

Lemma ListAllBuckets_halts tid : halts (bounded_env fuel) (ListAllBuckets fuel tid).
Proof. unfold ListAllBuckets, with_client. solve_halts. halts_listing. Qed.

Lemma ListAllFileSystems_halts tid ad :
  halts (bounded_env fuel) (ListAllFileSystems fuel tid ad).
Proof. unfold ListAllFileSystems, with_client. solve_halts. halts_listing. Qed.

Lemma ListFileStorageSnapshots_halts id :
  halts (bounded_env fuel) (ListFileStorageSnapshots fuel id).
Proof. unfold ListFileStorageSnapshots, with_client. solve_halts. halts_listing. Qed.

Lemma GetBillingReport_halts tid s e :
  halts (bounded_env fuel) (GetBillingReport fuel tid s e).
Proof. unfold GetBillingReport, with_client. solve_halts. halts_listing. Qed.

Lemma ListAvailabilityDomains_halts tid :
  halts (bounded_env fuel) (ListAvailabilityDomains fuel tid).
Proof.
  unfold ListAvailabilityDomains, with_client. solve_halts.
  intros env tr Hb. apply paginate_norethread_halts; [exact (bounded_env_pos _ _ Hb)|].
  intros p. exact (single_page_domains _ _ Hb _ p).
Qed.
End Enumerators.

#[export] Hint Resolve ListAllInstances_halts ListAllLoadBalancers_halts
  ListAllDatabases_halts ListAllBuckets_halts ListAllFileSystems_halts
  ListFileStorageSnapshots_halts GetBillingReport_halts ListAvailabilityDomains_halts : go.

(** ** The metrics end, whatever the provider *)

Section MetricsHalt.
Context (P : Env -> Prop).

Lemma reduce_series_halts metric m md : halts P (reduce_series metric m md).
Proof. unfold reduce_series. solve_halts. Qed.

Lemma query_metrics_halts tid queries m : halts P (query_metrics tid queries m).
Proof.
  revert m. induction queries as [|[metric q] queries IH]; intros m; simpl; solve_halts.
Qed.

Lemma GetInstanceMetrics_halts tid id : halts P (GetInstanceMetrics tid id).
Proof. unfold GetInstanceMetrics, with_client. solve_halts. apply query_metrics_halts. Qed.
End MetricsHalt.

#[export] Hint Resolve GetInstanceMetrics_halts : go.

(** ** The sections end *)

Section Sections.
Context (fuel : nat) (tid : string).

Lemma report_halts : halts (bounded_env fuel) (report fuel tid).
Proof.
  unfold report, section_instances, print_instance, print_instance_metrics,
    section_load_balancers, section_databases, section_buckets,
    section_availability_domains, section_file_systems, print_file_system,
    section_billing.
  solve_halts.
Qed.
End Sections.

#[export] Hint Resolve report_halts : go.

Lemma main_halts_bounded fuel : halts (bounded_env fuel) (main fuel).
Proof. unfold main. solve_halts. Qed.

(** ** Theorem *)

(** C7. [main] always ends by returning, by [log.Fatalf] or by a panic,
    never by exhausting a loop bound, in every process whose listings end
    within [fuel] pages and whose availability domains come in one page:
    the loops of the program terminate on finite listings. *)
Theorem main_halts fuel env tr :
  bounded_env fuel env -> snd (main fuel env tr) ≠ OutOfFuel.
Proof. intros Hb. exact (halts_run _ _ env tr (main_halts_bounded fuel) Hb). Qed.

(** ** Witness *)

Lemma main_halts_witness :
  bounded_env 1 (env_one_instance false) ∧ snd (main 1 (env_one_instance false) []) ≠ OutOfFuel.
Proof.
  assert (Hb : bounded_env 1 (env_one_instance false)).
  { constructor; try (apply one_page_bounded; [intros r; eexists; split; reflexivity|lia]).
    intros r p H. discriminate. }
  split; [exact Hb|exact (main_halts 1 _ [] Hb)].
Defined.
