(* ===== verification/Records.v ===== *)
(** * The record sections of the report

    Five sections of main.go have the same shape: print a title, run a
    listing, exit through [log.Fatalf] if it failed, and otherwise print
    each record with a [for range] loop (load balancers, lines 75-87;
    databases, lines 89-100; buckets, lines 102-113; availability
    domains, lines 115-125, which also return the domains; billing,
    lines 152-163).  What one iteration prints is described by a [Printer]: the
    lines of a record whose dereferenced fields are all set, and the
    lines printed before the first nil field panics (Go evaluates the
    arguments of [fmt.Printf] before the call, so the [fmt.Println] of the
    raw record comes first and the formatted line never appears).
    [print_records] runs a printer over a list as a pure function; each
    section's loop body satisfies its printer's law [body_spec], and the
    shape lemma [run_record_section] gives the output of the whole
    section on every branch.  For the buckets, the section is composed
    with [ListAllBuckets] and the pagination loop: from the pages the
    provider serves, or the failure of its listing, to what is printed. *)

From S2P Require Import Prelude Sdk Pagination Enumerators Metrics Driver.

Definition nil_deref : string := "invalid memory address or nil pointer dereference".

(** What one iteration of a record loop prints. *)
Record Printer (A : Type) := {
  complete : A -> bool;       (* every field the body dereferences is set *)
  lines : A -> list Event;    (* the lines of a complete record *)
  prefix : A -> list Event;   (* the lines printed before the panic *)
}.
Arguments complete {A} _ _.
Arguments lines {A} _ _.
Arguments prefix {A} _ _.

(** The loop over [xs] as a pure function: the lines printed and how the
    loop ended. *)
Fixpoint print_records {A} (P : Printer A) (xs : list A) : list Event * exec unit :=
  match xs with
  | [] => ([], Ret tt)
  | x :: xs' =>
      if complete P x then
        let '(t, s) := print_records P xs' in (lines P x ++ t, s)
      else (prefix P x, Panic nil_deref)
  end.

(** The law of a loop body: it prints the printer's lines. *)
Definition body_spec {A} (P : Printer A) (body : A -> GoM unit) : Prop :=
  ∀ x env tr, body x env tr =
    if complete P x then (tr ++ lines P x, Ret tt)
    else (tr ++ prefix P x, Panic nil_deref).

(** ** The printers of the four sections *)

(** Lines 83-85: [fmt.Println(loadBalancer)], then the line with
    [*DisplayName] and [*ShapeName]. *)
Definition load_balancer_printer : Printer LoadBalancer.t := {|
  complete lb := bool_decide (is_Some (LoadBalancer.DisplayName lb) ∧
                              is_Some (LoadBalancer.ShapeName lb));
  lines lb :=
    [EvOut (Println [load_balancer_value lb]);
     EvOut (Printf "  Name: %s, Shape: %s, State: %s\n"
              [VStr (default "" (LoadBalancer.DisplayName lb));
               VStr (default "" (LoadBalancer.ShapeName lb));
               VStr (LoadBalancer.LifecycleState lb)])];
  prefix lb := [EvOut (Println [load_balancer_value lb])];
|}.

(** Lines 97-99: [fmt.Println(database)], then the line with
    [*DisplayName]. *)
Definition database_printer : Printer DbSystemSummary.t := {|
  complete db := bool_decide (is_Some (DbSystemSummary.DisplayName db));
  lines db :=
    [EvOut (Println [database_value db]);
     EvOut (Printf "  Name: %s, DB: %s, State: %s\n"
              [VStr (default "" (DbSystemSummary.DisplayName db));
               VStr (DbSystemSummary.DatabaseEdition db);
               VStr (DbSystemSummary.LifecycleState db)])];
  prefix db := [EvOut (Println [database_value db])];
|}.

(** Lines 110-112: [fmt.Println(bucket)], then the line with [*Name],
    [*CreatedBy] and [*TimeCreated]. *)
Definition bucket_printer : Printer BucketSummary.t := {|
  complete b := bool_decide (is_Some (BucketSummary.Name b) ∧
                             is_Some (BucketSummary.CreatedBy b) ∧
                             is_Some (BucketSummary.TimeCreated b));
  lines b :=
    [EvOut (Println [bucket_value b]);
     EvOut (Printf "  Name: %s, Created by: %s, Creation Date: %s\n"
              [VStr (default "" (BucketSummary.Name b));
               VStr (default "" (BucketSummary.CreatedBy b));
               VTime (default 0%Z (BucketSummary.TimeCreated b))])];
  prefix b := [EvOut (Println [bucket_value b])];
|}.

(** Lines 160-163: the line with [*TimeUsageStarted] and
    [*ComputedQuantity]; the raw print is commented out. *)
Definition usage_printer : Printer UsageSummary.t := {|
  complete u := bool_decide (is_Some (UsageSummary.TimeUsageStarted u) ∧
                             is_Some (UsageSummary.ComputedQuantity u));
  lines u :=
    [EvOut (Printf "   Date: %s, Comp. Qty: %f\n"
              [VTime (default 0%Z (UsageSummary.TimeUsageStarted u));
               VFloat (default 0%float (UsageSummary.ComputedQuantity u))])];
  prefix u := [];
|}.

(** Lines 122-124: the line with [*Name] and [*Id]; the loop does not
    print the raw domain. *)
Definition availability_domain_printer : Printer AvailabilityDomain.t := {|
  complete ad := bool_decide (is_Some (AvailabilityDomain.Name ad) ∧
                              is_Some (AvailabilityDomain.Id ad));
  lines ad :=
    [EvOut (Printf "  Name: %s, ID: %s\n"
              [VStr (default "" (AvailabilityDomain.Name ad));
               VStr (default "" (AvailabilityDomain.Id ad))])];
  prefix ad := [];
|}.

(** Lines 126-129 of functions.go: the bucket listing of namespace [ns]. *)
Definition buckets_request (tenancyID ns : string) : ListBucketsRequest.t :=
  ListBucketsRequest.mk (Some ns) (Some tenancyID) None.

(** ** A concrete process *)

Definition lb_web : LoadBalancer.t := LoadBalancer.mk (Some "lb-web") (Some "flexible") "ACTIVE".
Definition lb_api : LoadBalancer.t := LoadBalancer.mk (Some "lb-api") (Some "100Mbps") "ACTIVE".
Definition bucket_logs : BucketSummary.t :=
  BucketSummary.mk (Some "logs") (Some "ocid1.user") (Some 1714521600%Z).
(** A bucket whose creator is not set. *)
Definition bucket_orphan : BucketSummary.t := BucketSummary.mk (Some "orphan") None (Some 0%Z).
Definition db_main : DbSystemSummary.t :=
  DbSystemSummary.mk (Some "db-main") "ENTERPRISE_EDITION" "AVAILABLE".
Definition usage_day1 : UsageSummary.t := UsageSummary.mk (Some billing_start) (Some 12.5%float).

Definition ad_home : AvailabilityDomain.t :=
  AvailabilityDomain.mk (Some "kIdk:EU-FRANKFURT-1-AD-1") (Some "ocid1.availabilitydomain.1").
Definition ad_phx : AvailabilityDomain.t :=
  AvailabilityDomain.mk (Some "kIdk:PHX-AD-2") (Some "ocid1.availabilitydomain.2").

(** A provider whose bucket listing answers [buckets]. *)
Definition records_provider (buckets : result (Page BucketSummary.t)) : Provider := {|
  ListInstances := empty_listing;
  ListBootVolumes := empty_listing;
  ListLoadBalancers := λ _, Ok (mkPage [lb_web; lb_api] None);
  GetNamespace := λ _, Ok (Some "ns");
  ListBuckets := λ _, buckets;
  Sdk.ListAvailabilityDomains := λ _, Ok (mkPage [ad_home; ad_phx] None);
  ListFileSystems := empty_listing;
  ListSnapshots := empty_listing;
  ListDbSystems := λ _, Ok (mkPage [db_main] None);
  RequestSummarizedUsages := λ _, Ok (mkPage [usage_day1] None);
  SummarizeMetricsData := λ _, Ok [] |}.

Definition buckets_page : Page BucketSummary.t :=
  mkPage [bucket_logs; bucket_orphan; bucket_logs] None.

Definition env_records : Env := env_of (records_provider (Ok buckets_page)) (λ _, None).

(** The same process when the bucket listing is throttled. *)
Definition env_buckets_throttled : Env :=
  env_of (records_provider (Err "TooManyRequests")) (λ _, None).

(** ** The loop as a pure function *)

Lemma print_records_stop {A} (P : Printer A) pre x post :
  Forall (λ y, complete P y = true) pre -> complete P x = false ->
  print_records P (pre ++ x :: post) = (concat (map (lines P) pre) ++ prefix P x, Panic nil_deref).
Proof.
  induction 1 as [|y pre Hy Hpre IH]; intros Hx; simpl; [by rewrite Hx|].
  rewrite Hy, IH by done. by rewrite app_assoc.
Qed.

Lemma run_for_printer {A} (P : Printer A) body xs env tr :
  body_spec P body ->
  for_ xs body env tr = (tr ++ fst (print_records P xs), snd (print_records P xs)).
Proof.
  intros Hb. revert tr. induction xs as [|x xs IH]; intros tr; simpl.
  { by rewrite app_nil_r. }
  specialize (Hb x env tr). destruct (complete P x).
  - erewrite run_bind_ret by exact Hb. rewrite IH.
    destruct (print_records P xs); simpl. by rewrite app_assoc.
  - by erewrite run_bind_halt by (exact Hb || reflexivity).
Qed.

(** A section of the shape of lines 75-87: title, listing, fatal exit
    or the loop. *)
Lemma run_record_section {A} (P : Printer A) title (listing : GoM (result (list A))) msg body
      env tr tr1 r :
  body_spec P body ->
  listing env (tr ++ [EvOut (Println [VStr title])]) = (tr1, Ret r) ->
  (println [VStr title];;
   r ← listing;
   match r with
   | Err err => fatalf msg [VErr err]
   | Ok xs => for_ xs body
   end) env tr =
  match r with
  | Ok xs => (tr1 ++ fst (print_records P xs), snd (print_records P xs))
  | Err e => (tr1, Fatal (Printf msg [VErr e]))
  end.
Proof.
  intros Hb Hl. erewrite run_bind_ret by reflexivity. erewrite run_bind_ret by exact Hl.
  destruct r; [by apply run_for_printer|reflexivity].
Qed.

(** The same shape when the section returns the records it listed
    (lines 115-125): the loop's outcome, or the records. *)
Lemma run_listing_section {A} (P : Printer A) title (listing : GoM (result (list A))) msg body
      env tr tr1 r :
  body_spec P body ->
  listing env (tr ++ [EvOut (Println [VStr title])]) = (tr1, Ret r) ->
  (println [VStr title];;
   r ← listing;
   match r with
   | Err err => fatalf msg [VErr err]
   | Ok xs => for_ xs body;; mret xs
   end) env tr =
  match r with
  | Ok xs => (tr1 ++ fst (print_records P xs), default (Ret xs) (halted (snd (print_records P xs))))
  | Err e => (tr1, Fatal (Printf msg [VErr e]))
  end.
Proof.
  intros Hb Hl. erewrite run_bind_ret by reflexivity. erewrite run_bind_ret by exact Hl.
  destruct r as [xs|e]; [|reflexivity].
  pose proof (run_for_printer P body xs env tr1 Hb) as Hf.
  destruct (print_records P xs) as [t [[]| | | |]]; simpl in *;
    [by erewrite run_bind_ret by exact Hf|by erewrite run_bind_halt by (exact Hf || reflexivity)..].
Qed.

(** A loop body that dereferences the fields of a record obeys its
    printer: by cases on which fields are set. *)
Ltac solve_body_spec :=
  let x := fresh "x" in
  intros x ?env ?tr; destruct x;
  repeat match goal with o : option _ |- _ => destruct o end;
  cbv [mbind M_MBind M_bind mret M_MRet M_ret println printf emit deref panic complete lines
       prefix bool_decide]; cbn; rewrite <- ?app_assoc, ?app_nil_r; reflexivity.

(** The bucket listing of [ListAllBuckets] once the namespace is
    known: the lookup, then the pages of the chain or its failure. *)
Lemma ListAllBuckets_served fuel tid env tr ns ps :
  NewClient env ObjectStorageClient = None ->
  GetNamespace (provider env) (namespace_request tid) = Ok (Some ns) ->
  pages_from (ListBuckets (provider env)) (buckets_request tid ns) ps -> length ps ≤ fuel ->
  ListAllBuckets fuel tid env tr =
    (tr ++ EvCall (CGetNamespace (namespace_request tid)) ::
       calls_of CListBuckets (page_requests (buckets_request tid ns) ps),
     Ret (Ok (concat (map Items ps)))).
Proof.
  intros Hc Hns Hps Hf. rewrite (run_ListAllBuckets_ns _ _ _ _ ns) by done.
  rewrite (paginate_pages _ _ env _ ps) by done. by rewrite <- app_assoc.
Qed.

Lemma ListAllBuckets_fails fuel tid env tr ns n e :
  NewClient env ObjectStorageClient = None ->
  GetNamespace (provider env) (namespace_request tid) = Ok (Some ns) ->
  fails_from (ListBuckets (provider env)) (buckets_request tid ns) n e -> n < fuel ->
  ListAllBuckets fuel tid env tr =
    (tr ++ EvCall (CGetNamespace (namespace_request tid)) ::
       calls_of CListBuckets (failing_requests (ListBuckets (provider env))
                                (buckets_request tid ns) n),
     Ret (Err e)).
Proof.
  intros Hc Hns Hf Hn. rewrite (run_ListAllBuckets_ns _ _ _ _ ns) by done.
  rewrite (paginate_fails _ _ env _ n e) by done. by rewrite <- app_assoc.
Qed.

(** C20. The load-balancer section (main.go lines 75-87) on each branch
    of its listing: a failed listing exits through [log.Fatalf] with
    "Error fetching Load Balancers"; otherwise each load balancer is
    printed raw and then as its name, shape and state line, in listing
    order, until the first one without a [DisplayName] or [ShapeName],
    whose raw print is followed by a nil-dereference panic. *)
Theorem section_load_balancers_output fuel tid env tr tr1 r :
  ListAllLoadBalancers fuel tid env (tr ++ [EvOut (Println [VStr "Load Balancers:"])]) =
    (tr1, Ret r) ->
  section_load_balancers fuel tid env tr =
  match r with
  | Ok lbs => (tr1 ++ fst (print_records load_balancer_printer lbs),
               snd (print_records load_balancer_printer lbs))
  | Err e => (tr1, Fatal (Printf "Error fetching Load Balancers: %v" [VErr e]))
  end.
Proof. intros Hl. eapply run_record_section; [solve_body_spec|exact Hl]. Qed.

(** C23. The database section (main.go lines 89-100) on each branch of
    its listing: a failed listing exits with "Error fetching Databases";
    otherwise each database system is printed raw and then as its name,
    edition and state line, until the first without a [DisplayName],
    which panics after its raw print. *)
Theorem section_databases_output fuel tid env tr tr1 r :
  ListAllDatabases fuel tid env (tr ++ [EvOut (Println [VStr "Databases:"])]) = (tr1, Ret r) ->
  section_databases fuel tid env tr =
  match r with
  | Ok dbs => (tr1 ++ fst (print_records database_printer dbs),
               snd (print_records database_printer dbs))
  | Err e => (tr1, Fatal (Printf "Error fetching Databases: %v" [VErr e]))
  end.
Proof. intros Hl. eapply run_record_section; [solve_body_spec|exact Hl]. Qed.

(** C21. The billing section (main.go lines 152-163) on each branch of
    the usage listing: a failed listing exits with the message "Error
    fetching Buckets"; otherwise one line per usage item, its start date
    and computed quantity, in listing order, until the first item
    without a start time or a quantity, which panics having printed
    nothing of its own. *)
Theorem section_billing_output fuel tid env tr tr1 r :
  GetBillingReport fuel tid billing_start billing_end env
    (tr ++ [EvOut (Println [VStr "Billing:"])]) = (tr1, Ret r) ->
  section_billing fuel tid env tr =
  match r with
  | Ok us => (tr1 ++ fst (print_records usage_printer us),
              snd (print_records usage_printer us))
  | Err e => (tr1, Fatal (Printf "Error fetching Buckets: %v" [VErr e]))
  end.
Proof. intros Hl. eapply run_record_section; [solve_body_spec|exact Hl]. Qed.

(** C17. A bucket with a nil [Name], [CreatedBy] or [TimeCreated] ends the
    run with a Go nil-dereference panic, not with a logged message: the
    buckets before it are printed in full, its own raw value is printed,
    and nothing after it. *)
Theorem section_buckets_nil_panic fuel tid env tr tr1 pre b post :
  ListAllBuckets fuel tid env (tr ++ [EvOut (Println [VStr "Buckets:"])]) =
    (tr1, Ret (Ok (pre ++ b :: post))) ->
  Forall (λ x, complete bucket_printer x = true) pre ->
  BucketSummary.Name b = None ∨ BucketSummary.CreatedBy b = None ∨
    BucketSummary.TimeCreated b = None ->
  section_buckets fuel tid env tr =
    (tr1 ++ concat (map (lines bucket_printer) pre) ++ [EvOut (Println [bucket_value b])],
     Panic nil_deref).
Proof.
  intros Hl Hpre Hb. unfold section_buckets.
  erewrite (run_record_section bucket_printer); [|solve_body_spec|exact Hl].
  cbv beta iota. rewrite print_records_stop; [done|done|].
  cbn. apply bool_decide_eq_false. destruct Hb as [-> | [-> | ->]]; intros ?; naive_solver.
Qed.

(** C18. The bucket section composed with the enumerator and the
    pagination loop: with the Object Storage client created, the
    namespace [ns] resolved and the provider serving the pages [ps] from
    the first bucket request, given fuel for the pages, the section
    prints its title, sends the namespace lookup and one listing request
    per page, then prints the buckets of all pages in page order, and
    panics at the first bucket with a nil field. *)
Theorem section_buckets_served fuel tid env tr ns ps :
  NewClient env ObjectStorageClient = None ->
  GetNamespace (provider env) (namespace_request tid) = Ok (Some ns) ->
  pages_from (ListBuckets (provider env)) (buckets_request tid ns) ps -> length ps ≤ fuel ->
  section_buckets fuel tid env tr =
    (tr ++ EvOut (Println [VStr "Buckets:"]) :: EvCall (CGetNamespace (namespace_request tid)) ::
       calls_of CListBuckets (page_requests (buckets_request tid ns) ps) ++
       fst (print_records bucket_printer (concat (map Items ps))),
     snd (print_records bucket_printer (concat (map Items ps)))).
Proof.
  intros Hc Hns Hps Hf. unfold section_buckets.
  erewrite (run_record_section bucket_printer);
    [|solve_body_spec|by apply ListAllBuckets_served].
  cbv beta iota. by rewrite <- !app_assoc.
Qed.

(** C19. A bucket listing that fails after [n] pages ends the section
    with [log.Fatalf] "Error fetching Buckets", after the title, the
    namespace lookup and the [n + 1] listing requests, and before any
    bucket is printed: the buckets of the pages already fetched are
    dropped. *)
Theorem section_buckets_listing_fails fuel tid env tr ns n e :
  NewClient env ObjectStorageClient = None ->
  GetNamespace (provider env) (namespace_request tid) = Ok (Some ns) ->
  fails_from (ListBuckets (provider env)) (buckets_request tid ns) n e -> n < fuel ->
  section_buckets fuel tid env tr =
    (tr ++ EvOut (Println [VStr "Buckets:"]) :: EvCall (CGetNamespace (namespace_request tid)) ::
       calls_of CListBuckets (failing_requests (ListBuckets (provider env))
                                (buckets_request tid ns) n),
     Fatal (Printf "Error fetching Buckets: %v" [VErr e])).
Proof.
  intros Hc Hns Hf Hn. unfold section_buckets.
  erewrite (run_record_section bucket_printer);
    [|solve_body_spec|by apply ListAllBuckets_fails].
  cbv beta iota. by rewrite <- !app_assoc.
Qed.

(** C22. The availability-domain section (main.go lines 115-125) on
    each branch of its listing: a failed listing exits with the message
    "Error fetching Buckets"; otherwise one name and ID line per domain,
    in listing order, and the section returns the domains unchanged to
    the file-system section, unless a domain without [Name] or [Id]
    panics first. *)
Theorem section_availability_domains_output fuel tid env tr tr1 r :
  ListAvailabilityDomains fuel tid env (tr ++ [EvOut (Println [VStr "Availability Domains:"])]) =
    (tr1, Ret r) ->
  section_availability_domains fuel tid env tr =
  match r with
  | Ok ads => (tr1 ++ fst (print_records availability_domain_printer ads),
               default (Ret ads) (halted (snd (print_records availability_domain_printer ads))))
  | Err e => (tr1, Fatal (Printf "Error fetching Buckets: %v" [VErr e]))
  end.
Proof. intros Hl. eapply run_listing_section; [solve_body_spec|exact Hl]. Qed.

(** ** Witnesses *)

Lemma section_load_balancers_output_witness :
  section_load_balancers 1 "ocid1.tenancy" env_records [] =
    (fst (ListAllLoadBalancers 1 "ocid1.tenancy" env_records
            [EvOut (Println [VStr "Load Balancers:"])]) ++
       fst (print_records load_balancer_printer [lb_web; lb_api]),
     snd (print_records load_balancer_printer [lb_web; lb_api])).
Proof. apply (section_load_balancers_output 1 _ _ [] _ (Ok [lb_web; lb_api])). vm_compute. reflexivity. Defined.

Lemma section_databases_output_witness :
  section_databases 1 "ocid1.tenancy" env_records [] =
    (fst (ListAllDatabases 1 "ocid1.tenancy" env_records [EvOut (Println [VStr "Databases:"])]) ++
       fst (print_records database_printer [db_main]),
     snd (print_records database_printer [db_main])).
Proof. apply (section_databases_output 1 _ _ [] _ (Ok [db_main])). vm_compute. reflexivity. Defined.

Lemma section_billing_output_witness :
  section_billing 1 "ocid1.tenancy" env_records [] =
    (fst (GetBillingReport 1 "ocid1.tenancy" billing_start billing_end env_records
            [EvOut (Println [VStr "Billing:"])]) ++
       fst (print_records usage_printer [usage_day1]),
     snd (print_records usage_printer [usage_day1])).
Proof. apply (section_billing_output 1 _ _ [] _ (Ok [usage_day1])). vm_compute. reflexivity. Defined.

Lemma section_buckets_nil_panic_witness :
  section_buckets 1 "ocid1.tenancy" env_records [] =
    (fst (ListAllBuckets 1 "ocid1.tenancy" env_records [EvOut (Println [VStr "Buckets:"])]) ++
       concat (map (lines bucket_printer) [bucket_logs]) ++
       [EvOut (Println [bucket_value bucket_orphan])],
     Panic nil_deref).
Proof.
  apply (section_buckets_nil_panic 1 _ _ [] _ [bucket_logs] bucket_orphan [bucket_logs]).
  - vm_compute. reflexivity.
  - repeat constructor.
  - right. left. reflexivity.
Defined.

Lemma section_buckets_served_witness :
  section_buckets 1 "ocid1.tenancy" env_records [] =
    ([] ++ EvOut (Println [VStr "Buckets:"]) ::
       EvCall (CGetNamespace (namespace_request "ocid1.tenancy")) ::
       calls_of CListBuckets (page_requests (buckets_request "ocid1.tenancy" "ns") [buckets_page]) ++
       fst (print_records bucket_printer (concat (map Items [buckets_page]))),
     snd (print_records bucket_printer (concat (map Items [buckets_page])))).
Proof.
  apply (section_buckets_served 1 _ _ [] "ns"); [reflexivity|reflexivity| |simpl; lia].
  by apply pages_last.
Defined.

Lemma section_buckets_listing_fails_witness :
  section_buckets 1 "ocid1.tenancy" env_buckets_throttled [] =
    ([] ++ EvOut (Println [VStr "Buckets:"]) ::
       EvCall (CGetNamespace (namespace_request "ocid1.tenancy")) ::
       calls_of CListBuckets (failing_requests (ListBuckets (provider env_buckets_throttled))
                                (buckets_request "ocid1.tenancy" "ns") 0),
     Fatal (Printf "Error fetching Buckets: %v" [VErr "TooManyRequests"])).
Proof.
  apply (section_buckets_listing_fails 1 _ _ [] "ns" 0); [reflexivity|reflexivity| |lia].
  by apply fails_here.
Defined.

Lemma section_availability_domains_output_witness :
  section_availability_domains 1 "ocid1.tenancy" env_records [] =
    (fst (ListAvailabilityDomains 1 "ocid1.tenancy" env_records
            [EvOut (Println [VStr "Availability Domains:"])]) ++
       fst (print_records availability_domain_printer [ad_home; ad_phx]),
     Ret [ad_home; ad_phx]).
Proof.
  apply (section_availability_domains_output 1 _ _ [] _ (Ok [ad_home; ad_phx])).
  vm_compute. reflexivity.
Defined.
